(** * Producer/consumer linear-programming model: embedding and properties

    Shallow embedding of [ortools_examples/linear/algorithms/producer_consumer.py].

    - Instants ([datetime]) are integers: microseconds elapsed since
      [datetime.min]; durations ([timedelta]) are integers in microseconds.
      Python's [%] on durations is floor division remainder on these
      integers and raises [ZeroDivisionError] on a zero divisor.  A
      [datetime] lies between [datetime.min] and [datetime.max] (years 1 to
      9999): adding a duration to an instant raises [OverflowError] when
      the sum leaves this range, and dateutil's [rrule] stops yielding at
      the end of year 9999.
    - Python numbers (prices, units, solution values) are kept abstract in the
      class [Number]: no algebraic law is assumed of [+] and [*], so every
      statement holds for machine floats evaluated in the order the code
      evaluates them.  The properties of solutions that need the laws of
      arithmetic (sums over a schedule) are stated for the integers.
    - Dictionaries are association lists in insertion order (the iteration
      order of a Python dict), with unique keys maintained by [dict_set].
    - The numeric solver is an external collaborator: the part of its state
      that the code builds (variables, constraints, objective) is the record
      [Solver]; what [Solve()] and [solution_value()] answer is a parameter. *)

From Stdlib Require Import ZArith List String Ascii Bool Lia Arith.
From Stdlib Require Import Permutation Sorted DecimalString.
Import ListNotations.

Set Implicit Arguments.

(** ** Exceptions and fallible computations *)

Inductive exn : Type :=
| AssertionError
| ZeroDivisionError
| OverflowError
| AttributeError
| TypeError
| KeyError.

Inductive result (A : Type) : Type :=
| Ok (a : A)
| Raise (e : exn).

Arguments Ok {A} a.
Arguments Raise {A} e.

Definition bind {A B : Type} (r : result A) (k : A -> result B) : result B :=
  match r with
  | Ok a => k a
  | Raise e => Raise e
  end.

Notation "x <- r ;; k" := (bind r (fun x => k))
  (at level 61, r at next level, right associativity).

(** [getattr_of o e]: attribute access on the value of a lookup that may be
    [None]; Python raises [e] there. *)
Definition getattr_of {A : Type} (o : option A) (e : exn) : result A :=
  match o with
  | Some a => Ok a
  | None => Raise e
  end.

(** A [for] loop whose body may raise. *)
Fixpoint for_each {S A : Type} (body : S -> A -> result S) (l : list A) (s : S)
  : result S :=
  match l with
  | [] => Ok s
  | a :: l' => s' <- body s a ;; for_each body l' s'
  end.

(** A comprehension whose element expression may raise: the elements are
    evaluated in order and the first exception ends the evaluation. *)
Fixpoint map_result {A B : Type} (f : A -> result B) (l : list A)
  : result (list B) :=
  match l with
  | [] => Ok []
  | a :: l' => b <- f a ;; bs <- map_result f l' ;; Ok (b :: bs)
  end.

(** The longest initial run of [l] whose elements satisfy [p]. *)
Fixpoint take_while {A : Type} (p : A -> bool) (l : list A) : list A :=
  match l with
  | [] => []
  | a :: l' => if p a then a :: take_while p l' else []
  end.

(** ** Dictionaries in insertion order *)

Class EqDec (K : Type) := eq_dec : forall x y : K, {x = y} + {x <> y}.

#[export] Instance string_EqDec : EqDec string := string_dec.
#[export] Instance nat_EqDec : EqDec nat := Nat.eq_dec.

Abbreviation dict K V := (list (K * V)).

Section Dict.
Context {K V : Type} `{EqDec K}.

(** [d.get(k)] *)
Fixpoint dict_get (d : dict K V) (k : K) : option V :=
  match d with
  | [] => None
  | (k', v) :: d' => if eq_dec k k' then Some v else dict_get d' k
  end.

(** [d[k] = v]: an existing key keeps its position, a new key goes last. *)
Fixpoint dict_set (d : dict K V) (k : K) (v : V) : dict K V :=
  match d with
  | [] => [(k, v)]
  | (k', v') :: d' =>
      if eq_dec k k' then (k', v) :: d' else (k', v') :: dict_set d' k v
  end.

Definition keys (d : dict K V) : list K := map fst d.
Definition values (d : dict K V) : list V := map snd d.

Fixpoint memb (k : K) (l : list K) : bool :=
  match l with
  | [] => false
  | k' :: l' => if eq_dec k k' then true else memb k l'
  end.

Fixpoint uniqueb (l : list K) : bool :=
  match l with
  | [] => true
  | k :: l' => negb (memb k l') && uniqueb l'
  end.
End Dict.

(** ** Dates *)

Definition datetime := Z.
Definition timedelta := Z.

(** [datetime.min] is 0001-01-01 00:00:00 and [datetime.max] is
    9999-12-31 23:59:59.999999, the last microsecond of day 3652059 of the
    proleptic Gregorian calendar. *)
Definition datetime_min : datetime := 0%Z.
Definition datetime_max : datetime := (3652059 * 86400000000 - 1)%Z.

(** [dt + td] for a datetime [dt] and a timedelta [td]: Python raises
    [OverflowError] ("date value out of range") when the sum is not a
    datetime. *)
Definition datetime_add (dt : datetime) (td : timedelta) : result datetime :=
  let r := (dt + td)%Z in
  if (r <? datetime_min)%Z || (datetime_max <? r)%Z then Raise OverflowError
  else Ok r.

(** [timedelta(minutes=m)] *)
Definition timedelta_minutes (m : Z) : timedelta := (m * 60000000)%Z.

(** [timedelta(hours=h)] *)
Definition timedelta_hours (h : Z) : timedelta := (h * 3600000000)%Z.

(** ** Numbers *)

Class Number (num : Type) := {
  zero : num;
  one : num;
  add : num -> num -> num;
  mul : num -> num -> num;
  gtb : num -> num -> bool
}.

#[export] Instance Z_Number : Number Z := {|
  zero := 0%Z;
  one := 1%Z;
  add := Z.add;
  mul := Z.mul;
  gtb := Z.gtb
|}.

(** ** Domain entities *)

Section Entities.
Context {num : Type} `{Number num}.

Record Consumer : Type := {
  c_id : string;
  required_units : num;
  departure_date : datetime
}.

(** [p_ref] is the identity of the Python object: [Producer] defines
    [__hash__] but no [__eq__], so two producers in a [set] are the same
    element only when they are the same object. *)
Record Producer : Type := {
  p_ref : nat;
  p_id : string;
  max_supply : num
}.

Record Delivery : Type := {
  consumer : Consumer;
  producer : Producer
}.

(** [f"c-{self.consumer.id}, p-{self.producer.id}"] *)
Definition Delivery_id (d : Delivery) : string :=
  ("c-" ++ c_id (consumer d) ++ ", p-" ++ p_id (producer d))%string.

Record UnitPrice : Type := {
  up_date_from : option datetime;
  up_date_until : option datetime;
  up_block_number : option Z;
  up_price : num
}.

Record TimeBlock : Type := {
  number : nat;
  date_from : datetime;
  date_until : datetime;
  price : num
}.

(** *** TimeBlock.ceil_dt

    [dt + (datetime.min - dt) % delta]: the difference of two datetimes is
    always a timedelta, [%] raises on a zero [delta], and the final sum
    raises when it passes [datetime.max]. *)
Definition ceil_dt (dt : datetime) (delta : timedelta) : result datetime :=
  if (delta =? 0)%Z then Raise ZeroDivisionError
  else datetime_add dt ((datetime_min - dt) mod delta)%Z.

(** [list(rrule(MINUTELY, interval=i, dtstart=s, count=n))] of dateutil:
    the instants [s], [s + i min], [s + 2 i min], ... where [s] is
    [dtstart] without its microseconds; the iteration ends after [n]
    instants, or earlier, without an exception, at the first instant that
    lies after year 9999. *)
Definition rrule_minutely (interval : Z) (dtstart : datetime) (count : nat)
  : list datetime :=
  let s := (dtstart - dtstart mod 1000000)%Z in
  take_while (fun t => (t <=? datetime_max)%Z)
    (map (fun k => (s + Z.of_nat k * timedelta_minutes interval)%Z)
         (seq 0 count)).

Definition enumerate {A : Type} (l : list A) : list (nat * A) :=
  combine (seq 0 (List.length l)) l.

Fixpoint get_price_for_date_or_number (unit_prices : list UnitPrice)
         (date : datetime) (n : nat) : num :=
  match unit_prices with
  | [] => zero
  | energy_price :: rest =>
      if match up_block_number energy_price with
         | Some bn => (bn =? Z.of_nat n)%Z
         | None => false
         end
      then up_price energy_price
      else if match up_date_from energy_price, up_date_until energy_price with
              | Some f, Some u => (f <=? date)%Z && (date <? u)%Z
              | _, _ => false
              end
      then up_price energy_price
      else get_price_for_date_or_number rest date n
  end.

(** *** TimeBlock.period_to_blocks

    For a positive integer [b], [int(60 / b)] is the integer quotient.
    The returned dict is keyed by [str(number)] for the distinct numbers
    [0 .. total_blocks - 1] in this order: [get(str(k))] is the [k]-th
    element of the list.  The comprehension evaluates
    [time + timedelta(minutes=minutes_per_block)] for each instant in turn,
    which raises once the end of a block passes [datetime.max]. *)
Definition period_to_blocks (blocks_per_hour hours : Z)
           (initial_date : datetime) (unit_prices : list UnitPrice)
  : result (list TimeBlock) :=
  if negb (blocks_per_hour >? 0)%Z then Raise AssertionError
  else if negb (hours >? 0)%Z then Raise AssertionError
  else
    let total_blocks := (blocks_per_hour * hours)%Z in
    let minutes_per_block := (60 / blocks_per_hour)%Z in
    start_date <- ceil_dt initial_date (timedelta_minutes minutes_per_block) ;;
    let times :=
      rrule_minutely minutes_per_block start_date (Z.to_nat total_blocks) in
    map_result
      (fun '(n, time) =>
         until <- datetime_add time (timedelta_minutes minutes_per_block) ;;
         Ok {| number := n;
               date_from := time;
               date_until := until;
               price := get_price_for_date_or_number unit_prices time n |})
      (enumerate times).
End Entities.

Arguments Consumer num : clear implicits.
Arguments Producer num : clear implicits.
Arguments Delivery num : clear implicits.
Arguments UnitPrice num : clear implicits.
Arguments TimeBlock num : clear implicits.

(** ** The solver's model (external collaborator, pywraplp)

    Variables and constraints are handles: their index in creation order.
    A constraint keeps a coefficient per variable; [SetCoefficient] on a
    variable that already has one replaces it. *)

Section SolverModel.
Context {num : Type} `{Number num}.

(** A bound is a number or [solver.infinity()]. *)
Inductive bound : Type :=
| Fin (x : num)
| PosInf.

Record MPVariable : Type := {
  var_lb : bound;
  var_ub : bound;
  var_name : string
}.

Record MPConstraint : Type := {
  con_lb : bound;
  con_ub : bound;
  con_terms : dict nat num
}.

Record Solver : Type := {
  solver_variables : list MPVariable;
  solver_constraints : list MPConstraint;
  objective : dict nat num;
  minimization : bool
}.

Definition new_solver : Solver :=
  {| solver_variables := [];
     solver_constraints := [];
     objective := [];
     minimization := false |}.

Definition NumVar (s : Solver) (lb ub : bound) (name : string) : nat * Solver :=
  (List.length (solver_variables s),
   {| solver_variables := solver_variables s ++ [{| var_lb := lb; var_ub := ub; var_name := name |}];
      solver_constraints := solver_constraints s;
      objective := objective s;
      minimization := minimization s |}).

Definition Constraint (s : Solver) (lb ub : bound) : nat * Solver :=
  (List.length (solver_constraints s),
   {| solver_variables := solver_variables s;
      solver_constraints := solver_constraints s ++ [{| con_lb := lb; con_ub := ub; con_terms := [] |}];
      objective := objective s;
      minimization := minimization s |}).

Fixpoint update_nth {A : Type} (n : nat) (f : A -> A) (l : list A) : list A :=
  match l, n with
  | [], _ => []
  | x :: l', O => f x :: l'
  | x :: l', S n' => x :: update_nth n' f l'
  end.

Definition set_term (variable : nat) (coefficient : num) (c : MPConstraint)
  : MPConstraint :=
  {| con_lb := con_lb c;
     con_ub := con_ub c;
     con_terms := dict_set (con_terms c) variable coefficient |}.

(** [constraint.SetCoefficient(variable, coefficient)] *)
Definition Constraint_SetCoefficient (s : Solver) (constraint variable : nat)
           (coefficient : num) : Solver :=
  {| solver_variables := solver_variables s;
     solver_constraints :=
       update_nth constraint (set_term variable coefficient) (solver_constraints s);
     objective := objective s;
     minimization := minimization s |}.

(** [objective.SetCoefficient(variable, coefficient)] *)
Definition Objective_SetCoefficient (s : Solver) (variable : nat)
           (coefficient : num) : Solver :=
  {| solver_variables := solver_variables s;
     solver_constraints := solver_constraints s;
     objective := dict_set (objective s) variable coefficient;
     minimization := minimization s |}.

(** [objective.SetMinimization()] *)
Definition SetMinimization (s : Solver) : Solver :=
  {| solver_variables := solver_variables s;
     solver_constraints := solver_constraints s;
     objective := objective s;
     minimization := true |}.

(** Result status of [Solve()]. *)
Inductive Status : Type :=
| OPTIMAL
| FEASIBLE
| INFEASIBLE
| UNBOUNDED
| ABNORMAL
| MODEL_INVALID
| NOT_SOLVED.

Definition Status_eqb (a b : Status) : bool :=
  match a, b with
  | OPTIMAL, OPTIMAL | FEASIBLE, FEASIBLE | INFEASIBLE, INFEASIBLE
  | UNBOUNDED, UNBOUNDED | ABNORMAL, ABNORMAL
  | MODEL_INVALID, MODEL_INVALID | NOT_SOLVED, NOT_SOLVED => true
  | _, _ => false
  end.

(** What the external solver answers for a model: the status of [Solve()]
    and the [solution_value()] of each variable handle. *)
Definition Oracle : Type := Solver -> Status * (nat -> num).
End SolverModel.

Arguments bound num : clear implicits.
Arguments MPVariable num : clear implicits.
Arguments MPConstraint num : clear implicits.
Arguments Solver num : clear implicits.
Arguments Oracle num : clear implicits.

(** ** Schedule and ProducerConsumerAlgorithm *)

(** [variables]: delivery id -> (block number -> variable handle). *)
Abbreviation VarTable := (dict string (dict nat nat)).

Section Algorithm.
Context {num : Type} `{Number num}.


(** The [company] and [name] attributes are omitted: model building and
    extraction never read them. *)
Record Algorithm : Type := {
  initial_date : datetime;
  blocks_per_hour : Z;
  hours : Z;
  time_blocks : list (TimeBlock num);
  unit_prices : list (UnitPrice num);
  deliveries : dict string (Delivery num);
  variables : option VarTable;
  solver : option (Solver num)
}.

(** [ProducerConsumerAlgorithm()]; [now] is [datetime.now()]. *)
Definition ProducerConsumerAlgorithm (now : datetime) : Algorithm :=
  {| initial_date := now;
     blocks_per_hour := 4;
     hours := 24;
     time_blocks := [];
     unit_prices := [];
     deliveries := [];
     variables := None;
     solver := None |}.

Definition with_initial_date (self : Algorithm) (d : datetime) : Algorithm :=
  {| initial_date := d;
     blocks_per_hour := blocks_per_hour self;
     hours := hours self;
     time_blocks := time_blocks self;
     unit_prices := unit_prices self;
     deliveries := deliveries self;
     variables := variables self;
     solver := solver self |}.

Definition with_hours (self : Algorithm) (h : Z) : Algorithm :=
  {| initial_date := initial_date self;
     blocks_per_hour := blocks_per_hour self;
     hours := h;
     time_blocks := time_blocks self;
     unit_prices := unit_prices self;
     deliveries := deliveries self;
     variables := variables self;
     solver := solver self |}.

Definition with_blocks_per_hour (self : Algorithm) (b : Z) : Algorithm :=
  {| initial_date := initial_date self;
     blocks_per_hour := b;
     hours := hours self;
     time_blocks := time_blocks self;
     unit_prices := unit_prices self;
     deliveries := deliveries self;
     variables := variables self;
     solver := solver self |}.

Definition is_not_None {A : Type} (o : option A) : bool :=
  match o with
  | Some _ => true
  | None => false
  end.

(** A [datetime] is always truthy, so [date_from and date_until] is truthy
    exactly when both are given. *)
Definition with_unit_price (self : Algorithm)
           (date_from date_until : option datetime) (block_number : option Z)
           (price : num) : result Algorithm :=
  if negb (is_not_None block_number
           || (is_not_None date_from && is_not_None date_until))
  then Raise AssertionError
  else
    Ok {| initial_date := initial_date self;
          blocks_per_hour := blocks_per_hour self;
          hours := hours self;
          time_blocks := time_blocks self;
          unit_prices :=
            unit_prices self ++
            [{| up_date_from := date_from;
                up_date_until := date_until;
                up_block_number := block_number;
                up_price := price |}];
          deliveries := deliveries self;
          variables := variables self;
          solver := solver self |}.

Definition with_delivery (self : Algorithm) (c : Consumer num)
           (p : Producer num) : Algorithm :=
  let delivery := {| consumer := c; producer := p |} in
  {| initial_date := initial_date self;
     blocks_per_hour := blocks_per_hour self;
     hours := hours self;
     time_blocks := time_blocks self;
     unit_prices := unit_prices self;
     deliveries := dict_set (deliveries self) (Delivery_id delivery) delivery;
     variables := variables self;
     solver := solver self |}.

(** The dict [deliveries] as [with_delivery] keeps it: every key is the id
    of its delivery and no key occurs twice. *)
Definition keyed_by_id (ds : dict string (Delivery num)) : bool :=
  forallb (fun kd => if string_dec (fst kd) (Delivery_id (snd kd)) then true else false) ds
  && uniqueb (keys ds).

(** *** _get_producers

    A set of objects; its iteration order in Python is the hash order,
    here the order of first occurrence. *)
Definition same_object (p q : Producer num) : bool := p_ref p =? p_ref q.

Definition set_add (s : list (Producer num)) (p : Producer num)
  : list (Producer num) :=
  if existsb (same_object p) s then s else s ++ [p].

Definition _get_producers (ds : dict string (Delivery num))
  : list (Producer num) :=
  fold_left (fun s kd => set_add s (producer (snd kd))) ds [].
End Algorithm.

Arguments Algorithm num : clear implicits.

Notation "' pat <- r ;; k" := (bind r (fun pat => k))
  (at level 61, pat pattern, r at next level, right associativity).

Section Solve.
Context {num : Type} `{Number num}.

(** [str(n)] for a block number. *)
Definition str (n : nat) : string := NilEmpty.string_of_uint (Nat.to_uint n).

(** *** solve, lines 351-372: variables and objective

    Body of the inner loop for one [block_number]. *)
Definition create_variable (tbs : list (TimeBlock num)) (delivery : Delivery num)
           (st : Solver num * VarTable) (block_number : nat)
  : result (Solver num * VarTable) :=
  let '(s, vars) := st in
  time_block <- getattr_of (nth_error tbs block_number) AttributeError ;;
  if (date_until time_block <=? departure_date (consumer delivery))%Z then
    let '(v, s1) :=
      NumVar s (Fin zero) PosInf
             (Delivery_id delivery ++ "-" ++ str (number time_block))%string in
    delivery_vars <- getattr_of (dict_get vars (Delivery_id delivery)) TypeError ;;
    let vars1 :=
      dict_set vars (Delivery_id delivery) (dict_set delivery_vars block_number v) in
    delivery_vars1 <- getattr_of (dict_get vars1 (Delivery_id delivery)) TypeError ;;
    variable <- getattr_of (dict_get delivery_vars1 block_number) KeyError ;;
    Ok (Objective_SetCoefficient s1 variable (price time_block), vars1)
  else Ok st.

Definition create_variables (tbs : list (TimeBlock num))
           (ds : dict string (Delivery num)) (st : Solver num * VarTable)
  : result (Solver num * VarTable) :=
  for_each
    (fun st kd =>
       for_each (create_variable tbs (snd kd)) (seq 0 (List.length tbs)) st)
    ds st.

(** *** solve, lines 376-386: consumer constraints

    A variable handle is an object, hence truthy: [if variable] tests
    that the lookup found one. *)
Definition add_consumer_term (vars : VarTable) (delivery : Delivery num)
           (st : Solver num * dict string nat) (block_number : nat)
  : result (Solver num * dict string nat) :=
  let '(s, consumer_constraints) := st in
  delivery_vars <- getattr_of (dict_get vars (Delivery_id delivery)) AttributeError ;;
  match dict_get delivery_vars block_number with
  | Some variable =>
      c <- getattr_of (dict_get consumer_constraints (c_id (consumer delivery)))
                      KeyError ;;
      Ok (Constraint_SetCoefficient s c variable one, consumer_constraints)
  | None => Ok st
  end.

Definition add_consumer_constraint (tbs : list (TimeBlock num)) (vars : VarTable)
           (st : Solver num * dict string nat) (kd : string * Delivery num)
  : result (Solver num * dict string nat) :=
  let '(s, consumer_constraints) := st in
  let delivery := snd kd in
  let co := consumer delivery in
  let '(c, s1) :=
    Constraint s (Fin (required_units co)) (Fin (required_units co)) in
  for_each (add_consumer_term vars delivery) (seq 0 (List.length tbs))
           (s1, dict_set consumer_constraints (c_id co) c).

Definition add_consumer_constraints (tbs : list (TimeBlock num))
           (ds : dict string (Delivery num)) (vars : VarTable) (s : Solver num)
  : result (Solver num * dict string nat) :=
  for_each (add_consumer_constraint tbs vars) ds (s, []).

(** *** solve, lines 390-401: producer constraints *)
Definition add_producer_term (ds : dict string (Delivery num))
           (pr : Producer num) (block_number constraint : nat)
           (s : Solver num) (entry : string * dict nat nat)
  : result (Solver num) :=
  let '(delivery_id, delivery_vars) := entry in
  delivery <- getattr_of (dict_get ds delivery_id) AttributeError ;;
  if String.eqb (p_id pr) (p_id (producer delivery)) then
    match dict_get delivery_vars block_number with
    | Some variable => Ok (Constraint_SetCoefficient s constraint variable one)
    | None => Ok s
    end
  else Ok s.

Definition add_producer_constraint (ds : dict string (Delivery num))
           (vars : VarTable) (pr : Producer num) (s : Solver num)
           (block_number : nat) : result (Solver num) :=
  let '(constraint, s1) := Constraint s (Fin zero) (Fin (max_supply pr)) in
  for_each (add_producer_term ds pr block_number constraint) vars s1.

Definition add_producer_constraints (tbs : list (TimeBlock num))
           (ds : dict string (Delivery num)) (vars : VarTable) (s : Solver num)
  : result (Solver num) :=
  for_each
    (fun s pr =>
       for_each (add_producer_constraint ds vars pr) (seq 0 (List.length tbs)) s)
    (_get_producers ds) s.

(** The model that [solve] hands to [Solve()], with the variable table. *)
Definition build_model (tbs : list (TimeBlock num))
           (ds : dict string (Delivery num)) : result (Solver num * VarTable) :=
  ' (s1, vars) <-
    create_variables tbs ds (new_solver, map (fun kd => (fst kd, [])) ds) ;;
  let s2 := SetMinimization s1 in
  ' (s3, _) <- add_consumer_constraints tbs ds vars s2 ;;
  s4 <- add_producer_constraints tbs ds vars s3 ;;
  Ok (s4, vars).

(** *** Schedule *)
Record DeliveryRecord : Type := {
  time_block : nat;
  rec_producer : string;
  rec_consumer : string;
  units_to_supply : num;
  unit_price : num
}.

Record Schedule : Type := {
  total_price : num;
  sch_deliveries : list DeliveryRecord;
  solved : bool;
  sch_result : string
}.

(** The state of the extraction loops is the running total, the records so
    far, and the variables whose [solution_value()] has been called. *)
Definition extract_value (tbs : list (TimeBlock num))
           (solution_value : nat -> num) (pr : Producer num) (co : Consumer num)
           (st : num * list DeliveryRecord * list nat) (entry : nat * nat)
  : result (num * list DeliveryRecord * list nat) :=
  let '(total, records, reads) := st in
  let '(tb, variable) := entry in
  let value := solution_value variable in
  let reads := reads ++ [variable] in
  if gtb value zero then
    block <- getattr_of (nth_error tbs tb) AttributeError ;;
    Ok (add total (mul value (price block)),
        records ++ [{| time_block := tb;
                       rec_producer := p_id pr;
                       rec_consumer := c_id co;
                       units_to_supply := value;
                       unit_price := price block |}],
        reads)
  else Ok (total, records, reads).

Definition extract_delivery (tbs : list (TimeBlock num))
           (ds : dict string (Delivery num)) (solution_value : nat -> num)
           (st : num * list DeliveryRecord * list nat)
           (entry : string * dict nat nat)
  : result (num * list DeliveryRecord * list nat) :=
  let '(delivery_id, delivery_vars) := entry in
  delivery <- getattr_of (dict_get ds delivery_id) AttributeError ;;
  for_each (extract_value tbs solution_value (producer delivery) (consumer delivery))
           delivery_vars st.

(** [Schedule.__init__]; the second component lists the calls of
    [solution_value()] in order. *)
Definition Schedule_init (status : Status) (algorithm : Algorithm num)
           (solution_value : nat -> num) : result (Schedule * list nat) :=
  let is_solved := Status_eqb status OPTIMAL || Status_eqb status FEASIBLE in
  let message :=
    if Status_eqb status OPTIMAL then "Optimal solution found"%string
    else if Status_eqb status FEASIBLE
         then "A potentially suboptimal solution was found."%string
         else "The solver could not solve the problem."%string in
  ' (total, records, reads) <-
    (if is_solved
     then
       vars <- getattr_of (variables algorithm) AttributeError ;;
       for_each (extract_delivery (time_blocks algorithm)
                                  (deliveries algorithm) solution_value)
                vars (zero, [], [])
     else Ok (zero, [], [])) ;;
  Ok ({| total_price := total;
         sch_deliveries := records;
         solved := is_solved;
         sch_result := message |}, reads).

(** [sorted(self.deliveries, key=lambda k: k['time_block'])] in
    [Schedule.print]: a stable sort. *)
Fixpoint insert_by_time_block (r : DeliveryRecord) (l : list DeliveryRecord)
  : list DeliveryRecord :=
  match l with
  | [] => [r]
  | x :: l' =>
      if time_block r <=? time_block x then r :: l
      else x :: insert_by_time_block r l'
  end.

Definition sorted_by_time_block (l : list DeliveryRecord) : list DeliveryRecord :=
  fold_right insert_by_time_block [] l.

(** The rows of the schedule table in the order [Schedule.print] writes
    them. *)
Definition printed_rows (s : Schedule) : list DeliveryRecord :=
  sorted_by_time_block (sch_deliveries s).

(** *** ProducerConsumerAlgorithm.solve

    Printing ([print_results]) does not change the returned value and is
    left out. *)
Definition solve (self : Algorithm num) (glop : Oracle num)
  : result (Algorithm num * Schedule * list nat) :=
  tbs <- period_to_blocks (blocks_per_hour self) (hours self)
                          (initial_date self) (unit_prices self) ;;
  ' (s, vars) <- build_model tbs (deliveries self) ;;
  let '(status, solution_value) := glop s in
  let self' :=
    {| initial_date := initial_date self;
       blocks_per_hour := blocks_per_hour self;
       hours := hours self;
       time_blocks := tbs;
       unit_prices := unit_prices self;
       deliveries := deliveries self;
       variables := Some vars;
       solver := Some s |} in
  ' (schedule, reads) <- Schedule_init status self' solution_value ;;
  Ok (self', schedule, reads).
End Solve.

Arguments DeliveryRecord num : clear implicits.
Arguments Schedule num : clear implicits.

(** ** Definitions used to state the properties *)

Section Statements.
Context {num : Type} `{Number num}.

(** The price-rule test in the words of the specification: a rule matches
    by its explicit block number, or, when it has both dates, when the
    block start lies in its end-exclusive interval. *)
Definition rule_matches (date : datetime) (n : nat) (rule : UnitPrice num)
  : bool :=
  match up_block_number rule with
  | Some bn => (bn =? Z.of_nat n)%Z
  | None => false
  end
  ||
  match up_date_from rule, up_date_until rule with
  | Some f, Some u => (f <=? date)%Z && (date <? u)%Z
  | _, _ => false
  end.

(** Price of the first matching rule in registration order, 0 when none. *)
Definition first_matching_price (rules : list (UnitPrice num))
           (date : datetime) (n : nat) : num :=
  match find (rule_matches date n) rules with
  | Some rule => up_price rule
  | None => zero
  end.

(** Time covered by a sequence of blocks, from the start of the first to
    the end of the last. *)
Definition covered (blocks : list (TimeBlock num)) : timedelta :=
  match blocks with
  | [] => 0%Z
  | b :: _ => (date_until (last blocks b) - date_from b)%Z
  end.
End Statements.

Section BlockStatements.
Context {num : Type} `{Number num}.

(** The [k]-th block of a partition that starts at [start] with blocks of
    width [w]. *)
Definition block_at (rules : list (UnitPrice num)) (start : datetime)
           (w : timedelta) (k : nat) : TimeBlock num :=
  {| number := k;
     date_from := (start + Z.of_nat k * w)%Z;
     date_until := (start + Z.of_nat k * w + w)%Z;
     price := get_price_for_date_or_number
                rules (start + Z.of_nat k * w)%Z k |}.
End BlockStatements.

(** The text that [Delivery.__init__] puts between the two ids. *)
Definition separator : string := ", p-".

(** [startswith p s]: Python's [s.startswith(p)]. *)
Fixpoint startswith (p s : string) : bool :=
  match p with
  | EmptyString => true
  | String a p' =>
      match s with
      | EmptyString => false
      | String b s' => Ascii.eqb a b && startswith p' s'
      end
  end.

(** [containsb p s]: [p] occurs in [s] (Python's [p in s]). *)
Fixpoint containsb (p s : string) : bool :=
  startswith p s
  || match s with
     | EmptyString => false
     | String _ s' => containsb p s'
     end.

(** One step of filling a dict from a list of entries. *)
Definition set_entry {K V : Type} `{EqDec K} (d : dict K V) (e : K * V)
  : dict K V :=
  dict_set d (fst e) (snd e).

Section ModelStatements.
Context {num : Type} `{Number num}.

(** The deadline test of [solve] for block number [b]. *)
Definition feasible (tbs : list (TimeBlock num)) (d : Delivery num) (b : nat)
  : bool :=
  match nth_error tbs b with
  | Some tb => (date_until tb <=? departure_date (consumer d))%Z
  | None => false
  end.

Definition feasible_blocks (tbs : list (TimeBlock num)) (d : Delivery num)
  : list nat :=
  filter (feasible tbs d) (seq 0 (List.length tbs)).

(** The variable table with handles handed out in creation order, starting
    at [next]. *)
Fixpoint allocate (tbs : list (TimeBlock num)) (ds : dict string (Delivery num))
         (next : nat) : VarTable :=
  match ds with
  | [] => []
  | kd :: ds' =>
      let fb := feasible_blocks tbs (snd kd) in
      (fst kd, combine fb (seq next (List.length fb)))
        :: allocate tbs ds' (next + List.length fb)
  end.

(** [variables.get(k).get(b)] *)
Definition lookup_var (vars : VarTable) (k : string) (b : nat) : option nat :=
  match dict_get vars k with
  | Some dv => dict_get dv b
  | None => None
  end.

(** The inner dict stored under [k] (empty when there is none). *)
Definition delivery_entries (vars : VarTable) (k : string) : dict nat nat :=
  match dict_get vars k with
  | Some dv => dv
  | None => []
  end.

(** The variables of the delivery stored under [k], by ascending block. *)
Definition delivery_variables (vars : VarTable) (k : string) : list nat :=
  values (delivery_entries vars k).

(** Terms with coefficient 1 for the given variables. *)
Definition unit_terms (vs : list nat) : dict nat num :=
  map (fun v => (v, one)) vs.

Definition bounds_0_inf (v : MPVariable num) : Prop :=
  var_lb v = Fin zero /\ var_ub v = PosInf.

(** A solver whose constraint rows are replaced. *)
Definition set_constraints (s : Solver num) (cs : list (MPConstraint num))
  : Solver num :=
  {| solver_variables := solver_variables s;
     solver_constraints := cs;
     objective := objective s;
     minimization := minimization s |}.

(** The values that [dv.get(b)] finds for the blocks of [bs], in order. *)
Definition lookups (dv : dict nat nat) (bs : list nat) : list nat :=
  flat_map (fun b => match dict_get dv b with
                     | Some v => [v]
                     | None => []
                     end) bs.

(** [SetCoefficient(v, 1)] for each [v] of [vs] in turn. *)
Definition add_terms (vs : list nat) (t : dict nat num) : dict nat num :=
  fold_left (fun t v => dict_set t v one) vs t.

(** The equality row that [solve] creates for one delivery. *)
Definition consumer_row (vars : VarTable) (kd : string * Delivery num)
  : MPConstraint num :=
  {| con_lb := Fin (required_units (consumer (snd kd)));
     con_ub := Fin (required_units (consumer (snd kd)));
     con_terms := unit_terms (delivery_variables vars (fst kd)) |}.

(** The variables of block [b] that belong to deliveries whose producer has
    the id of [pr], in the order of the variable table. *)
Definition producer_block_variables (ds : dict string (Delivery num))
           (vars : VarTable) (pr : Producer num) (b : nat) : list nat :=
  flat_map
    (fun entry =>
       match dict_get ds (fst entry) with
       | Some d =>
           if String.eqb (p_id pr) (p_id (producer d))
           then match dict_get (snd entry) b with
                | Some v => [v]
                | None => []
                end
           else []
       | None => []
       end) vars.

(** The capacity row that [solve] creates for one producer and one block. *)
Definition producer_row (ds : dict string (Delivery num)) (vars : VarTable)
           (pr : Producer num) (b : nat) : MPConstraint num :=
  {| con_lb := Fin zero;
     con_ub := Fin (max_supply pr);
     con_terms := unit_terms (producer_block_variables ds vars pr b) |}.
(** The row that the consumer phase creates for one delivery, as the loops
    compute it. *)
Definition consumer_row_loop (tbs : list (TimeBlock num)) (vars : VarTable)
           (kd : string * Delivery num) : MPConstraint num :=
  {| con_lb := Fin (required_units (consumer (snd kd)));
     con_ub := Fin (required_units (consumer (snd kd)));
     con_terms :=
       add_terms (lookups (delivery_entries vars (Delivery_id (snd kd)))
                          (seq 0 (List.length tbs))) [] |}.


(** The row that the producer phase creates for one producer and one block,
    as the loops compute it. *)
Definition producer_row_loop (ds : dict string (Delivery num)) (vars : VarTable)
           (pr : Producer num) (b : nat) : MPConstraint num :=
  {| con_lb := Fin zero;
     con_ub := Fin (max_supply pr);
     con_terms := add_terms (producer_block_variables ds vars pr b) [] |}.
End ModelStatements.

Section ScheduleStatements.
Context {num : Type} `{Number num}.

(** [True] for the statuses on which variable values are read. *)
Definition is_solved (status : Status) : bool :=
  match status with
  | OPTIMAL | FEASIBLE => true
  | _ => false
  end.

Definition result_message (status : Status) : string :=
  match status with
  | OPTIMAL => "Optimal solution found"
  | FEASIBLE => "A potentially suboptimal solution was found."
  | _ => "The solver could not solve the problem."
  end.

(** The record, if any, of one (block, variable) entry of a delivery: one
    record when the solution value is strictly positive, none otherwise. *)
Definition record_of (tbs : list (TimeBlock num)) (solution_value : nat -> num)
           (d : Delivery num) (entry : nat * nat) : list (DeliveryRecord num) :=
  if gtb (solution_value (snd entry)) zero then
    match nth_error tbs (fst entry) with
    | Some block =>
        [{| time_block := fst entry;
            rec_producer := p_id (producer d);
            rec_consumer := c_id (consumer d);
            units_to_supply := solution_value (snd entry);
            unit_price := price block |}]
    | None => []
    end
  else [].

(** The records of one delivery, by ascending block. *)
Definition records_of_delivery (tbs : list (TimeBlock num))
           (solution_value : nat -> num) (vars : VarTable)
           (kd : string * Delivery num) : list (DeliveryRecord num) :=
  flat_map (record_of tbs solution_value (snd kd))
           (delivery_entries vars (fst kd)).

(** The records of all deliveries, in registration order. *)
Definition positive_records (tbs : list (TimeBlock num))
           (ds : dict string (Delivery num)) (solution_value : nat -> num)
           (vars : VarTable) : list (DeliveryRecord num) :=
  flat_map (records_of_delivery tbs solution_value vars) ds.

(** The records as the extraction loops meet them, walking the variable
    table. *)
Definition records_by_table (tbs : list (TimeBlock num))
           (ds : dict string (Delivery num)) (solution_value : nat -> num)
           (vars : VarTable) : list (DeliveryRecord num) :=
  flat_map (fun e => match dict_get ds (fst e) with
                     | Some d => flat_map (record_of tbs solution_value d) (snd e)
                     | None => []
                     end) vars.

(** Sum of units times unit price over the records, accumulated from
    [start] in list order. *)
Definition price_sum (records : list (DeliveryRecord num)) (start : num) : num :=
  fold_left (fun acc r => add acc (mul (units_to_supply r) (unit_price r)))
            records start.

(** Every variable of the table, in creation order. *)
Definition all_variables (vars : VarTable) : list nat :=
  flat_map (fun e => values (snd e)) vars.

(** The algorithm object after [solve]. *)
Definition after_solve (self : Algorithm num) (tbs : list (TimeBlock num))
           (s : Solver num) (vars : VarTable) : Algorithm num :=
  {| initial_date := initial_date self;
     blocks_per_hour := blocks_per_hour self;
     hours := hours self;
     time_blocks := tbs;
     unit_prices := unit_prices self;
     deliveries := deliveries self;
     variables := Some vars;
     solver := Some s |}.

(** The schedule and the list of value reads that [Schedule.__init__]
    produces from a status, a value assignment and the extracted records. *)
Definition schedule_of (status : Status) (records : list (DeliveryRecord num))
           (vars : VarTable) : Schedule num * list nat :=
  if is_solved status
  then ({| total_price := price_sum records zero;
           sch_deliveries := records;
           solved := true;
           sch_result := result_message status |},
        all_variables vars)
  else ({| total_price := zero;
           sch_deliveries := [];
           solved := false;
           sch_result := result_message status |},
        []).

(** Ascending by time-block number. *)
Definition ascending (records : list (DeliveryRecord num)) : Prop :=
  StronglySorted le (map (@time_block num) records).

Definition strictly_ascending (records : list (DeliveryRecord num)) : Prop :=
  StronglySorted lt (map (@time_block num) records).

(** The records of one block, in list order. *)
Definition of_block (b : nat) (records : list (DeliveryRecord num))
  : list (DeliveryRecord num) :=
  filter (fun r => time_block r =? b) records.
End ScheduleStatements.

(** *** What it means for integer values to satisfy a model *)

Definition row_sum (value : nat -> Z) (terms : dict nat Z) : Z :=
  fold_right (fun t acc => (snd t * value (fst t) + acc)%Z) 0%Z terms.

Definition within (lb ub : bound Z) (x : Z) : Prop :=
  match lb with
  | Fin l => (l <= x)%Z
  | PosInf => False
  end
  /\ match ub with
     | Fin u => (x <= u)%Z
     | PosInf => True
     end.

Definition satisfies (s : Solver Z) (value : nat -> Z) : Prop :=
  (forall v var, nth_error (solver_variables s) v = Some var ->
                 within (var_lb var) (var_ub var) (value v))
  /\ Forall (fun row => within (con_lb row) (con_ub row)
                               (row_sum value (con_terms row)))
            (solver_constraints s).

(** ** Concrete configurations *)

Definition rule_first_hour : UnitPrice Z :=
  {| up_date_from := Some 0%Z;
     up_date_until := Some (timedelta_hours 1);
     up_block_number := None;
     up_price := 2%Z |}.

Definition rule_block_1 : UnitPrice Z :=
  {| up_date_from := None;
     up_date_until := None;
     up_block_number := Some 1%Z;
     up_price := 5%Z |}.


(** Two pairs of ids whose delivery identifiers coincide. *)
Definition consumer_a : Consumer Z :=
  {| c_id := "a"; required_units := 1%Z; departure_date := 0%Z |}.

Definition producer_b_p_c : Producer Z :=
  {| p_ref := 1; p_id := "b, p-c"; max_supply := 1%Z |}.

Definition consumer_a_p_b : Consumer Z :=
  {| c_id := "a, p-b"; required_units := 1%Z; departure_date := 0%Z |}.

Definition producer_c : Producer Z :=
  {| p_ref := 2; p_id := "c"; max_supply := 1%Z |}.

Definition producer_b : Producer Z :=
  {| p_ref := 3; p_id := "b"; max_supply := 1%Z |}.

(** A horizon of two one-hour blocks starting at [datetime.min]. *)
Definition two_blocks : Algorithm Z :=
  with_blocks_per_hour
    (with_hours (with_initial_date (ProducerConsumerAlgorithm 0%Z) 0%Z) 2) 1.

Definition co1 : Consumer Z :=
  {| c_id := "co1"; required_units := 2%Z; departure_date := timedelta_hours 2 |}.

Definition ev2 : Consumer Z :=
  {| c_id := "ev2"; required_units := 2%Z; departure_date := timedelta_hours 2 |}.

Definition cp1 : Producer Z :=
  {| p_ref := 1; p_id := "cp1"; max_supply := 1%Z |}.

Definition cp2 : Producer Z :=
  {| p_ref := 2; p_id := "cp2"; max_supply := 1%Z |}.

(** One consumer connected to two producers. *)
Definition shared_consumer : Algorithm Z :=
  with_delivery (with_delivery two_blocks co1 cp1) co1 cp2.

(** Two consumers, each with its own producer. *)
Definition two_deliveries : Algorithm Z :=
  with_delivery (with_delivery two_blocks co1 cp1) ev2 cp2.

(** A solver answer: optimal, every variable at 1. *)
Definition optimal_all_ones : Oracle Z :=
  fun _ => (OPTIMAL, fun _ => 1%Z).

(** A solver answer: infeasible. *)
Definition infeasible : Oracle Z :=
  fun _ => (INFEASIBLE, fun _ => 0%Z).

(** The two one-hour blocks of these configurations. *)
Definition hour_blocks : list (TimeBlock Z) :=
  map (block_at [] 0%Z (timedelta_minutes 60)) (seq 0 2).

(** A delivery whose consumer leaves before the first block ends. *)
Definition too_early : Algorithm Z :=
  with_delivery two_blocks consumer_a producer_b.

(** 9999-12-31 21:30:00, two and a half hours before the end of the range
    of [datetime]. *)
Definition last_evening : datetime :=
  (datetime_max + 1 - timedelta_minutes 150)%Z.

(** A rule without block number whose interval ends before it starts. *)
Definition inverted_rule : UnitPrice Z :=
  {| up_date_from := Some (timedelta_hours 2);
     up_date_until := Some (timedelta_hours 1);
     up_block_number := None;
     up_price := 5%Z |}.

(** ** Configurations reachable through the builder methods *)

Section Configured.
Context {num : Type} `{Number num}.

(** The algorithm objects that the constructor and the chained [with_]
    methods produce. *)
Inductive configured : Algorithm num -> Prop :=
| configured_new (now : datetime) :
    configured (ProducerConsumerAlgorithm now)
| configured_initial_date a d :
    configured a -> configured (with_initial_date a d)
| configured_hours a h :
    configured a -> configured (with_hours a h)
| configured_blocks_per_hour a b :
    configured a -> configured (with_blocks_per_hour a b)
| configured_unit_price a df du bn p a' :
    configured a -> with_unit_price a df du bn p = Ok a' -> configured a'
| configured_delivery a c p :
    configured a -> configured (with_delivery a c p).

(** A price rule that passes the assertion of [with_unit_price]. *)
Definition has_criterion (rule : UnitPrice num) : Prop :=
  up_block_number rule <> None
  \/ (up_date_from rule <> None /\ up_date_until rule <> None).
End Configured.

(** ** The objective and the values of a solution *)

Section ObjectiveStatements.
Context {num : Type} `{Number num}.

(** The price of block [b], as [solve] reads it from the block list. *)
Definition price_at (tbs : list (TimeBlock num)) (b : nat) : num :=
  match nth_error tbs b with
  | Some tb => price tb
  | None => zero
  end.

(** One objective term per entry of the variable table, in table order:
    the variable with the price of its block. *)
Definition objective_terms (tbs : list (TimeBlock num)) (vars : VarTable)
  : dict nat num :=
  flat_map (fun e => map (fun bv => (snd bv, price_at tbs (fst bv))) (snd e))
           vars.
(** What the variable phase keeps true of the solver and the table: the
    objective has one term per solver variable, in creation order, and the
    terms of the table entries carry the prices of their blocks. *)
Definition objective_ok (tbs : list (TimeBlock num))
           (st : Solver num * VarTable) : Prop :=
  keys (objective (fst st)) = seq 0 (List.length (solver_variables (fst st)))
  /\ forall e bv, In e (snd st) -> In bv (snd e) ->
                  dict_get (objective (fst st)) (snd bv)
                  = Some (price_at tbs (fst bv)).

End ObjectiveStatements.

(** Sums over integer solutions. *)
Definition units_total (records : list (DeliveryRecord Z)) : Z :=
  fold_right (fun r acc => (units_to_supply r + acc)%Z) 0%Z records.

Definition values_total (value : nat -> Z) (vs : list nat) : Z :=
  fold_right (fun v acc => (value v + acc)%Z) 0%Z vs.

(** The units that the records give to producer id [pid] in block [b]. *)
Definition supplied_by (pid : string) (b : nat)
           (records : list (DeliveryRecord Z)) : Z :=
  units_total (filter (fun r => (time_block r =? b)
                                && String.eqb (rec_producer r) pid) records).


(** Units times unit price, added up over the records. *)
Definition cost_total (records : list (DeliveryRecord Z)) : Z :=
  fold_right (fun r acc => (units_to_supply r * unit_price r + acc)%Z)
             0%Z records.

(** ** Companies, buildings and producers

    These objects refer to each other: a [Store] holds them, and a
    reference is the position of the object in creation order. *)

Module Site.
Section Objects.
Context {num : Type}.

Record Company : Type := {
  company_id : string;
  company_max_supply : option num;
  company_buildings : list nat
}.

Record Building : Type := {
  building_id : string;
  building_max_supply : option num;
  building_company : option nat;
  building_producers : list nat
}.

Record Producer : Type := {
  producer_id : string;
  producer_max_supply : num;
  producer_building : option nat
}.

Record Store : Type := {
  companies : list Company;
  buildings : list Building;
  producers : list Producer
}.

Definition empty : Store :=
  {| companies := []; buildings := []; producers := [] |}.

(** [Company(id, max_supply)] *)
Definition Company_init (st : Store) (id : string) (max_supply : option num)
  : nat * Store :=
  (List.length (companies st),
   {| companies := companies st ++ [{| company_id := id;
                                       company_max_supply := max_supply;
                                       company_buildings := [] |}];
      buildings := buildings st;
      producers := producers st |}).

Definition append_building (building : nat) (c : Company) : Company :=
  {| company_id := company_id c;
     company_max_supply := company_max_supply c;
     company_buildings := company_buildings c ++ [building] |}.

(** [company.add_building(building)] *)
Definition add_building (st : Store) (company building : nat) : Store :=
  {| companies := update_nth company (append_building building) (companies st);
     buildings := buildings st;
     producers := producers st |}.

(** [Building(id, max_supply, company)]; a company object is truthy, so
    [if company] tests that one is given. *)
Definition Building_init (st : Store) (id : string) (max_supply : option num)
           (company : option nat) : nat * Store :=
  let self := List.length (buildings st) in
  let st1 :=
    {| companies := companies st;
       buildings := buildings st ++ [{| building_id := id;
                                        building_max_supply := max_supply;
                                        building_company := company;
                                        building_producers := [] |}];
       producers := producers st |} in
  match company with
  | Some c => (self, add_building st1 c self)
  | None => (self, st1)
  end.

Definition append_producer (producer : nat) (b : Building) : Building :=
  {| building_id := building_id b;
     building_max_supply := building_max_supply b;
     building_company := building_company b;
     building_producers := building_producers b ++ [producer] |}.

(** [building.add_producer(producer)] *)
Definition add_producer (st : Store) (building producer : nat) : Store :=
  {| companies := companies st;
     buildings := update_nth building (append_producer producer) (buildings st);
     producers := producers st |}.

(** [Producer(id, max_supply, building)] *)
Definition Producer_init (st : Store) (id : string) (max_supply : num)
           (building : option nat) : nat * Store :=
  let self := List.length (producers st) in
  let st1 :=
    {| companies := companies st;
       buildings := buildings st;
       producers := producers st ++ [{| producer_id := id;
                                        producer_max_supply := max_supply;
                                        producer_building := building |}] |} in
  match building with
  | Some b => (self, add_producer st1 b self)
  | None => (self, st1)
  end.

(** A reference that is [None] or names an existing object. *)
Definition valid_ref {A : Type} (l : list A) (r : option nat) : Prop :=
  match r with
  | Some i => i < List.length l
  | None => True
  end.

(** The stores that the three constructors produce. *)
Inductive built : Store -> Prop :=
| built_empty : built empty
| built_company st id ms :
    built st -> built (snd (Company_init st id ms))
| built_building st id ms company :
    built st -> valid_ref (companies st) company ->
    built (snd (Building_init st id ms company))
| built_producer st id ms building :
    built st -> valid_ref (buildings st) building ->
    built (snd (Producer_init st id ms building)).
End Objects.

Section Links.
Variables (P C : Type) (children : P -> list nat) (parent : C -> option nat).

(** Parents list exactly the children that point back to them, each once. *)
Definition linked (ps : list P) (cs : list C) : Prop :=
  (forall p x c,
      nth_error ps p = Some x -> In c (children x) ->
      exists y, nth_error cs c = Some y /\ parent y = Some p)
  /\ (forall c y p,
         nth_error cs c = Some y -> parent y = Some p ->
         exists x, nth_error ps p = Some x
                   /\ count_occ Nat.eq_dec (children x) c = 1).
End Links.

Definition consistent {num : Type} (st : @Store num) : Prop :=
  linked (@company_buildings num) (@building_company num)
         (companies st) (buildings st)
  /\ linked (@building_producers num) (@producer_building num)
            (buildings st) (producers st).
End Site.

(** The objects of the set-up of the tests: company "st1", building "dv1" of
    that company, producer "cp1" of that building. *)
Definition test_site : @Site.Store Z :=
  let '(company, st1) := Site.Company_init Site.empty "st1" None in
  let '(building, st2) := Site.Building_init st1 "dv1" None (Some company) in
  snd (Site.Producer_init st2 "cp1" 1%Z (Some building)).

(** * Properties *)

Unset Implicit Arguments.

(** Closes the cases of an outcome analysis: impossible equations between
    results, arithmetic, and existence of a returned value. *)
Ltac settle_outcome :=
  repeat split; intros;
  try discriminate; try lia;
  try (match goal with
       | E : exists _, _ = _ |- _ => destruct E; discriminate
       end);
  try tauto; eauto.

(** ** Dictionaries *)

Section DictFacts.
Context {K V : Type} `{EqDec K}.

Lemma dict_get_set_eq (d : dict K V) k v :
  dict_get (dict_set d k v) k = Some v.
Proof.
  induction d as [|[k' v'] d IH]; simpl.
  - destruct (eq_dec k k); congruence.
  - destruct (eq_dec k k') as [E|N]; simpl.
    + destruct (eq_dec k k'); congruence.
    + destruct (eq_dec k k'); [contradiction|exact IH].
Qed.

Lemma dict_get_set_neq (d : dict K V) k k' v :
  k <> k' -> dict_get (dict_set d k v) k' = dict_get d k'.
Proof.
  intros N. induction d as [|[k0 v0] d IH]; simpl.
  - destruct (eq_dec k' k); congruence.
  - destruct (eq_dec k k0) as [E|N0]; simpl.
    + subst k0. destruct (eq_dec k' k); congruence.
    + destruct (eq_dec k' k0); congruence.
Qed.

Lemma dict_set_set (d : dict K V) k v v' :
  dict_set (dict_set d k v) k v' = dict_set d k v'.
Proof.
  induction d as [|[k0 v0] d IH]; simpl.
  - destruct (eq_dec k k); congruence.
  - destruct (eq_dec k k0) as [E|N0]; simpl.
    + destruct (eq_dec k k0); congruence.
    + destruct (eq_dec k k0); [contradiction|now rewrite IH].
Qed.

Lemma dict_set_same (d : dict K V) k v :
  dict_get d k = Some v -> dict_set d k v = d.
Proof.
  induction d as [|[k0 v0] d IH]; simpl; [discriminate|].
  destruct (eq_dec k k0) as [E|N0]; intros G.
  - congruence.
  - now rewrite IH.
Qed.

Lemma memb_In k (l : list K) : memb k l = true <-> In k l.
Proof.
  induction l as [|k' l IH]; simpl.
  - split; [discriminate|tauto].
  - destruct (eq_dec k k') as [E|N].
    + split; auto.
    + rewrite IH. split; [auto|intros [E|I]; congruence].
Qed.

Lemma uniqueb_NoDup (l : list K) : uniqueb l = true <-> NoDup l.
Proof.
  induction l as [|k l IH]; simpl.
  - split; [constructor|reflexivity].
  - rewrite andb_true_iff, negb_true_iff, IH. split.
    + intros [M U]. constructor; [|exact U].
      rewrite <- memb_In. congruence.
    + intros N. inversion N as [|? ? M U]; subst. split; [|exact U].
      destruct (memb k l) eqn:E; [|reflexivity].
      apply memb_In in E. contradiction.
Qed.

Lemma dict_get_None (d : dict K V) k :
  dict_get d k = None <-> ~ In k (keys d).
Proof.
  induction d as [|[k0 v0] d IH]; simpl.
  - tauto.
  - destruct (eq_dec k k0) as [E|N].
    + split; [discriminate|]. intros C. exfalso. apply C. auto.
    + rewrite IH. unfold keys. split; [intros A [E|I]; congruence|tauto].
Qed.

Lemma dict_get_In (d : dict K V) k v :
  dict_get d k = Some v -> In (k, v) d.
Proof.
  induction d as [|[k0 v0] d IH]; simpl; [discriminate|].
  destruct (eq_dec k k0) as [E|N].
  - intros [= ->]. subst. auto.
  - auto.
Qed.

Lemma In_dict_get (d : dict K V) k v :
  NoDup (keys d) -> In (k, v) d -> dict_get d k = Some v.
Proof.
  induction d as [|[k0 v0] d IH]; simpl; [tauto|].
  intros N. inversion N as [|? ? M U]; subst.
  intros [E|I].
  - inversion E; subst. destruct (eq_dec k k); congruence.
  - destruct (eq_dec k k0) as [E|_].
    + subst k0. exfalso. apply M. unfold keys.
      change k with (fst (k, v)). now apply in_map.
    + auto.
Qed.

Lemma dict_set_notin (d : dict K V) k v :
  ~ In k (keys d) -> dict_set d k v = d ++ [(k, v)].
Proof.
  induction d as [|[k0 v0] d IH]; simpl; [reflexivity|].
  intros N. destruct (eq_dec k k0) as [E|_].
  - exfalso. apply N. auto.
  - rewrite IH; [reflexivity|tauto].
Qed.

Lemma dict_set_middle (pre post : dict K V) k v0 v :
  ~ In k (keys pre) ->
  dict_set (pre ++ (k, v0) :: post) k v = pre ++ (k, v) :: post.
Proof.
  induction pre as [|[k1 v1] pre IH]; simpl.
  - intros _. destruct (eq_dec k k); congruence.
  - intros N. destruct (eq_dec k k1) as [E|_].
    + exfalso. apply N. auto.
    + rewrite IH; [reflexivity|tauto].
Qed.
Lemma keys_dict_set_In (d : dict K V) k v :
  In k (keys d) -> keys (dict_set d k v) = keys d.
Proof.
  induction d as [|[k0 v0] d IH]; simpl; [tauto|].
  intros I. destruct (eq_dec k k0) as [E|N]; simpl; [reflexivity|].
  f_equal. apply IH. destruct I; congruence.
Qed.

Lemma NoDup_keys_dict_set (d : dict K V) k v :
  NoDup (keys d) -> NoDup (keys (dict_set d k v)).
Proof.
  intros N. destruct (in_dec eq_dec k (keys d)) as [I|I].
  - now rewrite keys_dict_set_In.
  - rewrite dict_set_notin by exact I. unfold keys in *.
    rewrite map_app. simpl. apply NoDup_app; auto.
    + repeat constructor. simpl. tauto.
    + intros a Ia [<-|[]]. contradiction.
Qed.

Lemma In_dict_set (d : dict K V) k v kv :
  In kv (dict_set d k v) -> kv = (k, v) \/ In kv d.
Proof.
  induction d as [|[k0 v0] d IH]; simpl.
  - intros [E|[]]. auto.
  - destruct (eq_dec k k0) as [E|N]; simpl.
    + subst k0. intros [E|I]; auto.
    + intros [E|I]; auto. destruct (IH I); auto.
Qed.
End DictFacts.

Lemma for_each_app {S A : Type} (body : S -> A -> result S) l1 l2 s :
  for_each body (l1 ++ l2) s = (s' <- for_each body l1 s ;; for_each body l2 s').
Proof.
  revert s. induction l1 as [|a l1 IH]; intros s; simpl; [reflexivity|].
  destruct (body s a); simpl; [apply IH|reflexivity].
Qed.

(** ** Time blocks *)

Section BlockFacts.
Context {num : Type} `{Number num}.

Lemma get_price_first_match (rules : list (UnitPrice num)) date n :
  get_price_for_date_or_number rules date n = first_matching_price rules date n.
Proof.
  unfold first_matching_price.
  induction rules as [|r rules IH]; simpl; [reflexivity|].
  unfold rule_matches at 1.
  destruct (match up_block_number r with
            | Some bn => (bn =? Z.of_nat n)%Z
            | None => false
            end); simpl; [reflexivity|].
  destruct (match up_date_from r, up_date_until r with
            | Some f, Some u => ((f <=? date)%Z && (date <? u)%Z)%bool
            | _, _ => false
            end); [reflexivity|exact IH].
Qed.

Lemma combine_seq_map {A : Type} (f : nat -> A) a n :
  combine (seq a n) (map f (seq a n)) = map (fun k => (k, f k)) (seq a n).
Proof.
  revert a. induction n as [|n IH]; intros a; simpl; [reflexivity|].
  now rewrite IH.
Qed.

Lemma enumerate_map_seq {A : Type} (f : nat -> A) n :
  enumerate (map f (seq 0 n)) = map (fun k => (k, f k)) (seq 0 n).
Proof.
  unfold enumerate. rewrite length_map, length_seq. apply combine_seq_map.
Qed.

Lemma datetime_add_Ok dt td :
  (0 <= dt + td <= datetime_max)%Z -> datetime_add dt td = Ok (dt + td)%Z.
Proof.
  intros B. unfold datetime_add, datetime_min.
  replace (dt + td <? 0)%Z with false by (symmetry; apply Z.ltb_ge; lia).
  replace (datetime_max <? dt + td)%Z with false
    by (symmetry; apply Z.ltb_ge; lia).
  reflexivity.
Qed.

Lemma datetime_add_Raise dt td :
  (dt + td < 0)%Z \/ (datetime_max < dt + td)%Z ->
  datetime_add dt td = Raise OverflowError.
Proof.
  intros B. unfold datetime_add, datetime_min.
  destruct (dt + td <? 0)%Z eqn:E1; [reflexivity|].
  apply Z.ltb_ge in E1.
  replace (datetime_max <? dt + td)%Z with true
    by (symmetry; apply Z.ltb_lt; lia).
  reflexivity.
Qed.

Lemma datetime_add_inv dt td r :
  datetime_add dt td = Ok r -> r = (dt + td)%Z /\ (0 <= r <= datetime_max)%Z.
Proof.
  unfold datetime_add, datetime_min.
  destruct (dt + td <? 0)%Z eqn:E1; [discriminate|].
  destruct (datetime_max <? dt + td)%Z eqn:E2; [discriminate|].
  apply Z.ltb_ge in E1, E2. simpl. intros [= <-]. lia.
Qed.

Lemma map_result_In {A B : Type} (f : A -> result B) l bs b :
  map_result f l = Ok bs -> In b bs -> exists a, In a l /\ f a = Ok b.
Proof.
  revert bs. induction l as [|a l IH]; intros bs; simpl.
  - intros [= <-] [].
  - destruct (f a) as [b0|e] eqn:Ea; simpl; [|discriminate].
    destruct (map_result f l) as [bs0|e] eqn:El; simpl; [|discriminate].
    intros [= <-] [<-|I].
    + exists a. auto.
    + destruct (IH bs0 eq_refl I) as (a' & Ia & Ea'). exists a'. auto.
Qed.

(** The comprehension of [period_to_blocks] over the instants that [rrule]
    yields from the [a]-th one on: it returns the [n] blocks when the last
    of them ends within the range of [datetime], and raises otherwise. *)
Lemma blocks_comprehension (rules : list (UnitPrice num)) start w n :
  (0 <= start)%Z -> (0 < w)%Z ->
  forall a,
    (start + Z.of_nat a * w <= datetime_max)%Z ->
    let ts := take_while (fun t => (t <=? datetime_max)%Z)
                (map (fun k => (start + Z.of_nat k * w)%Z) (seq a n)) in
    map_result
      (fun '(n, time) =>
         until <- datetime_add time w ;;
         Ok {| number := n;
               date_from := time;
               date_until := until;
               price := get_price_for_date_or_number rules time n |})
      (combine (seq a (List.length ts)) ts)
    = if (datetime_max <? start + Z.of_nat (a + n) * w)%Z
      then Raise OverflowError
      else Ok (map (block_at rules start w) (seq a n)).
Proof.
  intros Hs Hw. induction n as [|n IH]; intros a Ha ts.
  - unfold ts. simpl. rewrite Nat.add_0_r.
    replace (datetime_max <? start + Z.of_nat a * w)%Z with false
      by (symmetry; apply Z.ltb_ge; lia).
    reflexivity.
  - unfold ts. cbn [seq map take_while].
    replace (start + Z.of_nat a * w <=? datetime_max)%Z with true
      by (symmetry; apply Z.leb_le; lia).
    cbn [List.length seq combine map_result].
    destruct (datetime_max <? start + Z.of_nat (S a) * w)%Z eqn:E1.
    + apply Z.ltb_lt in E1.
      rewrite datetime_add_Raise by lia. cbn [bind].
      replace (datetime_max <? start + Z.of_nat (a + S n) * w)%Z with true
        by (symmetry; apply Z.ltb_lt; nia).
      reflexivity.
    + apply Z.ltb_ge in E1.
      rewrite datetime_add_Ok by nia. cbn [bind].
      rewrite (IH (S a)) by lia.
      replace (S a + n) with (a + S n) by lia.
      destruct (datetime_max <? start + Z.of_nat (a + S n) * w)%Z;
        reflexivity.
Qed.

(** Closed form of [period_to_blocks] whenever the block width is not zero:
    the blocks, unless the rounded start or the end of the last block is
    not a [datetime]. *)
Lemma period_to_blocks_closed bph hours init (rules : list (UnitPrice num)) :
  (0 < bph <= 60)%Z -> (0 < hours)%Z ->
  let w := timedelta_minutes (60 / bph) in
  let start := (init + (- init) mod w)%Z in
  period_to_blocks bph hours init rules =
  if ((start <? 0)%Z || (datetime_max <? start + bph * hours * w)%Z)%bool
  then Raise OverflowError
  else Ok (map (block_at rules start w) (seq 0 (Z.to_nat (bph * hours)))).
Proof.
  intros Hb Hh w start. unfold period_to_blocks.
  replace (bph >? 0)%Z with true by (symmetry; apply Z.gtb_lt; lia).
  replace (hours >? 0)%Z with true by (symmetry; apply Z.gtb_lt; lia).
  simpl negb. cbv iota.
  assert (Hq : (0 < 60 / bph)%Z) by (apply Z.div_str_pos; lia).
  unfold ceil_dt. fold w.
  assert (Hw : (0 < w)%Z) by (unfold w, timedelta_minutes; lia).
  replace (w =? 0)%Z with false by (symmetry; apply Z.eqb_neq; lia).
  unfold datetime_min at 1. change (0 - init)%Z with (- init)%Z.
  fold start.
  assert (HN : (0 < bph * hours)%Z) by nia.
  destruct (start <? 0)%Z eqn:E0.
  { apply Z.ltb_lt in E0. rewrite datetime_add_Raise; [reflexivity|].
    left. exact E0. }
  apply Z.ltb_ge in E0. cbn [orb].
  destruct (datetime_max <? start)%Z eqn:E1.
  { apply Z.ltb_lt in E1. rewrite datetime_add_Raise by (right; exact E1).
    cbn [bind].
    replace (datetime_max <? start + bph * hours * w)%Z with true
      by (symmetry; apply Z.ltb_lt; nia).
    reflexivity. }
  apply Z.ltb_ge in E1.
  unfold start at 1. rewrite datetime_add_Ok by (fold start; lia).
  fold start. cbn [bind].
  assert (Hm : (start mod 1000000 = 0)%Z).
  { apply Z.mod_divide; [lia|].
    apply Z.divide_trans with w.
    - exists (60 / bph * 60)%Z. unfold w, timedelta_minutes. ring.
    - apply Z.mod_divide; [lia|].
      unfold start. rewrite Z.add_mod_idemp_r by lia.
      replace (init + - init)%Z with 0%Z by lia. apply Z.mod_0_l. lia. }
  unfold rrule_minutely, enumerate. rewrite Hm, Z.sub_0_r. fold w.
  pose proof (blocks_comprehension rules start w (Z.to_nat (bph * hours))
                                   E0 Hw 0) as L.
  cbv zeta in L. etransitivity; [apply L; simpl; lia|].
  rewrite Nat.add_0_l, Z2Nat.id by lia. reflexivity.
Qed.

(** The two outcomes of [period_to_blocks] for a block width that is not
    zero and a rounded start [start] that is a [datetime]. *)
Lemma period_to_blocks_cases bph hours init (rules : list (UnitPrice num))
      w start :
  (0 < bph <= 60)%Z -> (0 < hours)%Z ->
  w = timedelta_minutes (60 / bph) ->
  start = (init + (- init) mod w)%Z ->
  (0 <= start)%Z ->
  ((datetime_max < start + bph * hours * w)%Z ->
   period_to_blocks bph hours init rules = Raise OverflowError)
  /\ ((start + bph * hours * w <= datetime_max)%Z ->
      period_to_blocks bph hours init rules
      = Ok (map (block_at rules start w) (seq 0 (Z.to_nat (bph * hours))))).
Proof.
  intros Hb Hh Ew Es H0.
  pose proof (period_to_blocks_closed bph hours init rules Hb Hh) as P.
  cbv zeta in P. rewrite <- Ew, <- Es in P.
  assert (E0 : (start <? 0)%Z = false) by (apply Z.ltb_ge; lia).
  split; intros B.
  - assert (E : (datetime_max <? start + bph * hours * w)%Z = true)
      by (apply Z.ltb_lt; lia).
    rewrite P, E0, E. reflexivity.
  - assert (E : (datetime_max <? start + bph * hours * w)%Z = false)
      by (apply Z.ltb_ge; lia).
    rewrite P, E0, E. reflexivity.
Qed.
End BlockFacts.

Section BlockClaims.
Context {num : Type} `{Number num}.

Lemma ceil_dt_bounds (init w : Z) :
  (0 < w)%Z ->
  let start := (init + (- init) mod w)%Z in
  (init <= start < init + w)%Z /\ (start mod w = 0)%Z
  /\ ((init mod w = 0)%Z -> start = init).
Proof.
  intros Hw start. unfold start.
  pose proof (Z.mod_pos_bound (- init) w Hw) as B.
  split; [lia|]. split.
  - rewrite Z.add_mod_idemp_r by lia.
    replace (init + - init)%Z with 0%Z by lia. apply Z.mod_0_l. lia.
  - intros E. rewrite Z.mod_opp_l_z; lia.
Qed.

Lemma covered_block_at (rules : list (UnitPrice num)) start w n :
  covered (map (block_at rules start w) (seq 0 (S n))) = (Z.of_nat (S n) * w)%Z.
Proof.
  assert (L : forall d, last (map (block_at rules start w) (seq 0 (S n))) d
                        = block_at rules start w n).
  { intros d. rewrite seq_S, map_app. simpl. apply last_last. }
  unfold covered.
  change (map (block_at rules start w) (seq 0 (S n)))
    with (block_at rules start w 0 :: map (block_at rules start w) (seq 1 n)) at 1.
  cbv iota.
  change (block_at rules start w 0 :: map (block_at rules start w) (seq 1 n))
    with (map (block_at rules start w) (seq 0 (S n))).
  rewrite L. simpl date_until. simpl date_from. lia.
Qed.

Lemma covered_blocks (rules : list (UnitPrice num)) start w N :
  0 < N ->
  covered (map (block_at rules start w) (seq 0 N)) = (Z.of_nat N * w)%Z.
Proof.
  destruct N as [|n]; [lia|]. intros _. apply covered_block_at.
Qed.

Lemma nth_error_map_seq {A : Type} (f : nat -> A) n k x :
  nth_error (map f (seq 0 n)) k = Some x -> k < n /\ x = f k.
Proof.
  intros E.
  assert (Hk : k < n).
  { assert (N : nth_error (map f (seq 0 n)) k <> None) by congruence.
    apply nth_error_Some in N.
    now rewrite length_map, length_seq in N. }
  split; [exact Hk|].
  rewrite nth_error_map, nth_error_seq in E.
  apply Nat.ltb_lt in Hk. rewrite Hk in E. simpl in E. congruence.
Qed.

(** C4 (as amended): for 1 <= blocks_per_hour <= 60, positive hours and an
    initial date from which the horizon fits before [datetime.max],
    [period_to_blocks] returns blocks_per_hour * hours blocks numbered from
    0, each [int(60 / blocks_per_hour)] minutes wide, contiguous, the first
    one starting at the initial date rounded up to a multiple of the width
    (unchanged on a boundary); together they cover blocks_per_hour * hours
    widths, which is the horizon of [hours] hours when blocks_per_hour
    divides 60.  When the last block would end after [datetime.max], the
    construction raises [OverflowError] instead. *)
Theorem period_to_blocks_partition
        bph hours init (rules : list (UnitPrice num)) :
  (0 < bph <= 60)%Z -> (0 < hours)%Z -> (0 <= init <= datetime_max)%Z ->
  let w := timedelta_minutes (60 / bph) in
  let start := (init + (- init) mod w)%Z in
  (0 < w)%Z
  /\ (init <= start < init + w)%Z
  /\ (start mod w = 0)%Z
  /\ ((init mod w = 0)%Z -> start = init)
  /\ ((datetime_max < start + bph * hours * w)%Z ->
      period_to_blocks bph hours init rules = Raise OverflowError)
  /\ ((start + bph * hours * w <= datetime_max)%Z ->
      exists blocks,
        period_to_blocks bph hours init rules = Ok blocks
        /\ List.length blocks = Z.to_nat (bph * hours)
        /\ (forall k b, nth_error blocks k = Some b ->
                        number b = k
                        /\ date_from b = (start + Z.of_nat k * w)%Z
                        /\ date_until b = (date_from b + w)%Z
                        /\ (date_until b <= datetime_max)%Z)
        /\ (forall k b b', nth_error blocks k = Some b ->
                           nth_error blocks (S k) = Some b' ->
                           date_until b = date_from b')
        /\ covered blocks = (bph * hours * w)%Z
        /\ ((60 mod bph = 0)%Z -> covered blocks = timedelta_hours hours)).
Proof.
  intros Hb Hh Hi w start.
  assert (Hq : (0 < 60 / bph)%Z) by (apply Z.div_str_pos; lia).
  assert (Hw : (0 < w)%Z) by (unfold w, timedelta_minutes; lia).
  destruct (ceil_dt_bounds init w Hw) as (B1 & B2 & B3).
  assert (H0 : (0 <= start)%Z) by (unfold start; lia).
  destruct (period_to_blocks_cases bph hours init rules w start
                                   Hb Hh eq_refl eq_refl H0) as [PO PF].
  assert (HN : (0 < bph * hours)%Z) by nia.
  split; [exact Hw|]. split; [exact B1|]. split; [exact B2|].
  split; [exact B3|]. split; [exact PO|].
  intros F.
  exists (map (block_at rules start w) (seq 0 (Z.to_nat (bph * hours)))).
  assert (Hc : covered (map (block_at rules start w)
                            (seq 0 (Z.to_nat (bph * hours))))
               = (bph * hours * w)%Z).
  { rewrite covered_blocks by lia. rewrite Z2Nat.id by lia. reflexivity. }
  split; [exact (PF F)|].
  split; [now rewrite length_map, length_seq|].
  split; [|split; [|split]].
  - intros k b E. apply nth_error_map_seq in E as [Hk ->].
    cbn [block_at number date_from date_until].
    repeat (split; [reflexivity|]).
    assert (Z.of_nat k + 1 <= bph * hours)%Z by lia. nia.
  - intros k b b' E E'.
    apply nth_error_map_seq in E as [_ ->].
    apply nth_error_map_seq in E' as [_ ->].
    unfold block_at. cbn [date_until date_from]. lia.
  - exact Hc.
  - intros D. rewrite Hc. unfold w, timedelta_minutes, timedelta_hours.
    assert (E60 : (bph * (60 / bph) = 60)%Z).
    { pose proof (Z.div_mod 60 bph). lia. }
    replace (bph * hours * (60 / bph * 60000000))%Z
      with (hours * (bph * (60 / bph)) * 60000000)%Z by ring.
    rewrite E60. lia.
Qed.

(** C7: the price of every block produced by [period_to_blocks] is the
    price of the first rule, in registration order, that matches the block
    (by its block number, or by [date_from <= block start < date_until]
    when it has both dates), and 0 when no rule matches. *)
Theorem block_price_first_matching_rule
        bph hours init (rules : list (UnitPrice num)) blocks b :
  period_to_blocks bph hours init rules = Ok blocks ->
  In b blocks ->
  price b = first_matching_price rules (date_from b) (number b).
Proof.
  unfold period_to_blocks.
  destruct (negb (bph >? 0)%Z); [discriminate|].
  destruct (negb (hours >? 0)%Z); [discriminate|].
  destruct (ceil_dt init (timedelta_minutes (60 / bph))) as [start|e];
    simpl; [|discriminate].
  intros E I.
  destruct (map_result_In _ _ _ _ E I) as ([n t] & _ & Eb).
  destruct (datetime_add t (timedelta_minutes (60 / bph))) as [u|e];
    simpl in Eb; [|discriminate].
  injection Eb as <-. simpl.
  apply get_price_first_match.
Qed.

(** C9 (as amended): a zero or negative [blocks_per_hour] or [hours]
    makes block construction, and with it [solve], fail on its assertion
    (an [AssertionError]) before any block is produced; registering a price
    rule fails on its assertion exactly when it has no block number and
    lacks one of the two dates, and is stored otherwise, whatever the order
    of the two dates. *)
Theorem configuration_errors :
  (forall bph hours init (rules : list (UnitPrice num)),
      (bph <= 0)%Z \/ (hours <= 0)%Z ->
      period_to_blocks bph hours init rules = Raise AssertionError)
  /\ (forall (self : Algorithm num) glop,
         (blocks_per_hour self <= 0)%Z \/ (hours self <= 0)%Z ->
         solve self glop = Raise AssertionError)
  /\ (forall (self : Algorithm num) df du bn p,
         with_unit_price self df du bn p = Raise AssertionError
         <-> bn = None /\ (df = None \/ du = None))
  /\ (forall (self : Algorithm num) df du bn p,
         bn <> None \/ (df <> None /\ du <> None) ->
         exists self',
           with_unit_price self df du bn p = Ok self'
           /\ unit_prices self'
              = unit_prices self
                ++ [{| up_date_from := df; up_date_until := du;
                       up_block_number := bn; up_price := p |}]).
Proof.
  assert (P : forall bph hours init (rules : list (UnitPrice num)),
             (bph <= 0)%Z \/ (hours <= 0)%Z ->
             period_to_blocks bph hours init rules = Raise AssertionError).
  { intros bph hours init rules D. unfold period_to_blocks.
    destruct (bph >? 0)%Z eqn:Eb; simpl; [|reflexivity].
    destruct (hours >? 0)%Z eqn:Eh; simpl; [|reflexivity].
    apply Z.gtb_lt in Eb, Eh. lia. }
  split; [exact P|]. split; [|split].
  - intros self glop D. unfold solve. now rewrite P.
  - intros self df du bn p. unfold with_unit_price.
    destruct bn as [n|], df as [f|], du as [u|]; simpl; split;
      try discriminate; try tauto;
      try (intros [E _]; discriminate);
      try (intros [_ [E|E]]; discriminate).
  - intros self df du bn p D. unfold with_unit_price.
    destruct bn as [n|], df as [f|], du as [u|]; simpl;
      try (eexists; split; reflexivity);
      exfalso; destruct D as [D|[D1 D2]]; congruence.
Qed.
End BlockClaims.

(** Seven blocks per hour give blocks of 8 minutes: one hour of them covers
    56 minutes, not the horizon of one hour. *)
Lemma period_to_blocks_horizon_counterexample :
  exists blocks,
    period_to_blocks 7 1 0%Z (@nil (UnitPrice Z)) = Ok blocks
    /\ List.length blocks = 7
    /\ covered blocks = timedelta_minutes 56
    /\ covered blocks <> timedelta_hours 1.
Proof.
  eexists. split; [reflexivity|]. split; [reflexivity|].
  split; [reflexivity|]. vm_compute. discriminate.
Qed.

(** Four hourly blocks from 21:30 of the last day of year 9999: the start
    is rounded to 22:00, [rrule] yields 22:00 and 23:00 only, and the end
    of the block of 23:00 is not a [datetime]. *)
Lemma period_to_blocks_end_of_time :
  (0 <= last_evening <= datetime_max)%Z
  /\ ceil_dt last_evening (timedelta_minutes 60)
     = Ok (last_evening + timedelta_minutes 30)%Z
  /\ rrule_minutely 60 (last_evening + timedelta_minutes 30)%Z 4
     = [(last_evening + timedelta_minutes 30)%Z;
        (last_evening + timedelta_minutes 90)%Z]
  /\ period_to_blocks 1 4 last_evening (@nil (UnitPrice Z))
     = Raise OverflowError
  /\ period_to_blocks 1 2 last_evening (@nil (UnitPrice Z))
     = Raise OverflowError
  /\ ceil_dt datetime_max (timedelta_minutes 15) = Raise OverflowError.
Proof.
  split; [split; vm_compute; discriminate|].
  repeat split; vm_compute; reflexivity.
Qed.

(** A price rule without block number whose interval is inverted is
    stored, although no instant lies in its interval and no block will ever
    match it. *)
Lemma inverted_interval_accepted_counterexample :
  exists self',
    with_unit_price (ProducerConsumerAlgorithm (num:=Z) 0%Z)
                    (Some (timedelta_hours 2)) (Some (timedelta_hours 1))
                    None 5%Z
    = Ok self'
    /\ unit_prices self' = [inverted_rule]
    /\ (timedelta_hours 1 < timedelta_hours 2)%Z
    /\ (forall date n, rule_matches date n inverted_rule = false).
Proof.
  eexists. split; [reflexivity|]. split; [reflexivity|].
  split; [reflexivity|].
  intros date n. unfold rule_matches, inverted_rule.
  cbn [up_block_number up_date_from up_date_until orb].
  apply andb_false_iff.
  destruct (Z.le_gt_cases (timedelta_hours 2) date) as [L|L].
  - right. apply Z.ltb_ge. unfold timedelta_hours in *. lia.
  - left. apply Z.leb_gt. exact L.
Qed.

Lemma period_to_blocks_partition_witness :
  (0 < 4 <= 60)%Z /\ (0 < 2)%Z /\ (0 <= 1 <= datetime_max)%Z
  /\ exists blocks,
      period_to_blocks 4 2 1%Z (@nil (UnitPrice Z)) = Ok blocks
      /\ List.length blocks = 8
      /\ covered blocks = timedelta_hours 2.
Proof.
  assert (Hb : (0 < 4 <= 60)%Z) by lia.
  assert (Hh : (0 < 2)%Z) by lia.
  assert (Hi : (0 <= 1 <= datetime_max)%Z) by (split; discriminate).
  split; [exact Hb|]. split; [exact Hh|]. split; [exact Hi|].
  destruct (period_to_blocks_partition 4 2 1%Z (@nil (UnitPrice Z)) Hb Hh Hi)
    as (_ & _ & _ & _ & _ & F).
  destruct F as (blocks & E & L & _ & _ & _ & C); [discriminate|].
  exists blocks. split; [exact E|]. split; [exact L|].
  apply C. reflexivity.
Defined.

Lemma block_price_first_matching_rule_witness :
  period_to_blocks 4 1 0%Z [rule_first_hour; rule_block_1]
  = Ok (map (block_at [rule_first_hour; rule_block_1] 0%Z (timedelta_minutes 15))
            (seq 0 4))
  /\ price (block_at [rule_first_hour; rule_block_1] 0%Z (timedelta_minutes 15) 1)
     = first_matching_price [rule_first_hour; rule_block_1]
                            (timedelta_minutes 15) 1.
Proof.
  assert (E : period_to_blocks 4 1 0%Z [rule_first_hour; rule_block_1]
              = Ok (map (block_at [rule_first_hour; rule_block_1] 0%Z
                                  (timedelta_minutes 15)) (seq 0 4)))
    by reflexivity.
  split; [exact E|].
  eapply block_price_first_matching_rule; [exact E|].
  simpl. right. left. reflexivity.
Defined.

Lemma configuration_errors_witness :
  period_to_blocks 0 24 0%Z (@nil (UnitPrice Z)) = Raise AssertionError
  /\ solve (with_hours (ProducerConsumerAlgorithm (num:=Z) 0%Z) (-1))
           (fun _ => (OPTIMAL, fun _ => 0%Z))
     = Raise AssertionError
  /\ with_unit_price (ProducerConsumerAlgorithm (num:=Z) 0%Z)
                     (Some 0%Z) None None 1%Z
     = Raise AssertionError
  /\ exists self',
      with_unit_price (ProducerConsumerAlgorithm (num:=Z) 0%Z)
                      (Some 0%Z) None (Some 3%Z) 1%Z
      = Ok self'.
Proof.
  destruct (@configuration_errors Z _) as (P & S & U & A).
  split; [apply P; left; lia|].
  split; [apply S; right; simpl; lia|].
  split; [apply U; split; [reflexivity|right; reflexivity]|].
  destruct (A (ProducerConsumerAlgorithm (num:=Z) 0%Z)
              (Some 0%Z) None (Some 3%Z) 1%Z) as (self' & E & _).
  - left. discriminate.
  - exists self'. exact E.
Defined.

(** ** Delivery identifiers *)

Lemma separator_overlap (c p q : string) :
  (separator ++ p = c ++ separator ++ q)%string ->
  c = EmptyString \/ startswith separator c = true.
Proof.
  unfold separator. intros E.
  destruct c as [|a1 c]; [now left|right].
  simpl in E. injection E as <- E.
  destruct c as [|a2 c]; [discriminate E|].
  simpl in E. injection E as <- E.
  destruct c as [|a3 c]; [discriminate E|].
  simpl in E. injection E as <- E.
  destruct c as [|a4 c]; [discriminate E|].
  simpl in E. injection E as <- E.
  reflexivity.
Qed.

Lemma containsb_prefix_false (p s : string) :
  containsb p s = false -> startswith p s = false.
Proof.
  destruct s; simpl; intros E; apply orb_false_iff in E; tauto.
Qed.

Lemma containsb_tail_false (p : string) a s :
  containsb p (String a s) = false -> containsb p s = false.
Proof.
  simpl. intros E. apply orb_false_iff in E. tauto.
Qed.

Lemma separated_ids_injective (c1 c2 p1 p2 : string) :
  containsb separator c1 = false ->
  containsb separator c2 = false ->
  (c1 ++ separator ++ p1 = c2 ++ separator ++ p2)%string ->
  c1 = c2 /\ p1 = p2.
Proof.
  revert c2. induction c1 as [|a c1 IH]; intros c2 H1 H2 E.
  - destruct (separator_overlap c2 p1 p2 E) as [-> | P].
    + split; [reflexivity|]. unfold separator in E. simpl in E.
      now injection E.
    + apply containsb_prefix_false in H2. congruence.
  - destruct c2 as [|b c2].
    + destruct (separator_overlap (String a c1) p2 p1 (eq_sym E)) as [N | P].
      * discriminate N.
      * apply containsb_prefix_false in H1. congruence.
    + simpl in E. injection E as <- E.
      apply containsb_tail_false in H1, H2.
      destruct (IH c2 H1 H2 E) as [-> ->]. auto.
Qed.

Section DeliveryClaims.
Context {num : Type} `{Number num}.

Lemma Delivery_id_injective (d1 d2 : Delivery num) :
  containsb separator (c_id (consumer d1)) = false ->
  containsb separator (c_id (consumer d2)) = false ->
  Delivery_id d1 = Delivery_id d2 ->
  c_id (consumer d1) = c_id (consumer d2)
  /\ p_id (producer d1) = p_id (producer d2).
Proof.
  unfold Delivery_id. intros H1 H2 E.
  simpl in E. injection E as E.
  now apply separated_ids_injective.
Qed.

Lemma with_delivery_keyed (self : Algorithm num) c p :
  keyed_by_id (deliveries self) = true ->
  keyed_by_id (deliveries (with_delivery self c p)) = true.
Proof.
  unfold with_delivery. cbn [deliveries].
  set (d := {| consumer := c; producer := p |}).
  generalize (deliveries self). intros ds.
  unfold keyed_by_id. rewrite !andb_true_iff, !uniqueb_NoDup.
  intros [F N]. split; [|now apply NoDup_keys_dict_set].
  rewrite forallb_forall in *. intros kv I.
  apply In_dict_set in I as [-> | I]; [|now apply F].
  cbn [fst snd]. destruct (string_dec (Delivery_id d) (Delivery_id d)); congruence.
Qed.

(** C10 (as amended): when no consumer id contains the text [", p-"], two
    deliveries built from distinct (consumer id, producer id) pairs have
    distinct identifiers, and registering one of them leaves whatever the
    collection holds under the identifier of the other in place. *)
Theorem distinct_pairs_distinct_ids
        (self : Algorithm num) (c1 c2 : Consumer num) (p1 p2 : Producer num) :
  containsb separator (c_id c1) = false ->
  containsb separator (c_id c2) = false ->
  (c_id c1, p_id p1) <> (c_id c2, p_id p2) ->
  let d1 := {| consumer := c1; producer := p1 |} in
  let d2 := {| consumer := c2; producer := p2 |} in
  Delivery_id d1 <> Delivery_id d2
  /\ dict_get (deliveries (with_delivery self c2 p2)) (Delivery_id d1)
     = dict_get (deliveries self) (Delivery_id d1)
  /\ dict_get (deliveries (with_delivery (with_delivery self c1 p1) c2 p2))
              (Delivery_id d1) = Some d1
  /\ dict_get (deliveries (with_delivery (with_delivery self c1 p1) c2 p2))
              (Delivery_id d2) = Some d2.
Proof.
  intros H1 H2 NE d1 d2.
  assert (D : Delivery_id d1 <> Delivery_id d2).
  { intros E. apply NE.
    destruct (Delivery_id_injective d1 d2 H1 H2 E) as [Ec Ep].
    simpl in Ec, Ep. congruence. }
  split; [exact D|]. unfold with_delivery. simpl. fold d1 d2.
  split; [apply dict_get_set_neq; congruence|]. split.
  - rewrite dict_get_set_neq by congruence. apply dict_get_set_eq.
  - apply dict_get_set_eq.
Qed.
End DeliveryClaims.

(** The pairs ("a", "b, p-c") and ("a, p-b", "c") are distinct and share the
    identifier "c-a, p-b, p-c": the second registration replaces the first
    delivery. *)
Lemma delivery_id_collision_counterexample :
  (c_id consumer_a, p_id producer_b_p_c) <> (c_id consumer_a_p_b, p_id producer_c)
  /\ Delivery_id {| consumer := consumer_a; producer := producer_b_p_c |}
     = Delivery_id {| consumer := consumer_a_p_b; producer := producer_c |}
  /\ deliveries (with_delivery
                   (with_delivery (ProducerConsumerAlgorithm 0%Z)
                                  consumer_a producer_b_p_c)
                   consumer_a_p_b producer_c)
     = [("c-a, p-b, p-c"%string,
         {| consumer := consumer_a_p_b; producer := producer_c |})].
Proof.
  split; [discriminate|]. split; reflexivity.
Qed.

Lemma distinct_pairs_distinct_ids_witness :
  containsb separator (c_id consumer_a) = false
  /\ (c_id consumer_a, p_id producer_b) <> (c_id consumer_a, p_id producer_c)
  /\ Delivery_id {| consumer := consumer_a; producer := producer_b |}
     <> Delivery_id {| consumer := consumer_a; producer := producer_c |}.
Proof.
  assert (Hc : containsb separator (c_id consumer_a) = false) by reflexivity.
  assert (Hp : (c_id consumer_a, p_id producer_b)
               <> (c_id consumer_a, p_id producer_c)) by discriminate.
  split; [exact Hc|]. split; [exact Hp|].
  exact (proj1 (distinct_pairs_distinct_ids
                  (ProducerConsumerAlgorithm 0%Z) consumer_a consumer_a
                  producer_b producer_c Hc Hc Hp)).
Defined.

(** ** Model building *)

Section ListFacts.
Context {A B : Type}.

Lemma map_fst_combine_seq (l : list A) a :
  map fst (combine l (seq a (List.length l))) = l.
Proof.
  revert a. induction l as [|x l IH]; intros a; simpl; [reflexivity|].
  now rewrite IH.
Qed.

Lemma map_snd_combine_seq (l : list A) a :
  map snd (combine l (seq a (List.length l))) = seq a (List.length l).
Proof.
  revert a. induction l as [|x l IH]; intros a; simpl; [reflexivity|].
  now rewrite IH.
Qed.
End ListFacts.

Section DictFolds.
Context {K V : Type} `{EqDec K}.

Lemma fold_set_fresh (entries acc : dict K V) :
  NoDup (keys acc ++ keys entries) ->
  fold_left set_entry entries acc = acc ++ entries.
Proof.
  revert acc. induction entries as [|[k v] es IH]; intros acc N; simpl.
  - now rewrite app_nil_r.
  - unfold set_entry at 2. simpl.
    rewrite dict_set_notin.
    + rewrite IH; [now rewrite <- app_assoc|].
      unfold keys in *. rewrite map_app. simpl. now rewrite <- app_assoc.
    + apply NoDup_remove_2 in N. intros I. apply N.
      apply in_or_app. now left.
Qed.

Lemma fold_set_init (entries pre : dict K V) (v0 : V) :
  NoDup (keys pre ++ keys entries) ->
  fold_left set_entry entries (pre ++ map (fun e => (fst e, v0)) entries)
  = pre ++ entries.
Proof.
  revert pre. induction entries as [|[k v] es IH]; intros pre N; simpl.
  - reflexivity.
  - unfold set_entry at 2. simpl.
    rewrite dict_set_middle.
    + change (pre ++ (k, v) :: map (fun e => (fst e, v0)) es)
        with (pre ++ [(k, v)] ++ map (fun e => (fst e, v0)) es).
      rewrite app_assoc, IH.
      * now rewrite <- app_assoc.
      * unfold keys in *. rewrite map_app. simpl. now rewrite <- app_assoc.
    + apply NoDup_remove_2 in N. intros I. apply N.
      apply in_or_app. now left.
Qed.
End DictFolds.

Section VariablePhase.
Context {num : Type} `{Number num}.

Lemma Forall_bounds_NumVar (s : Solver num) name :
  Forall bounds_0_inf (solver_variables s) ->
  Forall bounds_0_inf (solver_variables (snd (NumVar s (Fin zero) PosInf name))).
Proof.
  intros F. simpl. apply Forall_app. split; [exact F|].
  repeat constructor.
Qed.

(** The inner loop of the variable phase for one delivery. *)
Lemma create_variable_loop tbs (d : Delivery num) bs :
  forall (s : Solver num) (vars : VarTable) (dv0 : dict nat nat),
    (forall b, In b bs -> b < List.length tbs) ->
    dict_get vars (Delivery_id d) = Some dv0 ->
    exists s',
      for_each (create_variable tbs d) bs (s, vars)
      = Ok (s',
            dict_set vars (Delivery_id d)
                     (fold_left set_entry
                                (combine (filter (feasible tbs d) bs)
                                         (seq (List.length (solver_variables s))
                                              (List.length (filter (feasible tbs d) bs))))
                                dv0))
      /\ solver_constraints s' = solver_constraints s
      /\ List.length (solver_variables s')
         = List.length (solver_variables s)
           + List.length (filter (feasible tbs d) bs)
      /\ (Forall bounds_0_inf (solver_variables s) ->
          Forall bounds_0_inf (solver_variables s')).
Proof.
  induction bs as [|b bs IH]; intros s vars dv0 Hb G.
  - exists s. simpl. rewrite dict_set_same by exact G.
    repeat split; auto.
  - assert (Hlt : b < List.length tbs) by (apply Hb; now left).
    destruct (nth_error tbs b) as [tb|] eqn:Etb;
      [|apply nth_error_None in Etb; lia].
    assert (Ef : feasible tbs d b
                 = (date_until tb <=? departure_date (consumer d))%Z).
    { unfold feasible. now rewrite Etb. }
    cbn [for_each]. unfold create_variable at 1. rewrite Etb.
    cbn [getattr_of bind].
    cbn [filter]. rewrite Ef.
    destruct (date_until tb <=? departure_date (consumer d))%Z.
    + unfold NumVar. rewrite G. cbn [getattr_of bind].
      rewrite dict_get_set_eq. cbn [getattr_of bind].
      rewrite dict_get_set_eq. cbn [getattr_of bind].
      set (v := List.length (solver_variables s)).
      match goal with
      | |- context [for_each _ bs (?s1, ?vars1)] =>
          destruct (IH s1 vars1 (dict_set dv0 b v)) as (s' & E & C & L & F)
      end.
      * intros b' I. apply Hb. now right.
      * apply dict_get_set_eq.
      * exists s'. rewrite E. clear E. subst v.
        cbn [solver_variables Objective_SetCoefficient] in *.
        rewrite length_app in *. cbn [List.length] in *.
        rewrite Nat.add_1_r in *.
        rewrite dict_set_set.
        cbn [combine seq fold_left].
        change (set_entry dv0 (b, List.length (solver_variables s)))
          with (dict_set dv0 b (List.length (solver_variables s))).
        split; [reflexivity|]. split; [exact C|]. split; [lia|].
        intros F0. apply F. apply Forall_app. split; [exact F0|].
        repeat constructor.
    + destruct (IH s vars dv0) as (s' & E & C & L & F); auto.
      * intros b' I. apply Hb. now right.
      * exists s'. cbn [bind]. rewrite E. auto.
Qed.

Lemma keyed_by_id_spec (ds : dict string (Delivery num)) :
  keyed_by_id ds = true <->
  (forall kd, In kd ds -> fst kd = Delivery_id (snd kd)) /\ NoDup (keys ds).
Proof.
  unfold keyed_by_id. rewrite andb_true_iff, uniqueb_NoDup, forallb_forall.
  split; intros [F N]; (split; [|exact N]); intros kd I; specialize (F kd I).
  - destruct (string_dec (fst kd) (Delivery_id (snd kd))); [assumption|discriminate].
  - destruct (string_dec (fst kd) (Delivery_id (snd kd))); [reflexivity|contradiction].
Qed.

Lemma NoDup_feasible_blocks tbs (d : Delivery num) :
  NoDup (feasible_blocks tbs d).
Proof. apply NoDup_filter, seq_NoDup. Qed.

Lemma keys_allocate tbs (ds : dict string (Delivery num)) next :
  keys (allocate tbs ds next) = keys ds.
Proof.
  revert next. induction ds as [|kd ds IH]; intros next; simpl; [reflexivity|].
  f_equal. apply IH.
Qed.

Lemma allocate_init tbs (ds : dict string (Delivery num)) next :
  map (fun e => (fst e, @nil (nat * nat))) (allocate tbs ds next)
  = map (fun kd => (fst kd, [])) ds.
Proof.
  revert next. induction ds as [|kd ds IH]; intros next; simpl; [reflexivity|].
  f_equal. apply IH.
Qed.

(** The outer loop of the variable phase over the remaining deliveries. *)
Lemma create_variables_loop tbs (rest : dict string (Delivery num)) :
  forall (s : Solver num) (vars : VarTable),
    NoDup (keys rest) ->
    (forall kd, In kd rest -> fst kd = Delivery_id (snd kd)) ->
    (forall kd, In kd rest -> dict_get vars (fst kd) = Some []) ->
    exists s',
      create_variables tbs rest (s, vars)
      = Ok (s', fold_left set_entry
                          (allocate tbs rest (List.length (solver_variables s)))
                          vars)
      /\ solver_constraints s' = solver_constraints s
      /\ (Forall bounds_0_inf (solver_variables s) ->
          Forall bounds_0_inf (solver_variables s'))
      /\ List.length (solver_variables s')
         = List.length (solver_variables s)
           + List.length (flat_map (fun kd => feasible_blocks tbs (snd kd)) rest).
Proof.
  unfold create_variables.
  induction rest as [|[k d] rest IH]; intros s vars N K G.
  - exists s. simpl. auto.
  - inversion N as [|? ? M U]; subst.
    assert (Ek : k = Delivery_id d) by (apply (K (k, d)); now left).
    destruct (create_variable_loop tbs d (seq 0 (List.length tbs)) s vars [])
      as (s1 & E1 & C1 & L1 & F1).
    { intros b I. apply in_seq in I. lia. }
    { rewrite <- Ek. apply (G (k, d)). now left. }
    fold (feasible_blocks tbs d) in E1, L1.
    rewrite fold_set_fresh in E1.
    2:{ simpl. unfold keys. rewrite map_fst_combine_seq.
        apply NoDup_feasible_blocks. }
    simpl app in E1.
    destruct (IH s1 (dict_set vars (Delivery_id d)
                              (combine (feasible_blocks tbs d)
                                       (seq (List.length (solver_variables s))
                                            (List.length (feasible_blocks tbs d))))))
      as (s' & E & C & F & L).
    + exact U.
    + intros kd I. apply K. now right.
    + intros kd I. rewrite dict_get_set_neq.
      * apply G. now right.
      * rewrite <- Ek. intros Ekd. apply M. rewrite Ekd. unfold keys.
        now apply in_map.
    + exists s'. cbn [for_each snd]. rewrite E1. cbn [bind]. rewrite E.
      rewrite L1. cbn [allocate fold_left fst snd]. unfold set_entry at 2.
      cbn [fst snd]. rewrite Ek.
      split; [reflexivity|]. split; [congruence|]. split; [auto|].
      cbn [flat_map snd]. rewrite length_app. lia.
Qed.

Lemma create_variables_closed tbs (ds : dict string (Delivery num)) :
  keyed_by_id ds = true ->
  exists s1,
    create_variables tbs ds (new_solver, map (fun kd => (fst kd, [])) ds)
    = Ok (s1, allocate tbs ds 0)
    /\ solver_constraints s1 = []
    /\ Forall bounds_0_inf (solver_variables s1)
    /\ List.length (solver_variables s1)
       = List.length (flat_map (fun kd => feasible_blocks tbs (snd kd)) ds).
Proof.
  intros Hk. apply keyed_by_id_spec in Hk as [K N].
  destruct (create_variables_loop tbs ds new_solver
                                  (map (fun kd => (fst kd, [])) ds) N K)
    as (s1 & E & C & F & L).
  - intros kd I. apply In_dict_get.
    + unfold keys. rewrite map_map. exact N.
    + apply in_map_iff. exists kd. destruct kd. auto.
  - exists s1. rewrite E.
    split; [|split; [exact C|split; [apply F; constructor|exact L]]].
    do 2 f_equal. cbn [new_solver solver_variables List.length].
    rewrite <- (allocate_init tbs ds 0).
    apply (fold_set_init (allocate tbs ds 0) [] []).
    simpl. now rewrite keys_allocate.
Qed.
End VariablePhase.

Section ConstraintFacts.
Context {num : Type} `{Number num}.

Lemma update_nth_last {A : Type} (f : A -> A) (cs : list A) (row : A) :
  update_nth (List.length cs) f (cs ++ [row]) = cs ++ [f row].
Proof.
  induction cs as [|c cs IH]; simpl; [reflexivity|]. now rewrite IH.
Qed.

Lemma set_constraints_same (s : Solver num) :
  set_constraints s (solver_constraints s) = s.
Proof. now destruct s. Qed.

Lemma set_constraints_twice (s : Solver num) a b :
  set_constraints (set_constraints s a) b = set_constraints s b.
Proof. reflexivity. Qed.

Lemma Constraint_new (s : Solver num) lb ub :
  Constraint s lb ub
  = (List.length (solver_constraints s),
     set_constraints s (solver_constraints s
                        ++ [{| con_lb := lb; con_ub := ub; con_terms := [] |}])).
Proof. reflexivity. Qed.

Lemma SetCoefficient_last (s : Solver num) cs row v x :
  solver_constraints s = cs ++ [row] ->
  Constraint_SetCoefficient s (List.length cs) v x
  = set_constraints s (cs ++ [set_term v x row]).
Proof.
  intros E. unfold Constraint_SetCoefficient, set_constraints.
  now rewrite E, update_nth_last.
Qed.

Lemma add_terms_fresh (vs : list nat) (t : dict nat num) :
  NoDup (keys t ++ vs) -> add_terms vs t = t ++ unit_terms vs.
Proof.
  unfold add_terms, unit_terms.
  revert t. induction vs as [|v vs IH]; intros t N; simpl.
  - now rewrite app_nil_r.
  - rewrite dict_set_notin.
    + rewrite IH; [now rewrite <- app_assoc|].
      unfold keys in *. rewrite map_app. simpl. now rewrite <- app_assoc.
    + apply NoDup_remove_2 in N. intros I. apply N.
      apply in_or_app. now left.
Qed.

Lemma lookups_cons (dv : dict nat nat) b bs :
  lookups dv (b :: bs)
  = match dict_get dv b with
    | Some v => [v]
    | None => []
    end ++ lookups dv bs.
Proof. reflexivity. Qed.

Lemma lookups_cons_notin a h (dv : dict nat nat) l :
  ~ In a l -> lookups ((a, h) :: dv) l = lookups dv l.
Proof.
  induction l as [|b l IH]; intros N; [reflexivity|].
  rewrite !lookups_cons, IH by (intros I; apply N; now right).
  f_equal. cbn [dict_get].
  destruct (eq_dec b a) as [E|NE]; [|reflexivity].
  exfalso. apply N. left. congruence.
Qed.

Lemma lookups_combine_filter (f : nat -> bool) l :
  forall hs,
    NoDup l -> List.length hs = List.length (filter f l) ->
    lookups (combine (filter f l) hs) l = hs.
Proof.
  induction l as [|a l IH]; intros hs N L.
  - destruct hs; [reflexivity|discriminate].
  - inversion N as [|? ? M U]; subst. cbn [filter] in *.
    rewrite lookups_cons.
    destruct (f a).
    + destruct hs as [|h hs]; [discriminate|]. cbn [combine].
      rewrite lookups_cons_notin by exact M.
      rewrite IH; [|exact U|simpl in L; lia].
      cbn [dict_get]. destruct (eq_dec a a) as [_|C]; [reflexivity|congruence].
    + rewrite IH by assumption.
      replace (dict_get (combine (filter f l) hs) a) with (@None nat);
        [reflexivity|].
      symmetry. apply dict_get_None. intros I. apply M.
      unfold keys in I. apply in_map_iff in I as ([a' h'] & E & I).
      simpl in E. subst a'. apply in_combine_l in I.
      now apply filter_In in I.
Qed.

(** The loop that puts the variables of one delivery into its row. *)
Lemma add_consumer_term_loop (vars : VarTable) (d : Delivery num) dv cs bs :
  forall (s : Solver num) (cc : dict string nat) row,
    solver_constraints s = cs ++ [row] ->
    dict_get cc (c_id (consumer d)) = Some (List.length cs) ->
    dict_get vars (Delivery_id d) = Some dv ->
    for_each (add_consumer_term vars d) bs (s, cc)
    = Ok (set_constraints
            s (cs ++ [{| con_lb := con_lb row;
                         con_ub := con_ub row;
                         con_terms := add_terms (lookups dv bs) (con_terms row) |}]),
          cc).
Proof.
  induction bs as [|b bs IH]; intros s cc row E C G.
  - simpl. destruct row. simpl. rewrite <- E, set_constraints_same. reflexivity.
  - cbn [for_each]. unfold add_consumer_term at 1. rewrite G.
    cbn [getattr_of bind]. rewrite lookups_cons.
    destruct (dict_get dv b) as [v|].
    + rewrite C. cbn [getattr_of bind].
      rewrite (SetCoefficient_last s cs row v one E).
      rewrite (IH _ cc (set_term v one row)); [reflexivity|reflexivity|exact C|exact G].
    + cbn [bind app]. now apply IH.
Qed.

Lemma add_consumer_constraints_loop tbs (vars : VarTable)
      (rest : dict string (Delivery num)) :
  forall (s : Solver num) (cc : dict string nat),
    (forall kd, In kd rest ->
                exists dv, dict_get vars (Delivery_id (snd kd)) = Some dv) ->
    exists cc',
      for_each (add_consumer_constraint tbs vars) rest (s, cc)
      = Ok (set_constraints
              s (solver_constraints s ++ map (consumer_row_loop tbs vars) rest),
            cc').
Proof.
  induction rest as [|kd rest IH]; intros s cc G.
  - exists cc. simpl. now rewrite app_nil_r, set_constraints_same.
  - destruct (G kd (or_introl eq_refl)) as (dv & Edv).
    cbn [for_each]. unfold add_consumer_constraint at 1. cbv zeta.
    rewrite Constraint_new. cbv beta iota.
    set (row0 := {| con_lb := Fin (required_units (consumer (snd kd)));
                    con_ub := Fin (required_units (consumer (snd kd)));
                    con_terms := [] |}).
    rewrite (add_consumer_term_loop
               vars (snd kd) dv (solver_constraints s) (seq 0 (List.length tbs))
               (set_constraints s (solver_constraints s ++ [row0]))
               (dict_set cc (c_id (consumer (snd kd)))
                         (List.length (solver_constraints s)))
               row0 eq_refl (dict_get_set_eq _ _ _) Edv).
    subst row0. cbn [bind con_lb con_ub con_terms].
    match goal with
    | |- context [for_each _ rest (?s1, ?cc1)] =>
        destruct (IH s1 cc1) as (cc' & E)
    end.
    { intros kd' I. apply G. now right. }
    exists cc'. rewrite E. cbn [set_constraints solver_constraints
                                  solver_variables objective minimization map].
    unfold consumer_row_loop at 2, delivery_entries. rewrite Edv.
    rewrite <- app_assoc. reflexivity.
Qed.
End ConstraintFacts.

Section ProducerPhase.
Context {num : Type} `{Number num}.

Lemma producer_block_variables_cons (ds : dict string (Delivery num))
      (e : string * dict nat nat) (vars : VarTable) pr b :
  producer_block_variables ds (e :: vars) pr b
  = match dict_get ds (fst e) with
    | Some d =>
        if String.eqb (p_id pr) (p_id (producer d))
        then match dict_get (snd e) b with
             | Some v => [v]
             | None => []
             end
        else []
    | None => []
    end ++ producer_block_variables ds vars pr b.
Proof. reflexivity. Qed.

Lemma add_terms_app (vs ws : list nat) (t : dict nat num) :
  add_terms (vs ++ ws) t = add_terms ws (add_terms vs t).
Proof. unfold add_terms. apply fold_left_app. Qed.

(** The loop over the variable table for one producer and one block. *)
Lemma add_producer_term_loop (ds : dict string (Delivery num)) pr b cs
      (entries : VarTable) :
  forall (s : Solver num) row,
    solver_constraints s = cs ++ [row] ->
    (forall e, In e entries -> exists d, dict_get ds (fst e) = Some d) ->
    for_each (add_producer_term ds pr b (List.length cs)) entries s
    = Ok (set_constraints
            s (cs ++ [{| con_lb := con_lb row;
                         con_ub := con_ub row;
                         con_terms :=
                           add_terms (producer_block_variables ds entries pr b)
                                     (con_terms row) |}])).
Proof.
  induction entries as [|[k dv] entries IH]; intros s row E G.
  - simpl. destruct row. simpl. rewrite <- E, set_constraints_same. reflexivity.
  - destruct (G (k, dv) (or_introl eq_refl)) as (d & Ed). cbn [fst] in Ed.
    assert (G' : forall e, In e entries -> exists d, dict_get ds (fst e) = Some d)
      by (intros e I; apply G; now right).
    cbn [for_each]. unfold add_producer_term at 1. rewrite Ed.
    cbn [getattr_of bind].
    rewrite producer_block_variables_cons. cbn [fst snd]. rewrite Ed.
    destruct (String.eqb (p_id pr) (p_id (producer d))).
    + destruct (dict_get dv b) as [v|].
      * cbn [bind]. rewrite (SetCoefficient_last s cs row v one E).
        rewrite IH with (row := set_term v one row);
          [reflexivity|reflexivity|exact G'].
      * cbn [bind app]. now apply IH.
    + cbn [bind app]. now apply IH.
Qed.

Lemma add_producer_constraint_loop (ds : dict string (Delivery num))
      (vars : VarTable) pr bs :
  forall (s : Solver num),
    (forall e, In e vars -> exists d, dict_get ds (fst e) = Some d) ->
    for_each (add_producer_constraint ds vars pr) bs s
    = Ok (set_constraints
            s (solver_constraints s ++ map (producer_row_loop ds vars pr) bs)).
Proof.
  induction bs as [|b bs IH]; intros s G.
  - simpl. now rewrite app_nil_r, set_constraints_same.
  - cbn [for_each]. unfold add_producer_constraint at 1.
    rewrite Constraint_new. cbv beta iota.
    set (row0 := {| con_lb := Fin zero;
                    con_ub := Fin (max_supply pr);
                    con_terms := [] |}).
    rewrite (add_producer_term_loop
               ds pr b (solver_constraints s) vars
               (set_constraints s (solver_constraints s ++ [row0]))
               row0 eq_refl G).
    subst row0. cbn [bind con_lb con_ub con_terms].
    rewrite IH by exact G.
    cbn [set_constraints solver_constraints solver_variables objective
                         minimization map].
    rewrite <- app_assoc. reflexivity.
Qed.

Lemma add_producer_constraints_loop (tbs : list (TimeBlock num))
      (ds : dict string (Delivery num))
      (vars : VarTable) prs :
  forall (s : Solver num),
    (forall e, In e vars -> exists d, dict_get ds (fst e) = Some d) ->
    for_each
      (fun s pr =>
         for_each (add_producer_constraint ds vars pr)
                  (seq 0 (List.length tbs)) s) prs s
    = Ok (set_constraints
            s (solver_constraints s
               ++ flat_map (fun pr => map (producer_row_loop ds vars pr)
                                          (seq 0 (List.length tbs))) prs)).
Proof.
  induction prs as [|pr prs IH]; intros s G.
  - simpl. now rewrite app_nil_r, set_constraints_same.
  - cbn [for_each]. rewrite add_producer_constraint_loop by exact G.
    cbn [bind]. rewrite IH by exact G.
    cbn [set_constraints solver_constraints solver_variables objective
                         minimization flat_map].
    rewrite <- app_assoc. reflexivity.
Qed.
End ProducerPhase.

Section ModelClosedForm.
Context {num : Type} `{Number num}.

Lemma dict_get_allocate tbs (ds : dict string (Delivery num)) :
  forall next k d,
    NoDup (keys ds) -> In (k, d) ds ->
    exists n,
      dict_get (allocate tbs ds next) k
      = Some (combine (feasible_blocks tbs d)
                      (seq n (List.length (feasible_blocks tbs d)))).
Proof.
  induction ds as [|[k0 d0] ds IH]; intros next k d N I; [destruct I|].
  inversion N as [|? ? M U]; subst.
  cbn [allocate dict_get fst snd].
  destruct I as [E|I].
  - inversion E; subst. destruct (eq_dec k k) as [_|C]; [|congruence].
    now exists next.
  - destruct (eq_dec k k0) as [E|_].
    + subst k0. exfalso. apply M. unfold keys.
      change k with (fst (k, d)). now apply in_map.
    + now apply IH.
Qed.

Lemma allocate_lower_bound tbs (ds : dict string (Delivery num)) :
  forall next e b v,
    In e (allocate tbs ds next) -> dict_get (snd e) b = Some v -> next <= v.
Proof.
  induction ds as [|[k0 d0] ds IH]; intros next e b v I G; [destruct I|].
  cbn [allocate fst snd] in I. destruct I as [<-|I].
  - cbn [snd] in G. apply dict_get_In, in_combine_r, in_seq in G. lia.
  - specialize (IH _ _ _ _ I G). lia.
Qed.

Lemma producer_block_variables_bound (ds0 : dict string (Delivery num)) tbs
      (ds : dict string (Delivery num)) pr b next v :
  In v (producer_block_variables ds0 (allocate tbs ds next) pr b) -> next <= v.
Proof.
  unfold producer_block_variables. intros I.
  apply in_flat_map in I as (e & Ie & I).
  destruct (dict_get ds0 (fst e)); [|destruct I].
  destruct (String.eqb (p_id pr) (p_id (producer d))); [|destruct I].
  destruct (dict_get (snd e) b) as [v'|] eqn:G; [|destruct I].
  destruct I as [<-|[]]. eapply allocate_lower_bound; eauto.
Qed.

Lemma NoDup_producer_block_variables (ds0 : dict string (Delivery num)) tbs
      (ds : dict string (Delivery num)) pr b :
  forall next,
    NoDup (producer_block_variables ds0 (allocate tbs ds next) pr b).
Proof.
  induction ds as [|[k0 d0] ds IH]; intros next; [constructor|].
  cbn [allocate]. rewrite producer_block_variables_cons. cbn [fst snd].
  destruct (dict_get ds0 k0); [|apply IH].
  destruct (String.eqb (p_id pr) (p_id (producer d))); [|apply IH].
  destruct (dict_get _ b) as [v|] eqn:G; [|apply IH].
  cbn [app]. constructor; [|apply IH].
  intros I. apply producer_block_variables_bound in I.
  apply dict_get_In, in_combine_r, in_seq in G. lia.
Qed.

Lemma consumer_row_loop_allocate tbs (ds : dict string (Delivery num)) kd :
  keyed_by_id ds = true -> In kd ds ->
  consumer_row_loop tbs (allocate tbs ds 0) kd
  = consumer_row (allocate tbs ds 0) kd.
Proof.
  intros Hk I. apply keyed_by_id_spec in Hk as [K N].
  destruct kd as [k d]. pose proof (K _ I) as Ek. cbn [fst snd] in Ek.
  destruct (dict_get_allocate tbs ds 0 k d N I) as (n & G).
  unfold consumer_row_loop, consumer_row, delivery_variables, delivery_entries.
  cbn [fst snd]. rewrite <- Ek, G. f_equal.
  unfold feasible_blocks at 1.
  rewrite lookups_combine_filter;
    [|apply seq_NoDup|now rewrite length_seq].
  unfold values. rewrite map_snd_combine_seq.
  apply (add_terms_fresh _ []). simpl. apply seq_NoDup.
Qed.

Lemma producer_row_loop_allocate tbs (ds : dict string (Delivery num)) pr b :
  producer_row_loop ds (allocate tbs ds 0) pr b
  = producer_row ds (allocate tbs ds 0) pr b.
Proof.
  unfold producer_row_loop, producer_row. f_equal.
  apply (add_terms_fresh _ []). simpl. apply NoDup_producer_block_variables.
Qed.

(** Closed form of the model that [solve] builds. *)
Lemma build_model_closed tbs (ds : dict string (Delivery num)) :
  keyed_by_id ds = true ->
  exists s,
    build_model tbs ds = Ok (s, allocate tbs ds 0)
    /\ solver_constraints s
       = map (consumer_row (allocate tbs ds 0)) ds
         ++ flat_map (fun pr => map (producer_row ds (allocate tbs ds 0) pr)
                                    (seq 0 (List.length tbs)))
                     (_get_producers ds)
    /\ Forall bounds_0_inf (solver_variables s)
    /\ List.length (solver_variables s)
       = List.length (flat_map (fun kd => feasible_blocks tbs (snd kd)) ds)
    /\ minimization s = true.
Proof.
  intros Hk. pose proof Hk as Hk'. apply keyed_by_id_spec in Hk' as [K N].
  destruct (create_variables_closed tbs ds Hk) as (s1 & E1 & C1 & F1 & L1).
  unfold build_model. rewrite E1. cbn [bind].
  unfold add_consumer_constraints.
  destruct (add_consumer_constraints_loop
              tbs (allocate tbs ds 0) ds (SetMinimization s1) [])
    as (cc & E2).
  { intros [k d] I. pose proof (K _ I) as Ek. cbn [fst snd] in *.
    rewrite <- Ek.
    destruct (dict_get_allocate tbs ds 0 k d N I) as (n & G). eauto. }
  rewrite E2. cbn [bind]. unfold add_producer_constraints.
  rewrite add_producer_constraints_loop.
  2:{ intros e I.
      destruct (dict_get ds (fst e)) as [d|] eqn:G; [eauto|].
      apply dict_get_None in G. exfalso. apply G.
      rewrite <- (keys_allocate tbs ds 0). unfold keys. now apply in_map. }
  cbn [bind]. eexists. split; [reflexivity|].
  cbn [set_constraints solver_constraints solver_variables minimization
                       SetMinimization].
  rewrite C1. cbn [app].
  split; [|split; [exact F1|split; [exact L1|reflexivity]]].
  f_equal.
  - apply map_ext_in. intros kd I. now apply consumer_row_loop_allocate.
  - apply flat_map_ext. intros pr. apply map_ext. intros b.
    apply producer_row_loop_allocate.
Qed.
End ModelClosedForm.

Section ModelFacts.
Context {num : Type} `{Number num}.

Lemma feasible_spec tbs (d : Delivery num) b :
  feasible tbs d b = true <->
  exists tb, nth_error tbs b = Some tb
             /\ (date_until tb <= departure_date (consumer d))%Z.
Proof.
  unfold feasible. destruct (nth_error tbs b) as [tb|].
  - rewrite Z.leb_le. split.
    + intros L. now exists tb.
    + intros (tb' & [= <-] & L). exact L.
  - split; [discriminate|]. intros (tb & E & _). discriminate.
Qed.

Lemma In_feasible_blocks tbs (d : Delivery num) b :
  In b (feasible_blocks tbs d) <-> feasible tbs d b = true.
Proof.
  unfold feasible_blocks. rewrite filter_In, in_seq. split; [tauto|].
  intros F. split; [|exact F]. apply feasible_spec in F as (tb & E & _).
  assert (N : nth_error tbs b <> None) by congruence.
  apply nth_error_Some in N. lia.
Qed.

Lemma keys_delivery_entries tbs (ds : dict string (Delivery num)) k d :
  NoDup (keys ds) -> In (k, d) ds ->
  keys (delivery_entries (allocate tbs ds 0) k) = feasible_blocks tbs d.
Proof.
  intros N I. destruct (dict_get_allocate tbs ds 0 k d N I) as (n & G).
  unfold delivery_entries. rewrite G. apply map_fst_combine_seq.
Qed.

Lemma lookup_var_allocate tbs (ds : dict string (Delivery num)) k d b :
  NoDup (keys ds) -> In (k, d) ds ->
  (exists v, lookup_var (allocate tbs ds 0) k b = Some v)
  <-> feasible tbs d b = true.
Proof.
  intros N I. unfold lookup_var.
  destruct (dict_get_allocate tbs ds 0 k d N I) as (n & G).
  rewrite G, <- In_feasible_blocks.
  pose proof (map_fst_combine_seq (feasible_blocks tbs d) n) as Ek.
  split.
  - intros (v & Ev). rewrite <- Ek. apply dict_get_In in Ev.
    apply (in_map fst) in Ev. exact Ev.
  - intros Ib. destruct (dict_get _ b) as [v|] eqn:Ev; [eauto|].
    apply dict_get_None in Ev. unfold keys in Ev. rewrite Ek in Ev.
    contradiction.
Qed.

Lemma In_producer_block_variables tbs (ds : dict string (Delivery num)) pr b v :
  NoDup (keys ds) ->
  In v (producer_block_variables ds (allocate tbs ds 0) pr b)
  <-> exists k d, In (k, d) ds
                  /\ p_id (producer d) = p_id pr
                  /\ lookup_var (allocate tbs ds 0) k b = Some v.
Proof.
  intros N. unfold producer_block_variables, lookup_var.
  rewrite in_flat_map. split.
  - intros ([k dv] & Ie & I). cbn [fst snd] in I.
    destruct (dict_get ds k) as [d|] eqn:Ed; [|destruct I].
    destruct (String.eqb (p_id pr) (p_id (producer d))) eqn:Ep; [|destruct I].
    destruct (dict_get dv b) as [v'|] eqn:Ev; [|destruct I].
    destruct I as [<-|[]].
    exists k, d. split; [now apply dict_get_In|].
    split; [symmetry; now apply String.eqb_eq|].
    rewrite (In_dict_get _ k dv); [exact Ev| |exact Ie].
    now rewrite keys_allocate.
  - intros (k & d & I & Ep & L).
    destruct (dict_get (allocate tbs ds 0) k) as [dv|] eqn:G; [|discriminate].
    exists (k, dv). split; [now apply dict_get_In|]. cbn [fst snd].
    rewrite (In_dict_get ds k d N I).
    rewrite Ep, String.eqb_refl, L. now left.
Qed.

Lemma combine_injective {A B : Type} (l1 : list A) :
  forall (l2 : list B) a a' v,
    NoDup l2 -> In (a, v) (combine l1 l2) -> In (a', v) (combine l1 l2) -> a = a'.
Proof.
  induction l1 as [|x l1 IH]; intros l2 a a' v N I I'; [destruct I|].
  destruct l2 as [|y l2]; [destruct I|].
  inversion N as [|? ? M U]; subst. simpl in I, I'.
  destruct I as [E|I], I' as [E'|I'].
  - congruence.
  - inversion E; subst. apply in_combine_r in I'. contradiction.
  - inversion E'; subst. apply in_combine_r in I. contradiction.
  - eapply IH; eauto.
Qed.

(** Distinct (delivery, block) pairs have distinct variables. *)
Lemma allocate_injective tbs (ds : dict string (Delivery num)) :
  forall next e e' b b' v,
    In e (allocate tbs ds next) -> In e' (allocate tbs ds next) ->
    dict_get (snd e) b = Some v -> dict_get (snd e') b' = Some v ->
    e = e' /\ b = b'.
Proof.
  induction ds as [|[k0 d0] ds IH]; intros next e e' b b' v I I' G G';
    [destruct I|].
  cbn [allocate fst snd] in I, I'.
  assert (Head : forall b1 v1,
             dict_get (combine (feasible_blocks tbs d0)
                               (seq next (List.length (feasible_blocks tbs d0))))
                      b1 = Some v1 ->
             v1 < next + List.length (feasible_blocks tbs d0)).
  { intros b1 v1 G1. apply dict_get_In, in_combine_r, in_seq in G1. lia. }
  destruct I as [<-|I], I' as [<-|I']; cbn [snd] in *.
  - split; [reflexivity|].
    apply dict_get_In in G, G'.
    eapply combine_injective; eauto. apply seq_NoDup.
  - apply Head in G. pose proof (allocate_lower_bound _ _ _ _ _ _ I' G'). lia.
  - apply Head in G'. pose proof (allocate_lower_bound _ _ _ _ _ _ I G). lia.
  - eapply IH; eauto.
Qed.

Lemma lookup_var_injective tbs (ds : dict string (Delivery num)) k k' b b' v :
  lookup_var (allocate tbs ds 0) k b = Some v ->
  lookup_var (allocate tbs ds 0) k' b' = Some v ->
  k = k' /\ b = b'.
Proof.
  unfold lookup_var. intros L L'.
  destruct (dict_get (allocate tbs ds 0) k) as [dv|] eqn:G; [|discriminate].
  destruct (dict_get (allocate tbs ds 0) k') as [dv'|] eqn:G'; [|discriminate].
  apply dict_get_In in G, G'.
  destruct (allocate_injective tbs ds 0 (k, dv) (k', dv') b b' v G G' L L')
    as [E Eb].
  split; congruence.
Qed.

(** *** The set of producers *)

Lemma set_add_In (s : list (Producer num)) p q :
  In q (set_add s p) -> In q s \/ q = p.
Proof.
  unfold set_add. destruct (existsb (same_object p) s); [auto|].
  intros I. apply in_app_or in I as [I|[E|[]]]; auto.
Qed.

Lemma set_add_mono (s : list (Producer num)) p q :
  In q s -> In q (set_add s p).
Proof.
  unfold set_add. destruct (existsb (same_object p) s); [auto|].
  intros I. apply in_or_app. now left.
Qed.

Lemma set_add_has (s : list (Producer num)) p :
  exists q, In q (set_add s p) /\ p_ref q = p_ref p.
Proof.
  unfold set_add. destruct (existsb (same_object p) s) eqn:E.
  - apply existsb_exists in E as (q & I & S). exists q. split; [exact I|].
    unfold same_object in S. apply Nat.eqb_eq in S. congruence.
  - exists p. split; [|reflexivity]. apply in_or_app. right. now left.
Qed.

Lemma set_add_NoDup (s : list (Producer num)) p :
  NoDup (map (@p_ref num) s) -> NoDup (map (@p_ref num) (set_add s p)).
Proof.
  unfold set_add. destruct (existsb (same_object p) s) eqn:E; [auto|].
  intros N. rewrite map_app. apply NoDup_app; [exact N| |].
  - repeat constructor. simpl. tauto.
  - intros r Ir [<-|[]]. apply in_map_iff in Ir as (q & Eq & Iq).
    assert (existsb (same_object p) s = true); [|congruence].
    apply existsb_exists. exists q. split; [exact Iq|].
    unfold same_object. apply Nat.eqb_eq. congruence.
Qed.

Lemma get_producers_fold (ds : dict string (Delivery num)) :
  forall acc,
    let ps := fold_left (fun s kd => set_add s (producer (snd kd))) ds acc in
    (forall q, In q acc -> In q ps)
    /\ (forall q, In q ps ->
                  In q acc \/ exists kd, In kd ds /\ producer (snd kd) = q)
    /\ (forall kd, In kd ds ->
                   exists q, In q ps /\ p_ref q = p_ref (producer (snd kd)))
    /\ (NoDup (map (@p_ref num) acc) -> NoDup (map (@p_ref num) ps)).
Proof.
  induction ds as [|kd ds IH]; intros acc ps.
  - simpl in ps. subst ps. repeat split; auto. intros kd [].
  - subst ps. cbn [fold_left].
    destruct (IH (set_add acc (producer (snd kd)))) as (M & O & C & N).
    split; [|split; [|split]].
    + intros q I. apply M. now apply set_add_mono.
    + intros q I. destruct (O q I) as [Ia|(kd' & I' & E)].
      * apply set_add_In in Ia as [Ia|Eq]; [now left|].
        right. exists kd. split; [now left|now rewrite Eq].
      * right. exists kd'. split; [now right|exact E].
    + intros kd' [<-|I'].
      * destruct (set_add_has acc (producer (snd kd))) as (q & Iq & Eq).
        exists q. split; [now apply M|exact Eq].
      * now apply C.
    + intros Na. apply N. now apply set_add_NoDup.
Qed.

Lemma get_producers_spec (ds : dict string (Delivery num)) :
  (forall q, In q (_get_producers ds) ->
             exists kd, In kd ds /\ producer (snd kd) = q)
  /\ (forall kd, In kd ds ->
                 exists q, In q (_get_producers ds)
                           /\ p_ref q = p_ref (producer (snd kd)))
  /\ NoDup (map (@p_ref num) (_get_producers ds)).
Proof.
  destruct (get_producers_fold ds []) as (_ & O & C & N).
  unfold _get_producers. split; [|split].
  - intros q I. destruct (O q I) as [[]|E]. exact E.
  - exact C.
  - apply N. constructor.
Qed.
End ModelFacts.

(** ** The constraints of the model *)

Section ModelClaims.
Context {num : Type} `{Number num}.

Lemma In_delivery_variables tbs (ds : dict string (Delivery num)) k d v :
  NoDup (keys ds) -> In (k, d) ds ->
  In v (delivery_variables (allocate tbs ds 0) k)
  <-> exists b, lookup_var (allocate tbs ds 0) k b = Some v.
Proof.
  intros N I. pose proof (keys_delivery_entries tbs ds k d N I) as Ek.
  unfold delivery_variables, lookup_var, delivery_entries in *.
  destruct (dict_get (allocate tbs ds 0) k) as [dv|];
    [|split; [intros []|intros (b & E); discriminate]].
  unfold values. rewrite in_map_iff. split.
  - intros ([b v'] & E & Ib). cbn [snd] in E. subst v'. exists b.
    apply In_dict_get; [|exact Ib]. rewrite Ek. apply NoDup_feasible_blocks.
  - intros (b & E). exists (b, v). split; [reflexivity|].
    now apply dict_get_In.
Qed.

(** C1 (as amended): for every Delivery, in registration order, the built
    model contains one equality constraint whose lower and upper bound are
    the required_units of the Delivery's consumer and whose terms are, with
    coefficient 1, the decision variables of that Delivery for its feasible
    time blocks; every other constraint of the model is a capacity row with
    lower bound 0. *)
Theorem consumer_constraint_per_delivery
        (tbs : list (TimeBlock num)) (ds : dict string (Delivery num)) :
  keyed_by_id ds = true ->
  exists s vars capacity_rows,
    build_model tbs ds = Ok (s, vars)
    /\ solver_constraints s = map (consumer_row vars) ds ++ capacity_rows
    /\ Forall (fun row => con_lb row = Fin zero) capacity_rows
    /\ forall k d,
        In (k, d) ds ->
        keys (delivery_entries vars k) = feasible_blocks tbs d
        /\ forall v, In v (delivery_variables vars k)
                     <-> exists b, lookup_var vars k b = Some v.
Proof.
  intros Hk. pose proof Hk as Hk'. apply keyed_by_id_spec in Hk' as [K N].
  destruct (build_model_closed tbs ds Hk) as (s & E & C & _).
  exists s, (allocate tbs ds 0). eexists.
  split; [exact E|]. split; [exact C|]. split.
  - apply Forall_forall. intros row I.
    apply in_flat_map in I as (pr & _ & I).
    apply in_map_iff in I as (b & <- & _). reflexivity.
  - intros k d I. split.
    + now apply keys_delivery_entries.
    + intros v. now apply In_delivery_variables with (d := d).
Qed.

(** C3: after the rows of the deliveries, the built model has, for every
    producer object referenced by a delivery and every block number, one
    row with bounds [0, max_supply] whose terms are, with coefficient 1,
    exactly the variables of that block that belong to deliveries whose
    producer has that producer's id; a variable belongs to one delivery and
    one block only, and every variable has bounds 0 and infinity. *)
Theorem producer_capacity_per_block
        (tbs : list (TimeBlock num)) (ds : dict string (Delivery num)) :
  keyed_by_id ds = true ->
  exists s vars,
    build_model tbs ds = Ok (s, vars)
    /\ skipn (List.length ds) (solver_constraints s)
       = flat_map (fun pr => map (producer_row ds vars pr)
                                 (seq 0 (List.length tbs)))
                  (_get_producers ds)
    /\ (forall k d, In (k, d) ds ->
                    exists pr, In pr (_get_producers ds)
                               /\ p_ref pr = p_ref (producer d))
    /\ (forall pr, In pr (_get_producers ds) ->
                   exists k d, In (k, d) ds /\ producer d = pr)
    /\ NoDup (map (@p_ref num) (_get_producers ds))
    /\ (forall pr b v,
           In v (producer_block_variables ds vars pr b)
           <-> exists k d, In (k, d) ds
                           /\ p_id (producer d) = p_id pr
                           /\ lookup_var vars k b = Some v)
    /\ (forall k k' b b' v,
           lookup_var vars k b = Some v -> lookup_var vars k' b' = Some v ->
           k = k' /\ b = b')
    /\ Forall bounds_0_inf (solver_variables s).
Proof.
  intros Hk. pose proof Hk as Hk'. apply keyed_by_id_spec in Hk' as [K N].
  destruct (build_model_closed tbs ds Hk) as (s & E & C & F & _).
  destruct (get_producers_spec ds) as (P1 & P2 & P3).
  exists s, (allocate tbs ds 0).
  split; [exact E|]. split.
  { rewrite C, skipn_app, length_map, Nat.sub_diag, skipn_all2;
      [reflexivity|]. now rewrite length_map. }
  split; [intros k d I; apply (P2 (k, d) I)|].
  split.
  { intros pr I. destruct (P1 pr I) as ([k d] & Id & Ep). now exists k, d. }
  split; [exact P3|].
  split; [intros pr b v; now apply In_producer_block_variables|].
  split; [|exact F].
  intros k k' b b' v. apply lookup_var_injective.
Qed.
End ModelClaims.

(** A consumer connected to two producers gets one equality row per
    delivery: no row of the model sums variables of both deliveries. *)
Lemma shared_consumer_counterexample :
  exists self' schedule reads s,
    solve shared_consumer optimal_all_ones = Ok (self', schedule, reads)
    /\ variables self'
       = Some [("c-co1, p-cp1"%string, [(0, 0); (1, 1)]);
               ("c-co1, p-cp2"%string, [(0, 2); (1, 3)])]
    /\ solver self' = Some s
    /\ firstn 2 (solver_constraints s)
       = [{| con_lb := Fin 2%Z; con_ub := Fin 2%Z;
             con_terms := [(0, 1%Z); (1, 1%Z)] |};
          {| con_lb := Fin 2%Z; con_ub := Fin 2%Z;
             con_terms := [(2, 1%Z); (3, 1%Z)] |}]
    /\ forall row, In row (solver_constraints s) ->
                   ~ (In 0 (keys (con_terms row)) /\ In 2 (keys (con_terms row))).
Proof.
  do 4 eexists. split; [vm_compute; reflexivity|].
  split; [reflexivity|]. split; [reflexivity|]. split; [reflexivity|].
  intros row I [I0 I2]. simpl in I.
  repeat (destruct I as [<-|I]; [simpl in I0, I2; intuition discriminate|]).
  destruct I.
Qed.

Lemma consumer_constraint_per_delivery_witness :
  keyed_by_id (deliveries two_deliveries) = true
  /\ exists s vars rows,
      build_model hour_blocks (deliveries two_deliveries) = Ok (s, vars)
      /\ solver_constraints s
         = map (consumer_row vars) (deliveries two_deliveries) ++ rows.
Proof.
  assert (Hk : keyed_by_id (deliveries two_deliveries) = true) by reflexivity.
  split; [exact Hk|].
  destruct (consumer_constraint_per_delivery
              hour_blocks (deliveries two_deliveries) Hk)
    as (s & vars & rows & E & C & _).
  exists s, vars, rows. split; [exact E|exact C].
Defined.

Lemma producer_capacity_per_block_witness :
  keyed_by_id (deliveries shared_consumer) = true
  /\ exists s vars,
      build_model hour_blocks (deliveries shared_consumer) = Ok (s, vars)
      /\ Forall bounds_0_inf (solver_variables s).
Proof.
  assert (Hk : keyed_by_id (deliveries shared_consumer) = true) by reflexivity.
  split; [exact Hk|].
  destruct (producer_capacity_per_block
              hour_blocks (deliveries shared_consumer) Hk)
    as (s & vars & E & _ & _ & _ & _ & _ & _ & F).
  exists s, vars. split; [exact E|exact F].
Defined.

(** ** Schedule extraction *)

Section Extraction.
Context {num : Type} `{Number num}.

Lemma price_sum_app (a b : list (DeliveryRecord num)) start :
  price_sum (a ++ b) start = price_sum b (price_sum a start).
Proof. unfold price_sum. apply fold_left_app. Qed.

Lemma extract_value_loop tbs (value : nat -> num) (d : Delivery num)
      (dv : dict nat nat) :
  forall total (records : list (DeliveryRecord num)) (reads : list nat),
    (forall e, In e dv -> fst e < List.length tbs) ->
    for_each (extract_value tbs value (producer d) (consumer d)) dv
             (total, records, reads)
    = Ok (price_sum (flat_map (record_of tbs value d) dv) total,
          records ++ flat_map (record_of tbs value d) dv,
          reads ++ values dv).
Proof.
  induction dv as [|[b v] dv IH]; intros total records reads Hb.
  - simpl. now rewrite !app_nil_r.
  - assert (Hlt : b < List.length tbs) by (apply (Hb (b, v)); now left).
    destruct (nth_error tbs b) as [tb|] eqn:Etb;
      [|apply nth_error_None in Etb; lia].
    cbn [for_each]. unfold extract_value at 1.
    cbn [flat_map values map snd]. unfold record_of at 1 3. cbn [fst snd].
    rewrite Etb.
    destruct (gtb (value v) zero).
    + cbn [getattr_of bind]. rewrite IH by (intros e I; apply Hb; now right).
      rewrite price_sum_app, <- !app_assoc. reflexivity.
    + cbn [bind app]. rewrite IH by (intros e I; apply Hb; now right).
      rewrite <- !app_assoc. reflexivity.
Qed.

Lemma extract_delivery_loop tbs (ds : dict string (Delivery num))
      (value : nat -> num) (entries : VarTable) :
  forall total (records : list (DeliveryRecord num)) (reads : list nat),
    (forall e, In e entries -> exists d, dict_get ds (fst e) = Some d) ->
    (forall e bv, In e entries -> In bv (snd e) -> fst bv < List.length tbs) ->
    for_each (extract_delivery tbs ds value) entries (total, records, reads)
    = Ok (price_sum (records_by_table tbs ds value entries) total,
          records ++ records_by_table tbs ds value entries,
          reads ++ all_variables entries).
Proof.
  induction entries as [|[k dv] entries IH]; intros total records reads G Hb.
  - simpl. now rewrite !app_nil_r.
  - destruct (G (k, dv) (or_introl eq_refl)) as (d & Ed). cbn [fst] in Ed.
    cbn [for_each]. unfold extract_delivery at 1. rewrite Ed.
    cbn [getattr_of bind].
    rewrite extract_value_loop by (intros e I; apply (Hb (k, dv)); [now left|exact I]).
    cbn [bind]. rewrite IH.
    + unfold records_by_table, all_variables. cbn [flat_map fst snd].
      rewrite Ed, price_sum_app, <- !app_assoc. reflexivity.
    + intros e I. apply G. now right.
    + intros e bv I. apply Hb. now right.
Qed.

Lemma Status_eqb_is_solved status :
  Status_eqb status OPTIMAL || Status_eqb status FEASIBLE = is_solved status.
Proof. now destruct status. Qed.

Lemma Schedule_init_closed status (algorithm : Algorithm num) value vars :
  variables algorithm = Some vars ->
  (forall e, In e vars ->
             exists d, dict_get (deliveries algorithm) (fst e) = Some d) ->
  (forall e bv, In e vars -> In bv (snd e) ->
                fst bv < List.length (time_blocks algorithm)) ->
  Schedule_init status algorithm value
  = Ok (schedule_of status
                    (records_by_table (time_blocks algorithm)
                                      (deliveries algorithm) value vars)
                    vars).
Proof.
  intros Ev G Hb. unfold Schedule_init, schedule_of.
  rewrite Status_eqb_is_solved.
  destruct (is_solved status) eqn:Es.
  - rewrite Ev. cbn [getattr_of bind].
    rewrite extract_delivery_loop by assumption. cbn [bind app].
    destruct status; try discriminate Es; reflexivity.
  - cbn [bind]. destruct status; try discriminate Es; reflexivity.
Qed.

(** Without a solution nothing is looked up: [Schedule.__init__] returns
    whatever the algorithm holds. *)
Lemma Schedule_init_unsolved status (algorithm : Algorithm num) value :
  is_solved status = false ->
  Schedule_init status algorithm value
  = Ok ({| total_price := zero;
           sch_deliveries := [];
           solved := false;
           sch_result := "The solver could not solve the problem." |}, []).
Proof.
  intros Es. unfold Schedule_init. rewrite Status_eqb_is_solved, Es.
  destruct status; try discriminate Es; reflexivity.
Qed.
End Extraction.

Lemma flat_map_ext_in {X Y : Type} (f g : X -> list Y) (l : list X) :
  (forall a, In a l -> f a = g a) -> flat_map f l = flat_map g l.
Proof.
  induction l as [|a l IH]; intros E; simpl; [reflexivity|].
  rewrite E by now left. rewrite IH; [reflexivity|].
  intros a' I. apply E. now right.
Qed.

Section Alignment.
Context {A B C : Type}.

(** Walking a table whose keys are those of [ds], in the same order, and
    looking each key up in [ds] is walking [ds] and looking each key up in
    the table. *)
Lemma flat_map_aligned (F : A -> B -> list C) (dflt : B) (ds : dict string A) :
  forall (vars : dict string B),
    keys vars = keys ds -> NoDup (keys ds) ->
    flat_map (fun e => match dict_get ds (fst e) with
                       | Some d => F d (snd e)
                       | None => []
                       end) vars
    = flat_map (fun kd => F (snd kd) match dict_get vars (fst kd) with
                                     | Some dv => dv
                                     | None => dflt
                                     end) ds.
Proof.
  induction ds as [|[k d] ds IH]; intros vars Ek N.
  - destruct vars; [reflexivity|discriminate].
  - destruct vars as [|[k' dv] vars]; [discriminate|].
    cbn [keys map fst] in Ek. injection Ek as -> Ek.
    inversion N as [|? ? M U]; subst.
    cbn [flat_map fst snd dict_get].
    destruct (eq_dec k k) as [_|Ne]; [|congruence].
    f_equal.
    transitivity (flat_map (fun e => match dict_get ds (fst e) with
                                     | Some d => F d (snd e)
                                     | None => []
                                     end) vars).
    + apply flat_map_ext_in. intros [k1 dv1] I. cbn [fst snd].
      destruct (eq_dec k1 k) as [->|_]; [|reflexivity].
      exfalso. apply M. unfold keys in *. rewrite <- Ek.
      change k with (fst (k, dv1)). now apply in_map.
    + rewrite (IH vars Ek U).
      apply flat_map_ext_in. intros [k1 d1] I. cbn [fst snd].
      destruct (eq_dec k1 k) as [->|_]; [|reflexivity].
      exfalso. apply M. unfold keys.
      change k with (fst (k, d1)). now apply in_map.
Qed.
End Alignment.

Section SolveClosedForm.
Context {num : Type} `{Number num}.

Lemma records_by_table_allocate tbs (ds : dict string (Delivery num)) value :
  NoDup (keys ds) ->
  records_by_table tbs ds value (allocate tbs ds 0)
  = positive_records tbs ds value (allocate tbs ds 0).
Proof.
  intros N. unfold records_by_table, positive_records, records_of_delivery,
            delivery_entries.
  apply (flat_map_aligned
           (fun d dv => flat_map (record_of tbs value d) dv) []).
  - apply keys_allocate.
  - exact N.
Qed.

Lemma allocate_blocks_in_range tbs (ds : dict string (Delivery num)) :
  forall next e bv,
    In e (allocate tbs ds next) -> In bv (snd e) -> fst bv < List.length tbs.
Proof.
  induction ds as [|[k d] ds IH]; intros next e bv I Ib; [destruct I|].
  cbn [allocate fst snd] in I. destruct I as [<-|I].
  - cbn [snd] in Ib. destruct bv as [b v]. apply in_combine_l in Ib.
    unfold feasible_blocks in Ib. apply filter_In in Ib as [Ib _].
    apply in_seq in Ib. cbn [fst]. lia.
  - eapply IH; eauto.
Qed.

(** Closed form of [solve] for a configuration whose blocks can be built. *)
Lemma solve_closed (self : Algorithm num) (glop : Oracle num) tbs :
  keyed_by_id (deliveries self) = true ->
  period_to_blocks (blocks_per_hour self) (hours self) (initial_date self)
                   (unit_prices self) = Ok tbs ->
  let vars := allocate tbs (deliveries self) 0 in
  exists s,
    build_model tbs (deliveries self) = Ok (s, vars)
    /\ solve self glop
       = Ok (after_solve self tbs s vars,
             fst (schedule_of (fst (glop s))
                              (positive_records tbs (deliveries self)
                                                (snd (glop s)) vars)
                              vars),
             snd (schedule_of (fst (glop s))
                              (positive_records tbs (deliveries self)
                                                (snd (glop s)) vars)
                              vars)).
Proof.
  intros Hk Eb vars. subst vars. pose proof Hk as Hk'.
  apply keyed_by_id_spec in Hk' as [K N].
  destruct (build_model_closed tbs (deliveries self) Hk) as (s & E & _).
  exists s. split; [exact E|].
  unfold solve. rewrite Eb. cbn [bind]. rewrite E. cbn [bind].
  destruct (glop s) as [status value]. cbn [fst snd].
  fold (after_solve self tbs s (allocate tbs (deliveries self) 0)).
  rewrite (Schedule_init_closed
             status (after_solve self tbs s (allocate tbs (deliveries self) 0))
             value (allocate tbs (deliveries self) 0)).
  - cbn [bind after_solve time_blocks deliveries].
    rewrite (records_by_table_allocate tbs (deliveries self) value N).
    now destruct (schedule_of _ _ _).
  - reflexivity.
  - intros e I. cbn [after_solve deliveries].
    destruct (dict_get (deliveries self) (fst e)) as [d|] eqn:G; [eauto|].
    apply dict_get_None in G. exfalso. apply G.
    rewrite <- (keys_allocate tbs (deliveries self) 0). unfold keys.
    now apply in_map.
  - intros e bv I Ib. cbn [after_solve time_blocks].
    eapply allocate_blocks_in_range; eauto.
Qed.
End SolveClosedForm.

Section RecordFacts.
Context {num : Type} `{Number num}.

Lemma In_record_of tbs (value : nat -> num) (d : Delivery num) entry r :
  In r (record_of tbs value d entry)
  <-> gtb (value (snd entry)) zero = true
      /\ exists tb,
          nth_error tbs (fst entry) = Some tb
          /\ r = {| time_block := fst entry;
                    rec_producer := p_id (producer d);
                    rec_consumer := c_id (consumer d);
                    units_to_supply := value (snd entry);
                    unit_price := price tb |}.
Proof.
  unfold record_of. destruct (gtb (value (snd entry)) zero).
  - destruct (nth_error tbs (fst entry)) as [tb|].
    + split.
      * intros [<-|[]]. split; [reflexivity|]. now exists tb.
      * intros (_ & tb' & [= <-] & ->). now left.
    + split; [intros []|]. intros (_ & tb & E & _). discriminate.
  - split; [intros []|]. intros (E & _). discriminate.
Qed.

Lemma In_positive_records tbs (ds : dict string (Delivery num)) value r :
  NoDup (keys ds) ->
  In r (positive_records tbs ds value (allocate tbs ds 0))
  <-> exists k d b v tb,
      In (k, d) ds
      /\ lookup_var (allocate tbs ds 0) k b = Some v
      /\ gtb (value v) zero = true
      /\ nth_error tbs b = Some tb
      /\ r = {| time_block := b;
                rec_producer := p_id (producer d);
                rec_consumer := c_id (consumer d);
                units_to_supply := value v;
                unit_price := price tb |}.
Proof.
  intros N. unfold positive_records, records_of_delivery.
  rewrite in_flat_map. split.
  - intros ([k d] & I & Ir). cbn [fst snd] in Ir.
    apply in_flat_map in Ir as ([b v] & Ie & Ir).
    apply In_record_of in Ir as (G & tb & Etb & ->). cbn [fst snd] in *.
    exists k, d, b, v, tb. repeat split; auto.
    pose proof (keys_delivery_entries tbs ds k d N I) as Ek.
    unfold lookup_var. unfold delivery_entries in Ie, Ek.
    destruct (dict_get (allocate tbs ds 0) k) as [dv|]; [|destruct Ie].
    apply In_dict_get; [|exact Ie]. rewrite Ek. apply NoDup_feasible_blocks.
  - intros (k & d & b & v & tb & I & L & G & Etb & ->).
    exists (k, d). split; [exact I|]. cbn [fst snd].
    apply in_flat_map. exists (b, v). split.
    + unfold lookup_var in L. unfold delivery_entries.
      destruct (dict_get (allocate tbs ds 0) k) as [dv|]; [|discriminate].
      now apply dict_get_In.
    + apply In_record_of. cbn [fst snd]. split; [exact G|]. now exists tb.
Qed.

Lemma StronglySorted_map_filter {X : Type} (R : nat -> nat -> Prop)
      (f : X -> nat) (p : X -> bool) (l : list X) :
  StronglySorted R (map f l) -> StronglySorted R (map f (filter p l)).
Proof.
  induction l as [|x l IH]; intros S; [constructor|].
  cbn [map] in S. apply StronglySorted_inv in S as [S F].
  cbn [filter]. destruct (p x); [|now apply IH].
  cbn [map]. constructor; [now apply IH|].
  rewrite Forall_forall in *. intros y I. apply F.
  apply in_map_iff in I as (z & <- & Iz). apply in_map.
  now apply filter_In in Iz.
Qed.

Lemma StronglySorted_seq a n : StronglySorted lt (seq a n).
Proof.
  revert a. induction n as [|n IH]; intros a; [constructor|].
  cbn [seq]. constructor; [apply IH|].
  apply Forall_forall. intros y I. apply in_seq in I. lia.
Qed.

Lemma StronglySorted_feasible_blocks tbs (d : Delivery num) :
  StronglySorted lt (feasible_blocks tbs d).
Proof.
  unfold feasible_blocks.
  rewrite <- (map_id (filter _ _)). apply StronglySorted_map_filter.
  rewrite map_id. apply StronglySorted_seq.
Qed.

(** The blocks of the records of a delivery are among the keys of its
    entries, in the same order. *)
Lemma time_blocks_of_records tbs (value : nat -> num) (d : Delivery num)
      (dv : dict nat nat) :
  map (@time_block num) (flat_map (record_of tbs value d) dv)
  = map fst (filter (fun e => gtb (value (snd e)) zero
                              && is_not_None (nth_error tbs (fst e))) dv).
Proof.
  induction dv as [|[b v] dv IH]; [reflexivity|].
  cbn [flat_map filter]. rewrite map_app, IH.
  unfold record_of. cbn [fst snd].
  destruct (gtb (value v) zero); [|reflexivity].
  destruct (nth_error tbs b); reflexivity.
Qed.

Lemma strictly_ascending_records tbs (ds : dict string (Delivery num)) value kd :
  NoDup (keys ds) -> In kd ds ->
  strictly_ascending (records_of_delivery tbs value (allocate tbs ds 0) kd).
Proof.
  intros N I. destruct kd as [k d].
  unfold strictly_ascending, records_of_delivery. cbn [fst snd].
  rewrite time_blocks_of_records. apply StronglySorted_map_filter.
  pose proof (keys_delivery_entries tbs ds k d N I) as Ek.
  unfold keys in Ek. rewrite Ek. apply StronglySorted_feasible_blocks.
Qed.

(** *** The sort of [Schedule.print] *)

Lemma insert_Permutation (r : DeliveryRecord num) l :
  Permutation (insert_by_time_block r l) (r :: l).
Proof.
  induction l as [|x l IH]; simpl; [reflexivity|].
  destruct (time_block r <=? time_block x); [reflexivity|].
  rewrite IH. apply perm_swap.
Qed.

Lemma sorted_Permutation (l : list (DeliveryRecord num)) :
  Permutation (sorted_by_time_block l) l.
Proof.
  induction l as [|r l IH]; simpl; [reflexivity|].
  rewrite insert_Permutation. now constructor.
Qed.

Lemma insert_ascending (r : DeliveryRecord num) l :
  ascending l -> ascending (insert_by_time_block r l).
Proof.
  unfold ascending. induction l as [|x l IH]; intros S; simpl.
  - repeat constructor.
  - apply StronglySorted_inv in S as [S F].
    destruct (time_block r <=? time_block x) eqn:E.
    + apply Nat.leb_le in E. cbn [map]. constructor.
      * now constructor.
      * constructor; [exact E|].
        eapply Forall_impl; [|exact F]. intros y Ly. cbn beta in Ly. lia.
    + apply Nat.leb_gt in E. cbn [map]. constructor; [now apply IH|].
      apply Forall_forall. intros y Iy.
      apply in_map_iff in Iy as (z & <- & Iz).
      apply (Permutation_in _ (insert_Permutation r l)) in Iz.
      destruct Iz as [<-|Iz]; [lia|].
      rewrite Forall_forall in F. apply F. now apply in_map.
Qed.

Lemma sorted_ascending (l : list (DeliveryRecord num)) :
  ascending (sorted_by_time_block l).
Proof.
  induction l as [|r l IH]; simpl; [constructor|].
  now apply insert_ascending.
Qed.

Lemma insert_of_block b (r : DeliveryRecord num) l :
  of_block b (insert_by_time_block r l) = of_block b (r :: l).
Proof.
  unfold of_block. induction l as [|x l IH]; [reflexivity|].
  cbn [insert_by_time_block].
  destruct (time_block r <=? time_block x) eqn:E; [reflexivity|].
  apply Nat.leb_gt in E. cbn [filter] in *. rewrite IH.
  destruct (time_block r =? b) eqn:Er; [|reflexivity].
  apply Nat.eqb_eq in Er.
  destruct (time_block x =? b) eqn:Ex; [|reflexivity].
  apply Nat.eqb_eq in Ex. lia.
Qed.

(** The sort is stable: the records of one block keep their order. *)
Lemma sorted_of_block b (l : list (DeliveryRecord num)) :
  of_block b (sorted_by_time_block l) = of_block b l.
Proof.
  induction l as [|r l IH]; [reflexivity|].
  cbn [sorted_by_time_block fold_right].
  fold (sorted_by_time_block l). rewrite insert_of_block.
  unfold of_block in *. cbn [filter]. now rewrite IH.
Qed.
End RecordFacts.

(** ** The schedule returned by [solve] *)

Section ScheduleClaims.
Context {num : Type} `{Number num}.

Lemma is_solved_spec status :
  is_solved status = true <-> status = OPTIMAL \/ status = FEASIBLE.
Proof.
  destruct status; simpl; split; intros E; try discriminate; auto;
    destruct E; discriminate.
Qed.

Lemma In_schedule_of status (records : list (DeliveryRecord num)) vars r :
  In r (sch_deliveries (fst (schedule_of status records vars))) -> In r records.
Proof.
  unfold schedule_of. destruct (is_solved status); simpl; tauto.
Qed.

(** C2: in the state that [solve] leaves, a variable exists for a delivery
    and a block number exactly when that block exists and ends no later
    than the departure date of the delivery's consumer; the solver holds as
    many variables as there are such pairs; and every record of the returned
    schedule names a delivery and a block that ends no later than the
    departure date of that delivery's consumer. *)
Theorem variables_only_before_departure
        (self : Algorithm num) (glop : Oracle num) tbs :
  keyed_by_id (deliveries self) = true ->
  period_to_blocks (blocks_per_hour self) (hours self) (initial_date self)
                   (unit_prices self) = Ok tbs ->
  exists self' schedule reads s vars,
    solve self glop = Ok (self', schedule, reads)
    /\ time_blocks self' = tbs
    /\ variables self' = Some vars
    /\ solver self' = Some s
    /\ (forall k d b,
           In (k, d) (deliveries self) ->
           (exists v, lookup_var vars k b = Some v)
           <-> exists tb, nth_error tbs b = Some tb
                          /\ (date_until tb <= departure_date (consumer d))%Z)
    /\ List.length (solver_variables s)
       = List.length (flat_map (fun kd => feasible_blocks tbs (snd kd))
                               (deliveries self))
    /\ (forall r,
           In r (sch_deliveries schedule) ->
           exists k d tb,
             In (k, d) (deliveries self)
             /\ rec_consumer r = c_id (consumer d)
             /\ rec_producer r = p_id (producer d)
             /\ nth_error tbs (time_block r) = Some tb
             /\ (date_until tb <= departure_date (consumer d))%Z).
Proof.
  intros Hk Eb. pose proof Hk as Hk'. apply keyed_by_id_spec in Hk' as [K N].
  destruct (solve_closed self glop tbs Hk Eb) as (s & Em & Es).
  destruct (build_model_closed tbs (deliveries self) Hk)
    as (s' & Em' & _ & _ & L & _).
  assert (s' = s) by congruence. subst s'.
  do 2 eexists. exists (snd (schedule_of (fst (glop s))
                                         (positive_records tbs (deliveries self)
                                            (snd (glop s))
                                            (allocate tbs (deliveries self) 0))
                                         (allocate tbs (deliveries self) 0))).
  exists s, (allocate tbs (deliveries self) 0).
  split; [exact Es|]. repeat (split; [reflexivity|]).
  split; [|split; [exact L|]].
  - intros k d b I. rewrite <- feasible_spec. now apply lookup_var_allocate.
  - intros r Ir. apply In_schedule_of in Ir.
    apply In_positive_records in Ir
      as (k & d & b & v & tb & I & Lv & G & Etb & ->); [|exact N].
    exists k, d, tb. cbn [rec_consumer rec_producer time_block].
    repeat split; auto.
    assert (F : feasible tbs d b = true).
    { apply (lookup_var_allocate tbs (deliveries self) k d b N I). eauto. }
    apply feasible_spec in F as (tb' & Etb' & Le). congruence.
Qed.

(** C5: when the status is OPTIMAL or FEASIBLE, the delivery records of the
    returned schedule are, delivery by delivery and block by block, one
    record for each variable whose solution value is strictly positive and
    none for the others, carrying that value and the price of the block;
    total_price is the sum of units_to_supply times unit_price over those
    records, accumulated in list order from 0. *)
Theorem solved_schedule_records
        (self : Algorithm num) (glop : Oracle num) tbs :
  keyed_by_id (deliveries self) = true ->
  period_to_blocks (blocks_per_hour self) (hours self) (initial_date self)
                   (unit_prices self) = Ok tbs ->
  exists self' schedule reads s vars,
    solve self glop = Ok (self', schedule, reads)
    /\ variables self' = Some vars
    /\ solver self' = Some s
    /\ (fst (glop s) = OPTIMAL \/ fst (glop s) = FEASIBLE ->
        sch_deliveries schedule
        = positive_records tbs (deliveries self) (snd (glop s)) vars
        /\ (forall r,
               In r (sch_deliveries schedule)
               <-> exists k d b v tb,
                   In (k, d) (deliveries self)
                   /\ lookup_var vars k b = Some v
                   /\ gtb (snd (glop s) v) zero = true
                   /\ nth_error tbs b = Some tb
                   /\ r = {| time_block := b;
                             rec_producer := p_id (producer d);
                             rec_consumer := c_id (consumer d);
                             units_to_supply := snd (glop s) v;
                             unit_price := price tb |})
        /\ total_price schedule = price_sum (sch_deliveries schedule) zero
        /\ reads = all_variables vars).
Proof.
  intros Hk Eb. pose proof Hk as Hk'. apply keyed_by_id_spec in Hk' as [K N].
  destruct (solve_closed self glop tbs Hk Eb) as (s & Em & Es).
  do 3 eexists. exists s, (allocate tbs (deliveries self) 0).
  split; [exact Es|]. repeat (split; [reflexivity|]).
  intros Hs. apply is_solved_spec in Hs. unfold schedule_of. rewrite Hs.
  cbn [fst snd sch_deliveries total_price].
  split; [reflexivity|]. split; [|split; reflexivity].
  intros r. now apply In_positive_records.
Qed.

(** C6: whatever status the solver reports, [solve] returns a schedule;
    its solved flag is true exactly for OPTIMAL and FEASIBLE; its message is
    one of three distinct texts, for optimal, for feasible, and for every
    other status; and when it is not solved its total_price is 0, its
    delivery list is empty and no solution value has been read. *)
Theorem schedule_for_every_status
        (self : Algorithm num) (glop : Oracle num) tbs :
  keyed_by_id (deliveries self) = true ->
  period_to_blocks (blocks_per_hour self) (hours self) (initial_date self)
                   (unit_prices self) = Ok tbs ->
  exists self' schedule reads s,
    solve self glop = Ok (self', schedule, reads)
    /\ solver self' = Some s
    /\ (solved schedule = true
        <-> fst (glop s) = OPTIMAL \/ fst (glop s) = FEASIBLE)
    /\ (fst (glop s) = OPTIMAL ->
        sch_result schedule = "Optimal solution found"%string)
    /\ (fst (glop s) = FEASIBLE ->
        sch_result schedule
        = "A potentially suboptimal solution was found."%string)
    /\ (fst (glop s) <> OPTIMAL -> fst (glop s) <> FEASIBLE ->
        sch_result schedule = "The solver could not solve the problem."%string)
    /\ (solved schedule = false ->
        total_price schedule = zero
        /\ sch_deliveries schedule = []
        /\ reads = []).
Proof.
  intros Hk Eb.
  destruct (solve_closed self glop tbs Hk Eb) as (s & Em & Es).
  do 3 eexists. exists s.
  split; [exact Es|]. split; [reflexivity|].
  rewrite <- is_solved_spec. unfold schedule_of.
  destruct (fst (glop s)); cbn [is_solved fst snd solved sch_result
                                  total_price sch_deliveries result_message];
    repeat split; try congruence; try discriminate; tauto.
Qed.

(** C8 (as amended): when the status is OPTIMAL or FEASIBLE, the delivery
    list as returned is in insertion order, the records of each delivery
    in registration order and, within one delivery, strictly ascending by
    block number; the rows as [print] orders them are the same records
    ascending by block number, the records of one block keeping their
    insertion order. *)
Theorem schedule_order
        (self : Algorithm num) (glop : Oracle num) tbs :
  keyed_by_id (deliveries self) = true ->
  period_to_blocks (blocks_per_hour self) (hours self) (initial_date self)
                   (unit_prices self) = Ok tbs ->
  exists self' schedule reads s vars,
    solve self glop = Ok (self', schedule, reads)
    /\ variables self' = Some vars
    /\ solver self' = Some s
    /\ (fst (glop s) = OPTIMAL \/ fst (glop s) = FEASIBLE ->
        sch_deliveries schedule
        = flat_map (records_of_delivery tbs (snd (glop s)) vars)
                   (deliveries self)
        /\ forall kd,
            In kd (deliveries self) ->
            strictly_ascending (records_of_delivery tbs (snd (glop s)) vars kd)
            /\ Forall (fun r => rec_consumer r = c_id (consumer (snd kd))
                                /\ rec_producer r = p_id (producer (snd kd)))
                      (records_of_delivery tbs (snd (glop s)) vars kd))
    /\ ascending (printed_rows schedule)
    /\ Permutation (printed_rows schedule) (sch_deliveries schedule)
    /\ (forall b, of_block b (printed_rows schedule)
                  = of_block b (sch_deliveries schedule)).
Proof.
  intros Hk Eb. pose proof Hk as Hk'. apply keyed_by_id_spec in Hk' as [K N].
  destruct (solve_closed self glop tbs Hk Eb) as (s & Em & Es).
  do 3 eexists. exists s, (allocate tbs (deliveries self) 0).
  split; [exact Es|]. repeat (split; [reflexivity|]).
  split; [|split; [apply sorted_ascending|
                   split; [apply sorted_Permutation|
                           intros b; apply sorted_of_block]]].
  intros Hs. apply is_solved_spec in Hs. unfold schedule_of. rewrite Hs.
  cbn [fst snd sch_deliveries]. split; [reflexivity|].
  intros kd I. split; [now apply strictly_ascending_records|].
  apply Forall_forall. intros r Ir. unfold records_of_delivery in Ir.
  apply in_flat_map in Ir as (e & _ & Ir).
  apply In_record_of in Ir as (_ & tb & _ & ->). split; reflexivity.
Qed.
End ScheduleClaims.

Lemma two_deliveries_blocks :
  period_to_blocks (blocks_per_hour two_deliveries) (hours two_deliveries)
                   (initial_date two_deliveries) (unit_prices two_deliveries)
  = Ok hour_blocks.
Proof. reflexivity. Qed.

(** With two deliveries that both supply in blocks 0 and 1, the returned
    list has the blocks in the order 0, 1, 0, 1: the values are the only
    ones that satisfy the model, and the status is OPTIMAL. *)
Lemma returned_list_not_sorted_counterexample :
  exists self' schedule reads s,
    solve two_deliveries optimal_all_ones = Ok (self', schedule, reads)
    /\ solver self' = Some s
    /\ satisfies s (snd (optimal_all_ones s))
    /\ (forall value, satisfies s value -> forall v, v < 4 -> value v = 1%Z)
    /\ solved schedule = true
    /\ 2 <= List.length (sch_deliveries schedule)
    /\ map (@time_block Z) (sch_deliveries schedule) = [0; 1; 0; 1]
    /\ ~ ascending (sch_deliveries schedule).
Proof.
  do 4 eexists. split; [vm_compute; reflexivity|].
  split; [reflexivity|]. split; [|split].
  - split.
    + intros v var E. simpl in E.
      do 4 (destruct v as [|v];
            [injection E as <-; cbv; split; [discriminate|exact I]|]).
      destruct v; discriminate E.
    + repeat constructor; cbv; discriminate.
  - intros value [_ R] v Hv. simpl in R.
    repeat match goal with
           | F : Forall _ (_ :: _) |- _ =>
               apply Forall_cons_iff in F; destruct F as [[? ?] F]
           end.
    unfold within, row_sum in *.
    cbn [fold_right fst snd con_lb con_ub con_terms] in *.
    do 4 (destruct v as [|v]; [lia|]). lia.
  - split; [reflexivity|]. split; [simpl; lia|]. split; [reflexivity|].
    unfold ascending. simpl. intros S.
    apply StronglySorted_inv in S as [S _].
    apply StronglySorted_inv in S as [_ F].
    apply Forall_inv in F. lia.
Qed.

Lemma variables_only_before_departure_witness :
  keyed_by_id (deliveries two_deliveries) = true
  /\ exists self' schedule reads,
      solve two_deliveries optimal_all_ones = Ok (self', schedule, reads)
      /\ time_blocks self' = hour_blocks.
Proof.
  assert (Hk : keyed_by_id (deliveries two_deliveries) = true) by reflexivity.
  split; [exact Hk|].
  destruct (variables_only_before_departure
              two_deliveries optimal_all_ones hour_blocks
              Hk two_deliveries_blocks)
    as (self' & schedule & reads & s & vars & E & T & _).
  exists self', schedule, reads. split; [exact E|exact T].
Defined.

Lemma solved_schedule_records_witness :
  keyed_by_id (deliveries two_deliveries) = true
  /\ exists self' schedule reads,
      solve two_deliveries optimal_all_ones = Ok (self', schedule, reads)
      /\ total_price schedule = price_sum (sch_deliveries schedule) 0%Z.
Proof.
  assert (Hk : keyed_by_id (deliveries two_deliveries) = true) by reflexivity.
  split; [exact Hk|].
  destruct (solved_schedule_records
              two_deliveries optimal_all_ones hour_blocks
              Hk two_deliveries_blocks)
    as (self' & schedule & reads & s & vars & E & _ & _ & P).
  exists self', schedule, reads. split; [exact E|].
  apply P. now left.
Defined.

Lemma schedule_for_every_status_witness :
  keyed_by_id (deliveries two_deliveries) = true
  /\ exists self' schedule reads,
      solve two_deliveries infeasible = Ok (self', schedule, reads)
      /\ sch_result schedule = "The solver could not solve the problem."%string.
Proof.
  assert (Hk : keyed_by_id (deliveries two_deliveries) = true) by reflexivity.
  split; [exact Hk|].
  destruct (schedule_for_every_status
              two_deliveries infeasible hour_blocks Hk two_deliveries_blocks)
    as (self' & schedule & reads & s & E & _ & _ & _ & _ & M & _).
  exists self', schedule, reads. split; [exact E|].
  apply M; discriminate.
Defined.

Lemma schedule_order_witness :
  keyed_by_id (deliveries two_deliveries) = true
  /\ exists self' schedule reads,
      solve two_deliveries optimal_all_ones = Ok (self', schedule, reads)
      /\ ascending (printed_rows schedule).
Proof.
  assert (Hk : keyed_by_id (deliveries two_deliveries) = true) by reflexivity.
  split; [exact Hk|].
  destruct (schedule_order
              two_deliveries optimal_all_ones hour_blocks
              Hk two_deliveries_blocks)
    as (self' & schedule & reads & s & vars & E & _ & _ & _ & A & _).
  exists self', schedule, reads. split; [exact E|exact A].
Defined.

(** * Further properties of the code *)

(** ** Rounding and block construction *)

(** X1: for a positive width and an instant of the range of [datetime],
    the least multiple of the width (counted from [datetime.min]) that is
    not before the instant lies less than one width after it; [ceil_dt]
    returns it, and leaves it unchanged when rounding again, as long as it
    is a [datetime], and raises [OverflowError] when it lies after
    [datetime.max]. *)
Theorem ceil_dt_least_multiple (dt delta : Z) :
  (0 < delta)%Z -> (0 <= dt <= datetime_max)%Z ->
  exists r,
    (delta | r)%Z
    /\ (dt <= r < dt + delta)%Z
    /\ (forall m, (delta | m)%Z -> (dt <= m)%Z -> (r <= m)%Z)
    /\ ((r <= datetime_max)%Z ->
        ceil_dt dt delta = Ok r /\ ceil_dt r delta = Ok r)
    /\ ((datetime_max < r)%Z -> ceil_dt dt delta = Raise OverflowError).
Proof.
  intros Hd Hi. destruct (ceil_dt_bounds dt delta Hd) as (B & M & _).
  exists (dt + (- dt) mod delta)%Z.
  assert (D : (delta | dt + (- dt) mod delta)%Z)
    by (apply Z.mod_divide; [lia|exact M]).
  assert (E : forall x, ceil_dt x delta = datetime_add x ((- x) mod delta)%Z).
  { intros x. unfold ceil_dt, datetime_min.
    replace (delta =? 0)%Z with false by (symmetry; apply Z.eqb_neq; lia).
    reflexivity. }
  split; [exact D|]. split; [exact B|]. split; [|split].
  - intros m [c Hm] Le. destruct D as [a Ha].
    destruct (Z_lt_le_dec m (dt + (- dt) mod delta)) as [Lt|]; [|assumption].
    assert (c < a)%Z by nia. nia.
  - intros F. split.
    + rewrite E. apply datetime_add_Ok. lia.
    + rewrite E.
      destruct (ceil_dt_bounds (dt + (- dt) mod delta) delta Hd)
        as (_ & _ & I).
      specialize (I M). rewrite datetime_add_Ok by lia.
      f_equal. exact I.
  - intros O. rewrite E. apply datetime_add_Raise. right. exact O.
Qed.

Lemma ceil_dt_least_multiple_witness :
  (0 < timedelta_minutes 15)%Z
  /\ (0 <= timedelta_minutes 16 <= datetime_max)%Z
  /\ exists r,
      (timedelta_minutes 15 | r)%Z
      /\ (timedelta_minutes 16 <= r
          < timedelta_minutes 16 + timedelta_minutes 15)%Z.
Proof.
  assert (Hd : (0 < timedelta_minutes 15)%Z) by reflexivity.
  assert (Hi : (0 <= timedelta_minutes 16 <= datetime_max)%Z)
    by (split; discriminate).
  split; [exact Hd|]. split; [exact Hi|].
  destruct (ceil_dt_least_multiple
              (timedelta_minutes 16) (timedelta_minutes 15) Hd Hi)
    as (r & D & B & _).
  exists r. split; [exact D|exact B].
Defined.

Section BlockOutcomes.
Context {num : Type} `{Number num}.

Lemma period_to_blocks_assertion bph hours init (rules : list (UnitPrice num)) :
  (bph <= 0)%Z \/ (hours <= 0)%Z ->
  period_to_blocks bph hours init rules = Raise AssertionError.
Proof.
  intros D. unfold period_to_blocks.
  destruct (bph >? 0)%Z eqn:Eb; simpl; [|reflexivity].
  destruct (hours >? 0)%Z eqn:Eh; simpl; [|reflexivity].
  apply Z.gtb_lt in Eb, Eh. lia.
Qed.

Lemma period_to_blocks_zero_width bph hours init (rules : list (UnitPrice num)) :
  (60 < bph)%Z -> (0 < hours)%Z ->
  period_to_blocks bph hours init rules = Raise ZeroDivisionError.
Proof.
  intros Hb Hh. unfold period_to_blocks.
  replace (bph >? 0)%Z with true by (symmetry; apply Z.gtb_lt; lia).
  replace (hours >? 0)%Z with true by (symmetry; apply Z.gtb_lt; lia).
  simpl negb. cbv iota.
  rewrite Z.div_small by lia. reflexivity.
Qed.

(** The four outcomes of [period_to_blocks] on an initial date of the range
    of [datetime], each with the condition that decides it. *)
Lemma period_to_blocks_decided bph hours init (rules : list (UnitPrice num))
      w last_end :
  (0 <= init <= datetime_max)%Z ->
  w = timedelta_minutes (60 / bph) ->
  last_end = (init + (- init) mod w + bph * hours * w)%Z ->
  ((bph <= 0)%Z \/ (hours <= 0)%Z)
  /\ period_to_blocks bph hours init rules = Raise AssertionError
  \/ ((60 < bph)%Z /\ (0 < hours)%Z)
     /\ period_to_blocks bph hours init rules = Raise ZeroDivisionError
  \/ ((0 < bph <= 60)%Z /\ (0 < hours)%Z /\ (datetime_max < last_end)%Z)
     /\ period_to_blocks bph hours init rules = Raise OverflowError
  \/ ((0 < bph <= 60)%Z /\ (0 < hours)%Z /\ (last_end <= datetime_max)%Z)
     /\ period_to_blocks bph hours init rules
        = Ok (map (block_at rules (init + (- init) mod w)%Z w)
                  (seq 0 (Z.to_nat (bph * hours)))).
Proof.
  intros Hi Ew El.
  destruct (Z_le_gt_dec bph 0) as [B0|B0];
    [left; split; [auto|apply period_to_blocks_assertion; auto]|].
  destruct (Z_le_gt_dec hours 0) as [H0|H0];
    [left; split; [auto|apply period_to_blocks_assertion; auto]|].
  destruct (Z_le_gt_dec bph 60) as [B60|B60];
    [|right; left; split; [lia|apply period_to_blocks_zero_width; lia]].
  right. right.
  assert (Hb : (0 < bph <= 60)%Z) by lia.
  assert (Hh : (0 < hours)%Z) by lia.
  assert (Hw : (0 < w)%Z).
  { assert (0 < 60 / bph)%Z by (apply Z.div_str_pos; lia).
    rewrite Ew. unfold timedelta_minutes. lia. }
  destruct (ceil_dt_bounds init w Hw) as (B & _ & _).
  assert (S0 : (0 <= init + (- init) mod w)%Z) by lia.
  destruct (period_to_blocks_cases bph hours init rules w
              (init + (- init) mod w)%Z Hb Hh Ew eq_refl S0) as [PO PF].
  rewrite <- El in PO, PF.
  destruct (Z_le_gt_dec last_end datetime_max) as [F|O].
  - right. split; [auto|]. apply PF. exact F.
  - left. split; [split; [exact Hb|split; [exact Hh|lia]]|]. apply PO. lia.
Qed.

(** X2: on an initial date of the range of [datetime], [period_to_blocks]
    has four outcomes: it fails on an assertion exactly when
    blocks_per_hour or hours is zero or negative; it raises
    ZeroDivisionError exactly when hours is positive and blocks_per_hour
    exceeds 60 (the block width in whole minutes is then 0); for
    1 <= blocks_per_hour <= 60 and positive hours it raises OverflowError
    exactly when the last block would end after [datetime.max], and
    returns blocks exactly when it ends no later. *)
Theorem period_to_blocks_outcome bph hours init (rules : list (UnitPrice num)) :
  (0 <= init <= datetime_max)%Z ->
  let w := timedelta_minutes (60 / bph) in
  let last_end := (init + (- init) mod w + bph * hours * w)%Z in
  (period_to_blocks bph hours init rules = Raise AssertionError
   <-> (bph <= 0)%Z \/ (hours <= 0)%Z)
  /\ (period_to_blocks bph hours init rules = Raise ZeroDivisionError
      <-> (60 < bph)%Z /\ (0 < hours)%Z)
  /\ (period_to_blocks bph hours init rules = Raise OverflowError
      <-> (0 < bph <= 60)%Z /\ (0 < hours)%Z /\ (datetime_max < last_end)%Z)
  /\ ((exists blocks, period_to_blocks bph hours init rules = Ok blocks)
      <-> (0 < bph <= 60)%Z /\ (0 < hours)%Z /\ (last_end <= datetime_max)%Z).
Proof.
  intros Hi w last_end.
  destruct (period_to_blocks_decided bph hours init rules w last_end
              Hi eq_refl eq_refl)
    as [[C E]|[[C E]|[[C E]|[C E]]]];
    rewrite E; clear E; settle_outcome.
Qed.

(** X3: [solve] on a collection of deliveries keyed by id and an initial
    date of the range of [datetime] fails on the assertion exactly when
    blocks_per_hour or hours is zero or negative, raises ZeroDivisionError
    exactly when hours is positive and blocks_per_hour exceeds 60, raises
    OverflowError exactly when, for 1 <= blocks_per_hour <= 60 and
    positive hours, the last block would end after [datetime.max], and
    otherwise returns its result, whatever the solver answers. *)
Theorem solve_outcome (self : Algorithm num) (glop : Oracle num) :
  keyed_by_id (deliveries self) = true ->
  (0 <= initial_date self <= datetime_max)%Z ->
  let w := timedelta_minutes (60 / blocks_per_hour self) in
  let last_end := (initial_date self + (- initial_date self) mod w
                   + blocks_per_hour self * hours self * w)%Z in
  (solve self glop = Raise AssertionError
   <-> (blocks_per_hour self <= 0)%Z \/ (hours self <= 0)%Z)
  /\ (solve self glop = Raise ZeroDivisionError
      <-> (60 < blocks_per_hour self)%Z /\ (0 < hours self)%Z)
  /\ (solve self glop = Raise OverflowError
      <-> (0 < blocks_per_hour self <= 60)%Z /\ (0 < hours self)%Z
          /\ (datetime_max < last_end)%Z)
  /\ ((exists r, solve self glop = Ok r)
      <-> (0 < blocks_per_hour self <= 60)%Z /\ (0 < hours self)%Z
          /\ (last_end <= datetime_max)%Z).
Proof.
  intros Hk Hi w last_end.
  destruct (period_to_blocks_decided
              (blocks_per_hour self) (hours self) (initial_date self)
              (unit_prices self) w last_end Hi eq_refl eq_refl)
    as [[C E]|[[C E]|[[C E]|[C E]]]].
  - unfold solve. rewrite E. cbn [bind]. clear E. settle_outcome.
  - unfold solve. rewrite E. cbn [bind]. clear E. settle_outcome.
  - unfold solve. rewrite E. cbn [bind]. clear E. settle_outcome.
  - destruct (solve_closed self glop _ Hk E) as (s & _ & E').
    rewrite E'. clear E E'. settle_outcome.
Qed.
End BlockOutcomes.

Lemma period_to_blocks_outcome_witness :
  (0 <= last_evening <= datetime_max)%Z
  /\ period_to_blocks 1 4 last_evening (@nil (UnitPrice Z))
     = Raise OverflowError.
Proof.
  assert (Hi : (0 <= last_evening <= datetime_max)%Z) by (split; discriminate).
  split; [exact Hi|].
  destruct (period_to_blocks_outcome 1 4 last_evening (@nil (UnitPrice Z)) Hi)
    as (_ & _ & O & _).
  apply O. split; [split; [reflexivity|discriminate]|].
  split; reflexivity.
Defined.

Lemma solve_outcome_witness :
  keyed_by_id (deliveries (with_initial_date two_deliveries last_evening))
  = true
  /\ (0 <= initial_date (with_initial_date two_deliveries last_evening)
      <= datetime_max)%Z
  /\ solve (with_initial_date two_deliveries last_evening) optimal_all_ones
     = Raise OverflowError.
Proof.
  assert (Hk : keyed_by_id
                 (deliveries (with_initial_date two_deliveries last_evening))
               = true) by reflexivity.
  assert (Hi : (0 <= initial_date
                       (with_initial_date two_deliveries last_evening)
                <= datetime_max)%Z) by (split; discriminate).
  split; [exact Hk|]. split; [exact Hi|].
  destruct (solve_outcome (with_initial_date two_deliveries last_evening)
                          optimal_all_ones Hk Hi)
    as (_ & _ & O & _).
  apply O. split; [split; [reflexivity|discriminate]|].
  split; reflexivity.
Defined.

Section DeadlineFacts.
Context {num : Type} `{Number num}.

Lemma period_to_blocks_Ok_inv bph hours init (rules : list (UnitPrice num)) tbs :
  period_to_blocks bph hours init rules = Ok tbs ->
  let w := timedelta_minutes (60 / bph) in
  (0 < w)%Z
  /\ tbs = map (block_at rules (init + (- init) mod w)%Z w)
               (seq 0 (Z.to_nat (bph * hours))).
Proof.
  intros E w.
  destruct (Z_le_gt_dec bph 0) as [B0|B0];
    [rewrite period_to_blocks_assertion in E by auto; discriminate|].
  destruct (Z_le_gt_dec hours 0) as [H0|H0];
    [rewrite period_to_blocks_assertion in E by auto; discriminate|].
  destruct (Z_le_gt_dec bph 60) as [B60|B60];
    [|rewrite period_to_blocks_zero_width in E by lia; discriminate].
  assert (Hw : (0 < w)%Z).
  { assert (0 < 60 / bph)%Z by (apply Z.div_str_pos; lia).
    unfold w, timedelta_minutes. lia. }
  split; [exact Hw|].
  pose proof (period_to_blocks_closed bph hours init rules) as P.
  cbv zeta in P. rewrite P in E by lia. fold w in E.
  destruct (_ || _)%bool; [discriminate|]. now injection E as <-.
Qed.

Lemma filter_all {X : Type} (f : X -> bool) (l : list X) :
  (forall x, In x l -> f x = true) -> filter f l = l.
Proof.
  induction l as [|x l IH]; intros A; simpl; [reflexivity|].
  rewrite A by now left. rewrite IH; [reflexivity|].
  intros y I. apply A. now right.
Qed.

Lemma downward_closed (f : nat -> bool) :
  (forall b, f (S b) = true -> f b = true) ->
  forall b b', b <= b' -> f b' = true -> f b = true.
Proof.
  intros Step b b' Le. induction Le as [|b' Le IH]; [auto|].
  intros F. apply IH. now apply Step.
Qed.

Lemma filter_seq_prefix (f : nat -> bool) n :
  (forall b, f (S b) = true -> f b = true) ->
  exists m, m <= n /\ filter f (seq 0 n) = seq 0 m.
Proof.
  intros Step. induction n as [|n (m & Le & E)].
  - exists 0. split; [lia|reflexivity].
  - rewrite seq_S, filter_app. cbn [plus filter].
    destruct (f n) eqn:Fn.
    + exists (S n). split; [lia|].
      rewrite filter_all; [now rewrite seq_S|].
      intros b I. apply in_seq in I.
      apply (downward_closed f Step b n); [lia|exact Fn].
    + exists m. split; [lia|]. now rewrite E, app_nil_r.
Qed.

Lemma feasible_blocks_prefix
      bph hours init (rules : list (UnitPrice num)) tbs (d : Delivery num) :
  period_to_blocks bph hours init rules = Ok tbs ->
  exists m, m <= List.length tbs /\ feasible_blocks tbs d = seq 0 m.
Proof.
  intros E. apply period_to_blocks_Ok_inv in E as [Hw ->].
  apply filter_seq_prefix. intros b F.
  apply feasible_spec in F as (tb' & E' & Le).
  apply nth_error_map_seq in E' as [Hb ->].
  apply feasible_spec.
  exists (block_at rules (init + (- init) mod timedelta_minutes (60 / bph))%Z
                   (timedelta_minutes (60 / bph)) b).
  split.
  - rewrite nth_error_map, nth_error_seq.
    replace (b <? Z.to_nat (bph * hours)) with true
      by (symmetry; apply Nat.ltb_lt; lia).
    reflexivity.
  - unfold block_at in *. cbn [date_until] in *. lia.
Qed.

(** X4: in the variable table that [solve] leaves, the block numbers for
    which a delivery has a variable are an initial run 0, 1, ..., m - 1 of
    the blocks, in this order: the deadline test of [solve] never skips a
    block and takes a later one. *)
Theorem variables_on_initial_run
        (self : Algorithm num) (glop : Oracle num) tbs :
  keyed_by_id (deliveries self) = true ->
  period_to_blocks (blocks_per_hour self) (hours self) (initial_date self)
                   (unit_prices self) = Ok tbs ->
  exists self' schedule reads vars,
    solve self glop = Ok (self', schedule, reads)
    /\ variables self' = Some vars
    /\ (forall k d,
           In (k, d) (deliveries self) ->
           exists m,
             m <= List.length tbs
             /\ keys (delivery_entries vars k) = seq 0 m
             /\ (forall b, (exists v, lookup_var vars k b = Some v)
                           <-> b < m)).
Proof.
  intros Hk Eb. pose proof Hk as Hk'. apply keyed_by_id_spec in Hk' as [K N].
  destruct (solve_closed self glop tbs Hk Eb) as (s & _ & Es).
  do 3 eexists. exists (allocate tbs (deliveries self) 0).
  split; [exact Es|]. split; [reflexivity|].
  intros k d I.
  destruct (feasible_blocks_prefix _ _ _ _ tbs d Eb) as (m & Le & Ef).
  exists m. split; [exact Le|]. split.
  - rewrite (keys_delivery_entries tbs (deliveries self) k d N I). exact Ef.
  - intros b.
    rewrite (lookup_var_allocate tbs (deliveries self) k d b N I).
    rewrite <- In_feasible_blocks, Ef, in_seq. lia.
Qed.

Lemma get_price_app (rules : list (UnitPrice num)) r date n :
  get_price_for_date_or_number (rules ++ [r]) date n
  = if existsb (rule_matches date n) rules
    then get_price_for_date_or_number rules date n
    else if rule_matches date n r then up_price r else zero.
Proof.
  rewrite !get_price_first_match. unfold first_matching_price.
  induction rules as [|r0 rules IH]; cbn [app find existsb].
  - destruct (rule_matches date n r); reflexivity.
  - destruct (rule_matches date n r0); [reflexivity|exact IH].
Qed.

(** X5: a price rule registered later never overrides an earlier one: after
    a successful [with_unit_price], every block number and start that some
    earlier rule matches keeps its price, and the others get the new price
    when the new rule matches them and 0 otherwise. *)
Theorem later_rule_never_overrides
        (self self' : Algorithm num) df du bn p date n :
  with_unit_price self df du bn p = Ok self' ->
  get_price_for_date_or_number (unit_prices self') date n
  = if existsb (rule_matches date n) (unit_prices self)
    then get_price_for_date_or_number (unit_prices self) date n
    else if rule_matches date n {| up_date_from := df;
                                   up_date_until := du;
                                   up_block_number := bn;
                                   up_price := p |}
         then p
         else zero.
Proof.
  unfold with_unit_price.
  destruct (negb _); [discriminate|]. intros [= <-].
  cbn [unit_prices]. apply get_price_app.
Qed.

Lemma with_unit_price_Ok_inv (self self' : Algorithm num) df du bn p :
  with_unit_price self df du bn p = Ok self' ->
  has_criterion {| up_date_from := df;
                   up_date_until := du;
                   up_block_number := bn;
                   up_price := p |}
  /\ unit_prices self'
     = unit_prices self ++ [{| up_date_from := df;
                               up_date_until := du;
                               up_block_number := bn;
                               up_price := p |}]
  /\ deliveries self' = deliveries self
  /\ variables self' = variables self
  /\ solver self' = solver self
  /\ time_blocks self' = time_blocks self.
Proof.
  unfold with_unit_price, has_criterion.
  destruct bn as [b|], df as [f|], du as [u|]; simpl;
    try discriminate; intros [= <-]; simpl;
    repeat split; auto; try (left; discriminate);
    try (right; split; discriminate).
Qed.

(** X6: every algorithm object obtained from the constructor through the
    chained [with_] methods keeps its deliveries keyed by their identifiers
    without repetition, holds only price rules that name a block number or
    both dates, and has no blocks, variables or solver before [solve]. *)
Theorem configured_invariant (a : Algorithm num) :
  configured a ->
  keyed_by_id (deliveries a) = true
  /\ Forall has_criterion (unit_prices a)
  /\ time_blocks a = []
  /\ variables a = None
  /\ solver a = None.
Proof.
  induction 1 as [now|a d C IH|a h C IH|a b C IH|a df du bn p a' C IH E|a c p C IH].
  - repeat split; constructor.
  - exact IH.
  - exact IH.
  - exact IH.
  - destruct IH as (K & F & T & V & S).
    apply with_unit_price_Ok_inv in E as (Hc & Eu & Ed & Ev & Es & Et).
    rewrite Eu, Ed, Ev, Es, Et.
    repeat split; auto. apply Forall_app. split; [exact F|].
    now constructor.
  - destruct IH as (K & F & T & V & S).
    split; [now apply with_delivery_keyed|]. now repeat split.
Qed.

(** X7: [with_delivery] stores the delivery under its identifier, leaves
    what is stored under every other identifier alone, keeps the order of
    the identifiers (a new one goes last, a known one keeps its place), and
    registering the same pair twice is the same as registering it once. *)
Theorem with_delivery_registers (self : Algorithm num) c p :
  let d := {| consumer := c; producer := p |} in
  dict_get (deliveries (with_delivery self c p)) (Delivery_id d) = Some d
  /\ (forall k, k <> Delivery_id d ->
                dict_get (deliveries (with_delivery self c p)) k
                = dict_get (deliveries self) k)
  /\ keys (deliveries (with_delivery self c p))
     = (if memb (Delivery_id d) (keys (deliveries self))
        then keys (deliveries self)
        else keys (deliveries self) ++ [Delivery_id d])
  /\ with_delivery (with_delivery self c p) c p = with_delivery self c p.
Proof.
  intros d. unfold with_delivery. cbn [deliveries]. fold d.
  split; [apply dict_get_set_eq|].
  split; [intros k N; apply dict_get_set_neq; congruence|].
  split.
  - destruct (memb (Delivery_id d) (keys (deliveries self))) eqn:M.
    + apply keys_dict_set_In. now apply memb_In.
    + rewrite dict_set_notin.
      * unfold keys. now rewrite map_app.
      * intros I. apply memb_In in I. congruence.
  - cbn [initial_date blocks_per_hour hours time_blocks unit_prices
                      variables solver].
    now rewrite dict_set_set.
Qed.
End DeadlineFacts.

Lemma variables_on_initial_run_witness :
  keyed_by_id (deliveries two_deliveries) = true
  /\ period_to_blocks (blocks_per_hour two_deliveries) (hours two_deliveries)
                      (initial_date two_deliveries)
                      (unit_prices two_deliveries)
     = Ok hour_blocks
  /\ exists self' schedule reads vars,
      solve two_deliveries optimal_all_ones = Ok (self', schedule, reads)
      /\ variables self' = Some vars.
Proof.
  assert (Hk : keyed_by_id (deliveries two_deliveries) = true) by reflexivity.
  split; [exact Hk|]. split; [exact two_deliveries_blocks|].
  destruct (variables_on_initial_run
              two_deliveries optimal_all_ones hour_blocks
              Hk two_deliveries_blocks)
    as (self' & schedule & reads & vars & E & V & _).
  exists self', schedule, reads, vars. split; [exact E|exact V].
Defined.

Lemma later_rule_never_overrides_witness :
  exists self',
    with_unit_price (ProducerConsumerAlgorithm (num:=Z) 0%Z)
                    None None (Some 1%Z) 5%Z = Ok self'
    /\ get_price_for_date_or_number (unit_prices self') 0%Z 1 = 5%Z.
Proof.
  eexists. split; [reflexivity|].
  rewrite (later_rule_never_overrides
             (ProducerConsumerAlgorithm (num:=Z) 0%Z) _
             None None (Some 1%Z) 5%Z 0%Z 1 eq_refl).
  reflexivity.
Defined.

Lemma configured_invariant_witness :
  configured two_deliveries
  /\ keyed_by_id (deliveries two_deliveries) = true.
Proof.
  assert (C : configured two_deliveries) by (repeat constructor).
  split; [exact C|]. exact (proj1 (configured_invariant two_deliveries C)).
Defined.

(** ** The objective *)

Section ObjectiveFacts.
Context {num : Type} `{Number num}.

Lemma for_each_invariant {S A : Type} (P : S -> Prop)
      (body : S -> A -> result S) (l : list A) :
  (forall s a s', P s -> body s a = Ok s' -> P s') ->
  forall s s', P s -> for_each body l s = Ok s' -> P s'.
Proof.
  intros Step. induction l as [|a l IH]; intros s s' Ps E; simpl in E.
  - now injection E as <-.
  - destruct (body s a) as [s1|e] eqn:Eb; simpl in E; [|discriminate].
    eapply IH; [|exact E]. eapply Step; eauto.
Qed.

Lemma create_variable_objective_ok tbs (d : Delivery num) st b st' :
  objective_ok tbs st ->
  create_variable tbs d st b = Ok st' ->
  objective_ok tbs st'.
Proof.
  destruct st as [s vars]. intros [Hk Hp]. cbn [fst snd] in Hk, Hp.
  unfold create_variable.
  destruct (nth_error tbs b) as [tb|] eqn:Etb; [|discriminate].
  cbn [getattr_of bind].
  destruct (date_until tb <=? departure_date (consumer d))%Z;
    [|intros [= <-]; split; assumption].
  unfold NumVar.
  destruct (dict_get vars (Delivery_id d)) as [dv|] eqn:G; [|discriminate].
  cbn [getattr_of bind]. rewrite dict_get_set_eq. cbn [getattr_of bind].
  rewrite dict_get_set_eq. cbn [getattr_of bind].
  intros [= <-]. set (n := List.length (solver_variables s)) in *.
  assert (Fresh : ~ In n (keys (objective s))).
  { rewrite Hk. intros I. apply in_seq in I. lia. }
  split; cbn [fst snd Objective_SetCoefficient objective solver_variables].
  - rewrite dict_set_notin by exact Fresh.
    unfold keys in *. rewrite map_app, Hk, length_app. cbn [map fst List.length].
    rewrite Nat.add_1_r. fold n. now rewrite seq_S.
  - assert (Old : forall e bv, In e vars -> In bv (snd e) ->
                               dict_get (dict_set (objective s) n (price tb)) (snd bv)
                               = Some (price_at tbs (fst bv))).
    { intros e bv Ie Ib. rewrite dict_get_set_neq; [now apply (Hp e)|].
      intros En. apply Fresh. rewrite En. specialize (Hp e bv Ie Ib).
      apply dict_get_In in Hp. unfold keys.
      change (snd bv) with (fst (snd bv, price_at tbs (fst bv))).
      now apply in_map. }
    intros e bv Ie Ib. apply In_dict_set in Ie as [-> | Ie]; [|now apply (Old e)].
    cbn [snd] in Ib. apply In_dict_set in Ib as [-> | Ib].
    + cbn [fst snd]. rewrite dict_get_set_eq. unfold price_at. now rewrite Etb.
    + apply (Old (Delivery_id d, dv)); [|exact Ib]. now apply dict_get_In.
Qed.

Lemma create_variables_objective_ok tbs (ds : dict string (Delivery num)) st st' :
  objective_ok tbs st ->
  create_variables tbs ds st = Ok st' ->
  objective_ok tbs st'.
Proof.
  unfold create_variables. apply for_each_invariant.
  intros s kd s' Ps. apply for_each_invariant; [|exact Ps].
  intros s0 b s0'. apply create_variable_objective_ok.
Qed.

(** The phases of [build_model], one after the other. *)
Lemma build_model_phases tbs (ds : dict string (Delivery num)) :
  keyed_by_id ds = true ->
  exists s1 s,
    create_variables tbs ds (new_solver, map (fun kd => (fst kd, [])) ds)
    = Ok (s1, allocate tbs ds 0)
    /\ build_model tbs ds = Ok (s, allocate tbs ds 0)
    /\ objective s = objective s1
    /\ solver_variables s = solver_variables s1
    /\ minimization s = true.
Proof.
  intros Hk. pose proof Hk as Hk'. apply keyed_by_id_spec in Hk' as [K N].
  destruct (create_variables_closed tbs ds Hk) as (s1 & E1 & _).
  exists s1. unfold build_model. rewrite E1. cbn [bind].
  unfold add_consumer_constraints.
  destruct (add_consumer_constraints_loop
              tbs (allocate tbs ds 0) ds (SetMinimization s1) [])
    as (cc & E2).
  { intros [k d] I. pose proof (K _ I) as Ek. cbn [fst snd] in *.
    rewrite <- Ek.
    destruct (dict_get_allocate tbs ds 0 k d N I) as (n & G). eauto. }
  rewrite E2. cbn [bind]. unfold add_producer_constraints.
  rewrite add_producer_constraints_loop.
  2:{ intros e I.
      destruct (dict_get ds (fst e)) as [d|] eqn:G; [eauto|].
      apply dict_get_None in G. exfalso. apply G.
      rewrite <- (keys_allocate tbs ds 0). unfold keys. now apply in_map. }
  cbn [bind]. eexists. split; [reflexivity|]. split; [reflexivity|].
  repeat split.
Qed.

Lemma all_variables_allocate tbs (ds : dict string (Delivery num)) :
  forall next,
    all_variables (allocate tbs ds next)
    = seq next (List.length (flat_map (fun kd => feasible_blocks tbs (snd kd)) ds)).
Proof.
  unfold all_variables.
  induction ds as [|[k d] ds IH]; intros next; [reflexivity|].
  cbn [allocate flat_map fst snd]. rewrite IH, length_app, seq_app.
  unfold values. now rewrite map_snd_combine_seq.
Qed.

Lemma keys_objective_terms tbs (vars : VarTable) :
  keys (objective_terms tbs vars) = all_variables vars.
Proof.
  unfold objective_terms, all_variables, keys, values.
  induction vars as [|e vars IH]; [reflexivity|].
  cbn [flat_map]. rewrite map_app, IH, map_map. reflexivity.
Qed.

(** Two dicts with the same keys in the same order, each occurring once,
    that agree on every lookup are the same dict. *)
Lemma dict_ext (d1 d2 : dict nat num) :
  keys d1 = keys d2 -> NoDup (keys d1) ->
  (forall k v, In (k, v) d2 -> dict_get d1 k = Some v) ->
  d1 = d2.
Proof.
  revert d2. induction d1 as [|[k1 v1] d1 IH]; intros d2 Ek N A.
  - destruct d2; [reflexivity|discriminate].
  - destruct d2 as [|[k2 v2] d2]; [discriminate|].
    cbn [keys map fst] in Ek. injection Ek as <- Ek.
    inversion N as [|? ? M U]; subst.
    pose proof (A k1 v2 (or_introl eq_refl)) as A1. cbn [dict_get] in A1.
    destruct (eq_dec k1 k1) as [_|C]; [|congruence]. injection A1 as ->.
    f_equal. apply IH; [exact Ek|exact U|].
    intros k v I. specialize (A k v (or_intror I)). cbn [dict_get] in A.
    destruct (eq_dec k k1) as [->|_]; [|exact A].
    exfalso. apply M. unfold keys in *. rewrite Ek.
    change k1 with (fst (k1, v)). now apply in_map.
Qed.

(** Closed form of the objective of the model. *)
Lemma build_model_objective
      (tbs : list (TimeBlock num)) (ds : dict string (Delivery num)) :
  keyed_by_id ds = true ->
  exists s,
    build_model tbs ds = Ok (s, allocate tbs ds 0)
    /\ minimization s = true
    /\ objective s = objective_terms tbs (allocate tbs ds 0)
    /\ objective_ok tbs (s, allocate tbs ds 0).
Proof.
  intros Hk.
  destruct (build_model_phases tbs ds Hk) as (s1 & s & E1 & E & Eo & Ev & Em).
  assert (Ok1 : objective_ok tbs (s1, allocate tbs ds 0)).
  { eapply create_variables_objective_ok; [|exact E1].
    split; [reflexivity|]. cbn [snd]. intros e bv Ie Ib.
    apply in_map_iff in Ie as (kd & <- & _). destruct Ib. }
  assert (Ok2 : objective_ok tbs (s, allocate tbs ds 0)).
  { destruct Ok1 as [Hkeys Hp]. split; cbn [fst snd] in *.
    - now rewrite Eo, Ev.
    - now rewrite Eo. }
  exists s. split; [exact E|]. split; [exact Em|]. split; [|exact Ok2].
  destruct Ok2 as [Hkeys Hp]. cbn [fst snd] in Hkeys, Hp.
  apply dict_ext.
  - rewrite Hkeys, keys_objective_terms, all_variables_allocate, Ev.
    destruct (create_variables_closed tbs ds Hk) as (s1' & E1' & _ & _ & L).
    assert (s1' = s1) by congruence. subst s1'. now rewrite L.
  - rewrite Hkeys. apply seq_NoDup.
  - intros v c I. unfold objective_terms in I.
    apply in_flat_map in I as (e & Ie & I).
    apply in_map_iff in I as (bv & [= <- <-] & Ib).
    now apply (Hp e).
Qed.

(** X8: the objective that [solve] hands to the solver is marked for
    minimization and has exactly one term for every decision variable, in
    order of creation, whose coefficient is the price of the variable's
    block. *)
Theorem objective_prices_every_variable
        (tbs : list (TimeBlock num)) (ds : dict string (Delivery num)) :
  keyed_by_id ds = true ->
  exists s vars,
    build_model tbs ds = Ok (s, vars)
    /\ minimization s = true
    /\ objective s = objective_terms tbs vars
    /\ keys (objective s) = seq 0 (List.length (solver_variables s))
    /\ forall k b v,
        lookup_var vars k b = Some v ->
        exists tb, nth_error tbs b = Some tb
                   /\ dict_get (objective s) v = Some (price tb).
Proof.
  intros Hk.
  destruct (build_model_objective tbs ds Hk) as (s & E & Em & Eo & Hkeys & Hp).
  cbn [fst snd] in Hkeys, Hp.
  exists s, (allocate tbs ds 0).
  split; [exact E|]. split; [exact Em|]. split; [exact Eo|].
  split; [exact Hkeys|].
  intros k b v L. unfold lookup_var in L.
  destruct (dict_get (allocate tbs ds 0) k) as [dv|] eqn:G; [|discriminate].
  apply dict_get_In in G, L.
  specialize (Hp _ _ G L). cbn [fst snd] in Hp.
  assert (Hb : b < List.length tbs).
  { apply (allocate_blocks_in_range tbs ds 0 _ (b, v) G L). }
  unfold price_at in Hp.
  destruct (nth_error tbs b) as [tb|] eqn:Etb;
    [|apply nth_error_None in Etb; lia].
  now exists tb.
Qed.
End ObjectiveFacts.

Lemma objective_prices_every_variable_witness :
  keyed_by_id (deliveries two_deliveries) = true
  /\ exists s vars,
      build_model hour_blocks (deliveries two_deliveries) = Ok (s, vars)
      /\ minimization s = true
      /\ objective s = objective_terms hour_blocks vars.
Proof.
  assert (Hk : keyed_by_id (deliveries two_deliveries) = true) by reflexivity.
  split; [exact Hk|].
  destruct (objective_prices_every_variable
              hour_blocks (deliveries two_deliveries) Hk)
    as (s & vars & E & M & O & _).
  exists s, vars. split; [exact E|]. split; [exact M|exact O].
Defined.

Section ReadFacts.
Context {num : Type} `{Number num}.

(** X9: when the status is OPTIMAL or FEASIBLE, [Schedule.__init__] calls
    [solution_value()] exactly once on every variable of the solver, in
    order of creation, and on nothing else. *)
Theorem each_variable_read_once
        (self : Algorithm num) (glop : Oracle num) tbs :
  keyed_by_id (deliveries self) = true ->
  period_to_blocks (blocks_per_hour self) (hours self) (initial_date self)
                   (unit_prices self) = Ok tbs ->
  exists self' schedule reads s,
    solve self glop = Ok (self', schedule, reads)
    /\ solver self' = Some s
    /\ (fst (glop s) = OPTIMAL \/ fst (glop s) = FEASIBLE ->
        reads = seq 0 (List.length (solver_variables s))).
Proof.
  intros Hk Eb.
  destruct (solve_closed self glop tbs Hk Eb) as (s & Em & Es).
  destruct (build_model_closed tbs (deliveries self) Hk)
    as (s' & Em' & _ & _ & L & _).
  assert (s' = s) by congruence. subst s'.
  do 3 eexists. exists s. split; [exact Es|]. split; [reflexivity|].
  intros Hs. apply is_solved_spec in Hs. unfold schedule_of. rewrite Hs.
  cbn [snd]. now rewrite all_variables_allocate, L.
Qed.
End ReadFacts.

Lemma each_variable_read_once_witness :
  keyed_by_id (deliveries two_deliveries) = true
  /\ exists self' schedule reads s,
      solve two_deliveries optimal_all_ones = Ok (self', schedule, reads)
      /\ solver self' = Some s
      /\ reads = seq 0 (List.length (solver_variables s)).
Proof.
  assert (Hk : keyed_by_id (deliveries two_deliveries) = true) by reflexivity.
  split; [exact Hk|].
  destruct (each_variable_read_once
              two_deliveries optimal_all_ones hour_blocks
              Hk two_deliveries_blocks)
    as (self' & schedule & reads & s & E & S & R).
  exists self', schedule, reads, s. split; [exact E|]. split; [exact S|].
  apply R. left. reflexivity.
Defined.

(** ** Solutions that satisfy the model *)

Lemma units_total_app (a b : list (DeliveryRecord Z)) :
  units_total (a ++ b) = (units_total a + units_total b)%Z.
Proof.
  unfold units_total. induction a as [|r a IH]; simpl; [reflexivity|].
  rewrite IH. lia.
Qed.

Lemma values_total_app (value : nat -> Z) (a b : list nat) :
  values_total value (a ++ b)
  = (values_total value a + values_total value b)%Z.
Proof.
  unfold values_total. induction a as [|v a IH]; simpl; [reflexivity|].
  rewrite IH. lia.
Qed.

Lemma row_sum_unit_terms (value : nat -> Z) (vs : list nat) :
  row_sum value (unit_terms vs) = values_total value vs.
Proof.
  induction vs as [|v vs IH]; [reflexivity|].
  change (row_sum value (unit_terms (v :: vs)))
    with (1 * value v + row_sum value (unit_terms vs))%Z.
  change (values_total value (v :: vs))
    with (value v + values_total value vs)%Z.
  rewrite IH. lia.
Qed.



Lemma allocate_upper_bound tbs (ds : dict string (Delivery Z)) :
  forall next e bv,
    In e (allocate tbs ds next) -> In bv (snd e) ->
    snd bv < next + List.length
                      (flat_map (fun kd => feasible_blocks tbs (snd kd)) ds).
Proof.
  induction ds as [|[k d] ds IH]; intros next e bv I Ib; [destruct I|].
  cbn [allocate flat_map fst snd] in *. rewrite length_app.
  destruct I as [<-|I].
  - cbn [snd] in Ib. destruct bv as [b v].
    apply in_combine_r, in_seq in Ib. cbn [snd]. lia.
  - specialize (IH _ _ _ I Ib). lia.
Qed.

Lemma satisfies_nonneg (s : Solver Z) (value : nat -> Z) v :
  Forall bounds_0_inf (solver_variables s) ->
  satisfies s value ->
  v < List.length (solver_variables s) ->
  (0 <= value v)%Z.
Proof.
  intros F [B _] Hv.
  destruct (nth_error (solver_variables s) v) as [var|] eqn:E;
    [|apply nth_error_None in E; lia].
  specialize (B v var E). rewrite Forall_forall in F.
  destruct (F var (nth_error_In _ _ E)) as [Lb _].
  rewrite Lb in B. destruct B as [B _]. exact B.
Qed.

(** Every entry of the table names an existing block and a variable whose
    value is not negative. *)
Lemma entries_in_range tbs (ds : dict string (Delivery Z)) s value :
  keyed_by_id ds = true ->
  build_model tbs ds = Ok (s, allocate tbs ds 0) ->
  satisfies s value ->
  forall e bv,
    In e (allocate tbs ds 0) -> In bv (snd e) ->
    fst bv < List.length tbs /\ (0 <= value (snd bv))%Z.
Proof.
  intros Hk E Sat e bv Ie Ib.
  destruct (build_model_closed tbs ds Hk) as (s' & E' & _ & F & L & _).
  assert (s' = s) by congruence. subst s'.
  split; [eapply allocate_blocks_in_range; eauto|].
  apply (satisfies_nonneg s value); [exact F|exact Sat|].
  rewrite L. apply (allocate_upper_bound tbs ds 0 e bv Ie Ib).
Qed.



(** The values 1, 1, 1, 1 satisfy the model of [two_deliveries]. *)
Lemma two_deliveries_model_satisfied :
  exists s vars,
    build_model hour_blocks (deliveries two_deliveries) = Ok (s, vars)
    /\ satisfies s (fun _ => 1%Z).
Proof.
  do 2 eexists. split; [vm_compute; reflexivity|]. split.
  - intros v var E. simpl in E.
    do 4 (destruct v as [|v];
          [injection E as <-; cbv; split; [discriminate|exact I]|]).
    destruct v; discriminate E.
  - repeat constructor; cbv; discriminate.
Qed.


Lemma supplied_by_app pid b (a c : list (DeliveryRecord Z)) :
  supplied_by pid b (a ++ c) = (supplied_by pid b a + supplied_by pid b c)%Z.
Proof. unfold supplied_by. now rewrite filter_app, units_total_app. Qed.

Lemma filter_key_dict_get (dv : dict nat nat) b :
  NoDup (keys dv) ->
  map snd (filter (fun bv => fst bv =? b) dv)
  = match dict_get dv b with
    | Some v => [v]
    | None => []
    end.
Proof.
  induction dv as [|[b0 v0] dv IH]; intros N; [reflexivity|].
  inversion N as [|? ? M U]; subst.
  cbn [filter fst dict_get].
  destruct (eq_dec b b0) as [->|Ne].
  - rewrite Nat.eqb_refl. cbn [map snd]. f_equal.
    rewrite IH by exact U.
    destruct (dict_get dv b0) as [v|] eqn:G; [|reflexivity].
    exfalso. apply M. apply dict_get_In in G. unfold keys.
    change b0 with (fst (b0, v)). now apply in_map.
  - replace (b0 =? b) with false by (symmetry; apply Nat.eqb_neq; congruence).
    now apply IH.
Qed.

Lemma supplied_by_entries tbs (value : nat -> Z) (d : Delivery Z) pid b
      (dv : dict nat nat) :
  (forall bv, In bv dv -> fst bv < List.length tbs /\ (0 <= value (snd bv))%Z) ->
  supplied_by pid b (flat_map (record_of tbs value d) dv)
  = if String.eqb (p_id (producer d)) pid
    then values_total value (map snd (filter (fun bv => fst bv =? b) dv))
    else 0%Z.
Proof.
  induction dv as [|[b0 v0] dv IH]; intros A.
  - cbn. now destruct (String.eqb _ _).
  - cbn [flat_map]. rewrite supplied_by_app.
    rewrite IH by (intros bv I; apply A; now right).
    destruct (A (b0, v0) (or_introl eq_refl)) as [Hb Hv].
    cbn [fst snd] in Hb, Hv.
    assert (Head : supplied_by pid b (record_of tbs value d (b0, v0))
                   = if (b0 =? b) && String.eqb (p_id (producer d)) pid
                     then value v0 else 0%Z).
    { unfold record_of. cbn [fst snd gtb zero Z_Number].
      destruct (nth_error tbs b0) as [tb|] eqn:Etb;
        [|apply nth_error_None in Etb; lia].
      destruct (value v0 >? 0)%Z eqn:G.
      - unfold supplied_by. cbn [filter time_block rec_producer].
        destruct ((b0 =? b) && String.eqb (p_id (producer d)) pid);
          cbn [units_total fold_right units_to_supply]; lia.
      - rewrite Z.gtb_ltb in G. apply Z.ltb_ge in G.
        unfold supplied_by. cbn [filter units_total fold_right].
        destruct ((b0 =? b) && String.eqb (p_id (producer d)) pid); lia. }
    rewrite Head. cbn [filter fst].
    destruct (b0 =? b), (String.eqb (p_id (producer d)) pid);
      unfold values_total; cbn [andb map snd fold_right]; lia.
Qed.

(** The units that the records give to a producer in a block are the
    values of the variables of that producer's row for the block. *)
Lemma supplied_by_table tbs (ds : dict string (Delivery Z)) (value : nat -> Z)
      (pr : Producer Z) b (vars : VarTable) :
  (forall e, In e vars -> NoDup (keys (snd e))) ->
  (forall e bv, In e vars -> In bv (snd e) ->
                fst bv < List.length tbs /\ (0 <= value (snd bv))%Z) ->
  supplied_by (p_id pr) b (records_by_table tbs ds value vars)
  = values_total value (producer_block_variables ds vars pr b).
Proof.
  induction vars as [|[k dv] vars IH]; intros N A; [reflexivity|].
  unfold records_by_table. cbn [flat_map]. fold (records_by_table tbs ds value vars).
  rewrite producer_block_variables_cons, supplied_by_app, values_total_app.
  rewrite IH; [|intros e I; apply N; now right
               |intros e bv I; apply A; now right].
  f_equal. cbn [fst snd].
  destruct (dict_get ds k) as [d|]; [|reflexivity].
  rewrite supplied_by_entries by (intros bv I; apply (A (k, dv)); [now left|exact I]).
  rewrite String.eqb_sym.
  destruct (String.eqb (p_id pr) (p_id (producer d))); [|reflexivity].
  rewrite filter_key_dict_get by (apply (N (k, dv)); now left).
  reflexivity.
Qed.

Lemma NoDup_keys_allocate_entries tbs (ds : dict string (Delivery Z)) :
  forall next e, In e (allocate tbs ds next) -> NoDup (keys (snd e)).
Proof.
  induction ds as [|[k d] ds IH]; intros next e I; [destruct I|].
  cbn [allocate fst snd] in I. destruct I as [<-|I]; [|eapply IH; eauto].
  cbn [snd]. unfold keys. rewrite map_fst_combine_seq.
  apply NoDup_feasible_blocks.
Qed.

(** X11: if the status is OPTIMAL or FEASIBLE and the values that the
    solver reports satisfy the model, then in every block the
    units_to_supply of the records that name a producer's id add up to at
    most that producer's max_supply (and to at least 0). *)
Theorem schedule_within_capacity
        (self : Algorithm Z) (glop : Oracle Z) tbs :
  keyed_by_id (deliveries self) = true ->
  period_to_blocks (blocks_per_hour self) (hours self) (initial_date self)
                   (unit_prices self) = Ok tbs ->
  exists self' schedule reads s,
    solve self glop = Ok (self', schedule, reads)
    /\ solver self' = Some s
    /\ (fst (glop s) = OPTIMAL \/ fst (glop s) = FEASIBLE ->
        satisfies s (snd (glop s)) ->
        forall pr b,
          In pr (_get_producers (deliveries self)) ->
          b < List.length tbs ->
          (0 <= supplied_by (p_id pr) b (sch_deliveries schedule)
           <= max_supply pr)%Z).
Proof.
  intros Hk Eb. pose proof Hk as Hk'. apply keyed_by_id_spec in Hk' as [K N].
  destruct (solve_closed self glop tbs Hk Eb) as (s & Em & Es).
  destruct (build_model_closed tbs (deliveries self) Hk)
    as (s' & Em' & C & _).
  assert (s' = s) by congruence. subst s'.
  do 3 eexists. exists s.
  split; [exact Es|]. split; [reflexivity|].
  intros Hs Sat pr b Ip Hb. apply is_solved_spec in Hs.
  unfold schedule_of. rewrite Hs. cbn [fst sch_deliveries].
  rewrite <- (records_by_table_allocate tbs (deliveries self) _ N).
  rewrite supplied_by_table.
  - destruct Sat as [_ Rows]. rewrite C in Rows.
    apply Forall_app in Rows as [_ Rows]. rewrite Forall_forall in Rows.
    assert (Irow : In (producer_row (deliveries self)
                                    (allocate tbs (deliveries self) 0) pr b)
                      (flat_map
                         (fun pr => map (producer_row
                                           (deliveries self)
                                           (allocate tbs (deliveries self) 0) pr)
                                        (seq 0 (List.length tbs)))
                         (_get_producers (deliveries self)))).
    { apply in_flat_map. exists pr. split; [exact Ip|].
      apply in_map. apply in_seq. lia. }
    specialize (Rows _ Irow). unfold producer_row, within in Rows.
    cbn [con_lb con_ub con_terms zero Z_Number] in Rows.
    rewrite row_sum_unit_terms in Rows. exact Rows.
  - intros e I. eapply NoDup_keys_allocate_entries; eauto.
  - intros e bv Ie Ib.
    apply (entries_in_range tbs (deliveries self) s _ Hk Em Sat e bv Ie Ib).
Qed.

Lemma schedule_within_capacity_witness :
  keyed_by_id (deliveries two_deliveries) = true
  /\ exists self' schedule reads s,
      solve two_deliveries optimal_all_ones = Ok (self', schedule, reads)
      /\ solver self' = Some s.
Proof.
  assert (Hk : keyed_by_id (deliveries two_deliveries) = true) by reflexivity.
  split; [exact Hk|].
  destruct (schedule_within_capacity
              two_deliveries optimal_all_ones hour_blocks
              Hk two_deliveries_blocks)
    as (self' & schedule & reads & s & E & S & _).
  exists self', schedule, reads, s. split; [exact E|exact S].
Defined.

(** X12: a delivery without any feasible block whose consumer requires a
    non-zero amount makes the model unsatisfiable: its equality row has no
    terms. *)
Theorem no_feasible_block_no_solution
        (tbs : list (TimeBlock Z)) (ds : dict string (Delivery Z)) k d :
  keyed_by_id ds = true ->
  In (k, d) ds ->
  feasible_blocks tbs d = [] ->
  required_units (consumer d) <> 0%Z ->
  exists s vars,
    build_model tbs ds = Ok (s, vars)
    /\ delivery_variables vars k = []
    /\ forall value, ~ satisfies s value.
Proof.
  intros Hk I Fb Req. pose proof Hk as Hk'.
  apply keyed_by_id_spec in Hk' as [K N].
  destruct (build_model_closed tbs ds Hk) as (s & E & C & _).
  exists s, (allocate tbs ds 0). split; [exact E|].
  assert (Ev : delivery_variables (allocate tbs ds 0) k = []).
  { pose proof (keys_delivery_entries tbs ds k d N I) as Ek.
    rewrite Fb in Ek. unfold delivery_variables.
    destruct (delivery_entries (allocate tbs ds 0) k); [reflexivity|discriminate]. }
  split; [exact Ev|].
  intros value [_ Rows]. rewrite C in Rows.
  apply Forall_app in Rows as [Rows _]. rewrite Forall_forall in Rows.
  specialize (Rows (consumer_row (allocate tbs ds 0) (k, d))
                   (in_map (consumer_row (allocate tbs ds 0)) _ _ I)).
  unfold consumer_row, within in Rows.
  cbn [con_lb con_ub con_terms fst snd] in Rows.
  rewrite Ev in Rows. cbn in Rows. lia.
Qed.

Lemma no_feasible_block_no_solution_witness :
  keyed_by_id (deliveries too_early) = true
  /\ feasible_blocks hour_blocks
                     {| consumer := consumer_a; producer := producer_b |} = []
  /\ exists s vars,
      build_model hour_blocks (deliveries too_early) = Ok (s, vars)
      /\ forall value, ~ satisfies s value.
Proof.
  assert (Hk : keyed_by_id (deliveries too_early) = true) by reflexivity.
  assert (Fb : feasible_blocks hour_blocks
                               {| consumer := consumer_a; producer := producer_b |}
               = []) by reflexivity.
  split; [exact Hk|]. split; [exact Fb|].
  destruct (no_feasible_block_no_solution
              hour_blocks (deliveries too_early) "c-a, p-b"%string
              {| consumer := consumer_a; producer := producer_b |} Hk)
    as (s & vars & E & _ & U).
  - left. reflexivity.
  - exact Fb.
  - discriminate.
  - exists s, vars. split; [exact E|exact U].
Defined.

Lemma price_sum_cost (records : list (DeliveryRecord Z)) start :
  price_sum records start = (start + cost_total records)%Z.
Proof.
  unfold price_sum, cost_total.
  revert start. induction records as [|r records IH]; intros start.
  - simpl. lia.
  - cbn [fold_left fold_right]. rewrite IH. cbn [add mul Z_Number]. lia.
Qed.

Lemma cost_total_app (a b : list (DeliveryRecord Z)) :
  cost_total (a ++ b) = (cost_total a + cost_total b)%Z.
Proof.
  unfold cost_total. induction a as [|r a IH]; simpl; [reflexivity|].
  rewrite IH. lia.
Qed.

Lemma row_sum_app (value : nat -> Z) (a b : dict nat Z) :
  row_sum value (a ++ b) = (row_sum value a + row_sum value b)%Z.
Proof.
  unfold row_sum. induction a as [|t a IH]; simpl; [reflexivity|].
  rewrite IH. lia.
Qed.

Lemma cost_of_entries tbs (value : nat -> Z) (d : Delivery Z)
      (dv : dict nat nat) :
  (forall bv, In bv dv -> fst bv < List.length tbs /\ (0 <= value (snd bv))%Z) ->
  cost_total (flat_map (record_of tbs value d) dv)
  = row_sum value (map (fun bv => (snd bv, price_at tbs (fst bv))) dv).
Proof.
  induction dv as [|[b v] dv IH]; intros A; [reflexivity|].
  cbn [flat_map map]. rewrite cost_total_app.
  rewrite IH by (intros bv I; apply A; now right).
  change (row_sum value
            ((snd (b, v), price_at tbs (fst (b, v)))
               :: map (fun bv => (snd bv, price_at tbs (fst bv))) dv))
    with (price_at tbs b * value v
          + row_sum value (map (fun bv => (snd bv, price_at tbs (fst bv))) dv))%Z.
  f_equal.
  destruct (A (b, v) (or_introl eq_refl)) as [Hb Hv]. cbn [fst snd] in Hb, Hv.
  unfold record_of, price_at. cbn [fst snd gtb zero Z_Number].
  destruct (nth_error tbs b) as [tb|] eqn:Etb;
    [|apply nth_error_None in Etb; lia].
  destruct (value v >? 0)%Z eqn:G.
  - cbn [cost_total fold_right units_to_supply unit_price]. lia.
  - rewrite Z.gtb_ltb in G. apply Z.ltb_ge in G.
    assert (Ev : value v = 0%Z) by lia.
    rewrite Ev. cbn [cost_total fold_right]. lia.
Qed.

Lemma cost_of_table tbs (ds : dict string (Delivery Z)) (value : nat -> Z)
      (vars : VarTable) :
  (forall e, In e vars -> exists d, dict_get ds (fst e) = Some d) ->
  (forall e bv, In e vars -> In bv (snd e) ->
                fst bv < List.length tbs /\ (0 <= value (snd bv))%Z) ->
  cost_total (records_by_table tbs ds value vars)
  = row_sum value (objective_terms tbs vars).
Proof.
  induction vars as [|[k dv] vars IH]; intros G A; [reflexivity|].
  unfold records_by_table, objective_terms. cbn [flat_map fst snd].
  fold (records_by_table tbs ds value vars). fold (objective_terms tbs vars).
  rewrite cost_total_app, row_sum_app.
  rewrite IH; [|intros e I; apply G; now right
               |intros e bv I; apply A; now right].
  f_equal.
  destruct (G (k, dv) (or_introl eq_refl)) as (d & Ed). cbn [fst] in Ed.
  rewrite Ed. apply cost_of_entries.
  intros bv I. apply (A (k, dv)); [now left|exact I].
Qed.

(** X13: if the status is OPTIMAL or FEASIBLE and the values that the
    solver reports satisfy the model, the total_price of the schedule is the
    value of the objective at those values: the sum, over all variables, of
    the objective coefficient times the value. *)
Theorem total_price_is_objective_value
        (self : Algorithm Z) (glop : Oracle Z) tbs :
  keyed_by_id (deliveries self) = true ->
  period_to_blocks (blocks_per_hour self) (hours self) (initial_date self)
                   (unit_prices self) = Ok tbs ->
  exists self' schedule reads s,
    solve self glop = Ok (self', schedule, reads)
    /\ solver self' = Some s
    /\ (fst (glop s) = OPTIMAL \/ fst (glop s) = FEASIBLE ->
        satisfies s (snd (glop s)) ->
        total_price schedule = row_sum (snd (glop s)) (objective s)
        /\ total_price schedule = cost_total (sch_deliveries schedule)).
Proof.
  intros Hk Eb. pose proof Hk as Hk'. apply keyed_by_id_spec in Hk' as [K N].
  destruct (solve_closed self glop tbs Hk Eb) as (s & Em & Es).
  destruct (build_model_objective tbs (deliveries self) Hk)
    as (s' & Em' & _ & Eo & _).
  assert (s' = s) by congruence. subst s'.
  do 3 eexists. exists s.
  split; [exact Es|]. split; [reflexivity|].
  intros Hs Sat. apply is_solved_spec in Hs.
  unfold schedule_of. rewrite Hs. cbn [fst sch_deliveries total_price].
  rewrite price_sum_cost. cbn [zero Z_Number].
  split; [|lia].
  rewrite <- (records_by_table_allocate tbs (deliveries self) _ N).
  rewrite cost_of_table, Eo; [lia| |].
  - intros e I.
    destruct (dict_get (deliveries self) (fst e)) as [d|] eqn:G; [eauto|].
    apply dict_get_None in G. exfalso. apply G.
    rewrite <- (keys_allocate tbs (deliveries self) 0). unfold keys.
    now apply in_map.
  - intros e bv Ie Ib.
    apply (entries_in_range tbs (deliveries self) s _ Hk Em Sat e bv Ie Ib).
Qed.

Lemma total_price_is_objective_value_witness :
  keyed_by_id (deliveries two_deliveries) = true
  /\ exists self' schedule reads s,
      solve two_deliveries optimal_all_ones = Ok (self', schedule, reads)
      /\ solver self' = Some s.
Proof.
  assert (Hk : keyed_by_id (deliveries two_deliveries) = true) by reflexivity.
  split; [exact Hk|].
  destruct (total_price_is_objective_value
              two_deliveries optimal_all_ones hour_blocks
              Hk two_deliveries_blocks)
    as (self' & schedule & reads & s & E & S & _).
  exists self', schedule, reads, s. split; [exact E|exact S].
Defined.

Lemma value_le_values_total (value : nat -> Z) (l : list nat) v :
  (forall x, In x l -> (0 <= value x)%Z) ->
  In v l -> (value v <= values_total value l)%Z.
Proof.
  unfold values_total. induction l as [|x l IH]; intros A I; [destruct I|].
  cbn [fold_right]. destruct I as [->|I].
  - assert (0 <= fold_right (fun v acc => value v + acc) 0 l)%Z; [|lia].
    clear IH. induction l as [|y l IH]; cbn [fold_right]; [lia|].
    assert (0 <= value y)%Z by (apply A; right; now left).
    assert (0 <= fold_right (fun v acc => value v + acc) 0 l)%Z; [|lia].
    apply IH. intros z [->|Iz]; apply A; [now left|right; now right].
  - assert (0 <= value x)%Z by (apply A; now left).
    assert (value v <= fold_right (fun v acc => value v + acc) 0 l)%Z; [|lia].
    apply IH; [|exact I]. intros z Iz. apply A. now right.
Qed.

Lemma values_total_bounded (value : nat -> Z) (l : list nat) m :
  (forall x, In x l -> (value x <= m)%Z) ->
  (values_total value l <= Z.of_nat (List.length l) * m)%Z.
Proof.
  unfold values_total. induction l as [|x l IH]; intros A.
  - simpl. lia.
  - cbn [fold_right List.length]. rewrite Nat2Z.inj_succ.
    assert (value x <= m)%Z by (apply A; now left).
    assert (fold_right (fun v acc => value v + acc) 0 l
            <= Z.of_nat (List.length l) * m)%Z
      by (apply IH; intros z Iz; apply A; now right).
    lia.
Qed.

(** X14: a model that some values satisfy leaves every delivery within
    reach of its producer: the required_units of the consumer are at most
    the number of feasible blocks of the delivery times the max_supply of
    the producer. *)
Theorem satisfiable_model_within_reach
        (tbs : list (TimeBlock Z)) (ds : dict string (Delivery Z)) :
  keyed_by_id ds = true ->
  exists s vars,
    build_model tbs ds = Ok (s, vars)
    /\ forall value,
        satisfies s value ->
        forall pr k d,
          In pr (_get_producers ds) ->
          In (k, d) ds ->
          p_id (producer d) = p_id pr ->
          (required_units (consumer d)
           <= Z.of_nat (List.length (feasible_blocks tbs d)) * max_supply pr)%Z.
Proof.
  intros Hk. pose proof Hk as Hk'. apply keyed_by_id_spec in Hk' as [K N].
  destruct (build_model_closed tbs ds Hk) as (s & E & C & _).
  exists s, (allocate tbs ds 0). split; [exact E|].
  intros value Sat pr k d Ip I Ep.
  pose proof (entries_in_range tbs ds s value Hk E Sat) as Range.
  set (vars := allocate tbs ds 0) in *.
  destruct Sat as [_ Rows]. rewrite C in Rows.
  apply Forall_app in Rows as [Crows Prows].
  rewrite Forall_forall in Crows, Prows.
  assert (Req : required_units (consumer d)
                = values_total value (delivery_variables vars k)).
  { specialize (Crows (consumer_row vars (k, d))
                      (in_map (consumer_row vars) _ _ I)).
    unfold consumer_row, within in Crows.
    cbn [con_lb con_ub con_terms fst snd] in Crows.
    rewrite row_sum_unit_terms in Crows. lia. }
  assert (Len : List.length (delivery_variables vars k)
                = List.length (feasible_blocks tbs d)).
  { unfold delivery_variables, values. rewrite length_map.
    rewrite <- (keys_delivery_entries tbs ds k d N I).
    unfold keys. now rewrite length_map. }
  rewrite Req, <- Len. apply values_total_bounded.
  intros v Iv.
  apply (In_delivery_variables tbs ds k d v N I) in Iv as (b & L).
  assert (Hb : b < List.length tbs).
  { assert (F : feasible tbs d b = true)
      by (apply (lookup_var_allocate tbs ds k d b N I); eauto).
    apply feasible_spec in F as (tb & Etb & _).
    assert (Nn : nth_error tbs b <> None) by congruence.
    now apply nth_error_Some in Nn. }
  assert (Irow : In (producer_row ds vars pr b)
                    (flat_map (fun pr => map (producer_row ds vars pr)
                                             (seq 0 (List.length tbs)))
                              (_get_producers ds))).
  { apply in_flat_map. exists pr. split; [exact Ip|].
    apply in_map. apply in_seq. lia. }
  specialize (Prows _ Irow). unfold producer_row, within in Prows.
  cbn [con_lb con_ub con_terms] in Prows.
  rewrite row_sum_unit_terms in Prows.
  assert (value v <= values_total value (producer_block_variables ds vars pr b))%Z;
    [|lia].
  apply value_le_values_total.
  - intros x Ix.
    apply (In_producer_block_variables tbs ds pr b x N) in Ix
      as (k' & d' & I' & _ & L').
    unfold lookup_var in L'. fold vars in L'.
    destruct (dict_get vars k') as [dv|] eqn:G; [|discriminate].
    apply dict_get_In in G, L'.
    apply (Range (k', dv) (b, x) G L').
  - apply (In_producer_block_variables tbs ds pr b v N).
    exists k, d. auto.
Qed.

Lemma satisfiable_model_within_reach_witness :
  keyed_by_id (deliveries two_deliveries) = true
  /\ exists s vars,
      build_model hour_blocks (deliveries two_deliveries) = Ok (s, vars)
      /\ satisfies s (fun _ => 1%Z)
      /\ (required_units co1
          <= Z.of_nat (List.length
                         (feasible_blocks
                            hour_blocks {| consumer := co1; producer := cp1 |}))
             * max_supply cp1)%Z.
Proof.
  assert (Hk : keyed_by_id (deliveries two_deliveries) = true) by reflexivity.
  split; [exact Hk|].
  destruct (satisfiable_model_within_reach
              hour_blocks (deliveries two_deliveries) Hk)
    as (s & vars & E & P).
  destruct two_deliveries_model_satisfied as (s0 & vars0 & E0 & Sat).
  assert (Es : s0 = s) by congruence. rewrite Es in Sat.
  exists s, vars. split; [exact E|]. split; [exact Sat|].
  apply (P _ Sat cp1 "c-co1, p-cp1"%string
           {| consumer := co1; producer := cp1 |}).
  - left. reflexivity.
  - left. reflexivity.
  - reflexivity.
Defined.

Section EmptyConfiguration.
Context {num : Type} `{Number num}.

(** X15: without any delivery, [solve] builds a model without variables,
    constraints or objective terms and returns, whatever the solver
    answers, a schedule without records whose total_price is 0, and reads
    no value. *)
Theorem solve_without_deliveries
        (self : Algorithm num) (glop : Oracle num) tbs :
  deliveries self = [] ->
  period_to_blocks (blocks_per_hour self) (hours self) (initial_date self)
                   (unit_prices self) = Ok tbs ->
  exists self' schedule reads s,
    solve self glop = Ok (self', schedule, reads)
    /\ time_blocks self' = tbs
    /\ solver self' = Some s
    /\ solver_variables s = []
    /\ solver_constraints s = []
    /\ objective s = []
    /\ sch_deliveries schedule = []
    /\ total_price schedule = zero
    /\ reads = [].
Proof.
  intros Ed Eb. unfold solve. rewrite Eb, Ed. cbn [bind].
  unfold build_model, create_variables, add_consumer_constraints,
    add_producer_constraints, _get_producers.
  cbn [map for_each bind fold_left].
  destruct (glop _) as [status value].
  unfold Schedule_init.
  destruct status; cbn; do 4 eexists; repeat split.
Qed.
End EmptyConfiguration.

Lemma solve_without_deliveries_witness :
  deliveries two_blocks = []
  /\ exists self' schedule reads,
      solve two_blocks infeasible = Ok (self', schedule, reads)
      /\ sch_deliveries schedule = [].
Proof.
  assert (Ed : deliveries two_blocks = []) by reflexivity.
  assert (Eb : period_to_blocks (blocks_per_hour two_blocks) (hours two_blocks)
                                (initial_date two_blocks)
                                (unit_prices two_blocks)
               = Ok hour_blocks) by reflexivity.
  split; [exact Ed|].
  destruct (solve_without_deliveries two_blocks infeasible hour_blocks Ed Eb)
    as (self' & schedule & reads & s & E & _ & _ & _ & _ & _ & R & _).
  exists self', schedule, reads. split; [exact E|exact R].
Defined.

(** ** Companies, buildings and producers *)

Lemma nth_error_update_nth {A : Type} (f : A -> A) (l : list A) n m :
  nth_error (update_nth n f l) m
  = if n =? m then option_map f (nth_error l m) else nth_error l m.
Proof.
  revert n m. induction l as [|x l IH]; intros n m.
  - destruct n, m; simpl; try reflexivity; now destruct (n =? m).
  - destruct n as [|n], m as [|m]; simpl; try reflexivity. apply IH.
Qed.

Lemma nth_error_snoc {A : Type} (l : list A) (x y : A) n :
  nth_error (l ++ [x]) n = Some y ->
  (n < List.length l /\ nth_error l n = Some y)
  \/ (n = List.length l /\ y = x).
Proof.
  intros E. destruct (Nat.lt_ge_cases n (List.length l)) as [Lt|Ge].
  - left. split; [exact Lt|]. now rewrite nth_error_app1 in E.
  - right. rewrite nth_error_app2 in E by exact Ge.
    destruct (n - List.length l) as [|k] eqn:Ek.
    + simpl in E. split; [lia|congruence].
    + simpl in E. destruct k; discriminate.
Qed.

Lemma count_occ_snoc (l : list nat) x c :
  count_occ Nat.eq_dec (l ++ [x]) c
  = count_occ Nat.eq_dec l c + (if Nat.eq_dec x c then 1 else 0).
Proof.
  rewrite count_occ_app. simpl. now destruct (Nat.eq_dec x c).
Qed.

Section LinkFacts.
Variables (P C : Type) (children : P -> list nat) (parent : C -> option nat).

Lemma linked_nil : Site.linked children parent [] [].
Proof.
  split; intros i x j E; destruct i; discriminate.
Qed.

Lemma nth_error_lt {A : Type} (l : list A) n x :
  nth_error l n = Some x -> n < List.length l.
Proof. intros E. apply nth_error_Some. congruence. Qed.

Lemma linked_new_parent ps cs x :
  children x = [] ->
  Site.linked children parent ps cs ->
  Site.linked children parent (ps ++ [x]) cs.
Proof.
  intros Ex [L1 L2]. split.
  - intros p x' c E I. apply nth_error_snoc in E as [[_ E]|[_ ->]].
    + eapply L1; eauto.
    + rewrite Ex in I. destruct I.
  - intros c y p E Ep. destruct (L2 c y p E Ep) as (x' & E' & Cn).
    exists x'. split; [|exact Cn].
    rewrite nth_error_app1; [exact E'|]. eapply nth_error_lt; eauto.
Qed.

Lemma linked_new_orphan ps cs y :
  parent y = None ->
  Site.linked children parent ps cs ->
  Site.linked children parent ps (cs ++ [y]).
Proof.
  intros Ey [L1 L2]. split.
  - intros p x c E I. destruct (L1 p x c E I) as (y' & E' & Ep).
    exists y'. split; [|exact Ep].
    rewrite nth_error_app1; [exact E'|]. eapply nth_error_lt; eauto.
  - intros c y' p E Ep. apply nth_error_snoc in E as [[_ E]|[_ ->]].
    + eapply L2; eauto.
    + congruence.
Qed.

Lemma linked_new_child ps cs (add : P -> P) y p :
  (forall x, children (add x) = children x ++ [List.length cs]) ->
  parent y = Some p ->
  p < List.length ps ->
  Site.linked children parent ps cs ->
  Site.linked children parent (update_nth p add ps) (cs ++ [y]).
Proof.
  intros Ea Ey Hp [L1 L2].
  assert (Old : forall q x c, nth_error ps q = Some x -> In c (children x) ->
                              c < List.length cs).
  { intros q x c E I. destruct (L1 q x c E I) as (y' & E' & _).
    eapply nth_error_lt; eauto. }
  split.
  - intros q x c E I. rewrite nth_error_update_nth in E.
    destruct (p =? q) eqn:Epq.
    + apply Nat.eqb_eq in Epq. subst q.
      destruct (nth_error ps p) as [x0|] eqn:E0; [|discriminate].
      simpl in E. injection E as <-. rewrite Ea in I.
      apply in_app_or in I as [I|[<-|[]]].
      * destruct (L1 p x0 c E0 I) as (y' & E' & Ep).
        exists y'. split; [|exact Ep].
        rewrite nth_error_app1; [exact E'|]. eapply nth_error_lt; eauto.
      * exists y. split; [|exact Ey].
        rewrite nth_error_app2 by lia. now rewrite Nat.sub_diag.
    + destruct (L1 q x c E I) as (y' & E' & Ep).
      exists y'. split; [|exact Ep].
      rewrite nth_error_app1; [exact E'|]. eapply nth_error_lt; eauto.
  - intros c y' q E Ep. apply nth_error_snoc in E as [[Hc E]|[-> ->]].
    + destruct (L2 c y' q E Ep) as (x & E' & Cn).
      rewrite nth_error_update_nth.
      destruct (p =? q) eqn:Epq.
      * apply Nat.eqb_eq in Epq. subst q. rewrite E'. simpl.
        eexists. split; [reflexivity|]. rewrite Ea, count_occ_snoc, Cn.
        destruct (Nat.eq_dec (List.length cs) c); lia.
      * exists x. split; [exact E'|exact Cn].
    + assert (q = p) by congruence. subst q.
      destruct (nth_error ps p) as [x0|] eqn:E0;
        [|apply nth_error_None in E0; lia].
      rewrite nth_error_update_nth, Nat.eqb_refl, E0. simpl.
      eexists. split; [reflexivity|]. rewrite Ea, count_occ_snoc.
      destruct (Nat.eq_dec (List.length cs) (List.length cs)); [|congruence].
      assert (count_occ Nat.eq_dec (children x0) (List.length cs) = 0); [|lia].
      apply count_occ_not_In. intros I.
      specialize (Old p x0 _ E0 I). lia.
Qed.

Lemma linked_same_links (P' C' : Type) (children' : P' -> list nat)
      (parent' : C' -> option nat) ps cs ps' cs' :
  map children ps = map children' ps' ->
  map parent cs = map parent' cs' ->
  Site.linked children parent ps cs ->
  Site.linked children' parent' ps' cs'.
Proof.
  intros Ep Ec [L1 L2].
  assert (Pe : forall p, option_map children (nth_error ps p)
                         = option_map children' (nth_error ps' p))
    by (intros p; rewrite <- !nth_error_map; now rewrite Ep).
  assert (Ce : forall c, option_map parent (nth_error cs c)
                         = option_map parent' (nth_error cs' c))
    by (intros c; rewrite <- !nth_error_map; now rewrite Ec).
  assert (Pn : forall p x', nth_error ps' p = Some x' ->
                            exists x, nth_error ps p = Some x
                                      /\ children x = children' x').
  { intros p x' E. specialize (Pe p). rewrite E in Pe.
    destruct (nth_error ps p) as [x|]; [|discriminate].
    simpl in Pe. exists x. split; congruence. }
  assert (Cn : forall c y', nth_error cs' c = Some y' ->
                            exists y, nth_error cs c = Some y
                                      /\ parent y = parent' y').
  { intros c y' E. specialize (Ce c). rewrite E in Ce.
    destruct (nth_error cs c) as [y|]; [|discriminate].
    simpl in Ce. exists y. split; congruence. }
  assert (Pn' : forall p x, nth_error ps p = Some x ->
                            exists x', nth_error ps' p = Some x'
                                       /\ children x = children' x').
  { intros p x E. specialize (Pe p). rewrite E in Pe.
    destruct (nth_error ps' p) as [x'|]; [|discriminate].
    simpl in Pe. exists x'. split; congruence. }
  assert (Cn' : forall c y, nth_error cs c = Some y ->
                            exists y', nth_error cs' c = Some y'
                                       /\ parent y = parent' y').
  { intros c y E. specialize (Ce c). rewrite E in Ce.
    destruct (nth_error cs' c) as [y'|]; [|discriminate].
    simpl in Ce. exists y'. split; congruence. }
  split.
  - intros p x' c E I. destruct (Pn p x' E) as (x & Ex & Ech).
    rewrite <- Ech in I. destruct (L1 p x c Ex I) as (y & Ey & Epa).
    destruct (Cn' c y Ey) as (y' & Ey' & Epa').
    exists y'. split; [exact Ey'|congruence].
  - intros c y' p E Epa. destruct (Cn c y' E) as (y & Ey & Epa').
    destruct (L2 c y p Ey) as (x & Ex & Cnt); [congruence|].
    destruct (Pn' p x Ex) as (x' & Ex' & Ech).
    exists x'. split; [exact Ex'|congruence].
Qed.
End LinkFacts.

Lemma map_update_nth_same {A B : Type} (g : A -> B) (f : A -> A) n (l : list A) :
  (forall x, g (f x) = g x) -> map g (update_nth n f l) = map g l.
Proof.
  intros E. revert n. induction l as [|x l IH]; intros n; [now destruct n|].
  destruct n as [|n]; simpl; [now rewrite E|]. now rewrite IH.
Qed.

(** X16: in every store that the constructors of Company, Building and
    Producer produce, the two directions of the containment agree: a
    company lists exactly the buildings whose company it is, a building
    lists exactly the producers whose building it is, and each is listed
    once. *)
Theorem constructors_keep_site_consistent {num : Type} (st : @Site.Store num) :
  Site.built st -> Site.consistent st.
Proof.
  induction 1 as [|st id ms B [L1 L2]|st id ms company B [L1 L2] V
                  |st id ms building B [L1 L2] V].
  - split; apply linked_nil.
  - split; cbn [Site.Company_init snd Site.companies Site.buildings
                                  Site.producers].
    + now apply linked_new_parent.
    + exact L2.
  - destruct company as [c|];
      cbn [Site.Building_init snd Site.add_building Site.companies
                              Site.buildings Site.producers];
      split.
    + apply linked_new_child; [reflexivity|reflexivity|exact V|exact L1].
    + now apply linked_new_parent.
    + now apply linked_new_orphan.
    + now apply linked_new_parent.
  - destruct building as [b|];
      cbn [Site.Producer_init snd Site.add_producer Site.companies
                              Site.buildings Site.producers];
      split.
    + eapply linked_same_links; [reflexivity| |exact L1].
      symmetry. now apply map_update_nth_same.
    + apply linked_new_child; [reflexivity|reflexivity|exact V|exact L2].
    + exact L1.
    + now apply linked_new_orphan.
Qed.

Lemma constructors_keep_site_consistent_witness :
  Site.built test_site /\ Site.consistent test_site.
Proof.
  assert (B : Site.built test_site).
  { change test_site
      with (snd (Site.Producer_init
                   (snd (Site.Building_init
                           (snd (Site.Company_init Site.empty "st1"%string None))
                           "dv1"%string None (Some 0)))
                   "cp1"%string 1%Z (Some 0))).
    apply Site.built_producer;
      [apply Site.built_building;
       [apply Site.built_company; apply Site.built_empty|simpl; lia]
      |simpl; lia]. }
  split; [exact B|]. exact (constructors_keep_site_consistent test_site B).
Defined.
